(** * Career-advisor quiz service: question rotation, option shuffling,
      attempt history and the question-source fallback.

    The development embeds
      - [src/utils/helpers.js]: [shuffleArray];
      - the aptitude handlers of [src/controllers/profileController.js]:
        [generateQuestions] with its local [processSection],
        [resetQuestionPool], and the module-level array [userAttempts];
      - [src/services/geminiService.js]: [generateAptitudeQuestions] and
        the built-in [fallbackQuestions];
    and states the properties of the written specification over them.
    The composite score of the recommendation engine, whose code is not
    among the sources, is modelled from the specification. *)

From Stdlib Require Import ZArith QArith Qround Lqa String Ascii List Lia.
From stdpp Require Import base option list gmap strings pretty.
Import ListNotations.

Local Open Scope string_scope.
Local Open Scope Z_scope.
Local Open Scope nat_scope.
Local Open Scope list_scope.

(* ===================================================================== *)
(** * Math.random and the state it threads                                *)
(* ===================================================================== *)

(** A value of [Math.random()]: a number [r] with [0 <= r < 1].  The range
    is part of the type, as it is part of the language definition.  The
    value is kept as an exact rational; the JavaScript double arithmetic of
    [Math.floor(Math.random() * n)] is idealised to exact arithmetic, both
    give an integer of [0 .. n-1]. *)
Record UnitReal : Type := mkUnitReal {
  unit_val : Q;
  unit_range : Qle_bool 0 unit_val && negb (Qle_bool 1 unit_val) = true
}.

(** A computation that may call [Math.random]: it reads the number of calls
    made so far and returns the number of calls made after it. *)
Definition Rand (A : Type) : Type := nat -> A * nat.

Definition ret {A} (a : A) : Rand A := fun k => (a, k).

Definition bind {A B} (m : Rand A) (f : A -> Rand B) : Rand B :=
  fun k => let (a, k') := m k in f a k'.

Notation "'do' x <- m ; f" := (bind m (fun x => f))
  (at level 10, x name, m at level 100, f at level 200).

(** [array.map(f)] with an effectful callback: the callbacks run from the
    first element to the last. *)
Fixpoint mapM {A B} (f : A -> Rand B) (l : list A) : Rand (list B) :=
  match l with
  | [] => ret []
  | x :: l' => do y <- f x; do ys <- mapM f l'; ret (y :: ys)
  end.

(** [Math.floor(r * n)] as an array index. *)
Definition floorTimes (r : UnitReal) (n : nat) : nat :=
  Z.to_nat (Qfloor (unit_val r * inject_Z (Z.of_nat n))).

Module Helpers.
Section Shuffle.

(** [random k] is the value of the [k]-th call of [Math.random()] made by
    the process (counting from 0). *)
Variable random : nat -> UnitReal.

Definition Math_random : Rand UnitReal := fun k => (random k, S k).

Context {A : Type}.

(** [[shuffled[i], shuffled[j]] = [shuffled[j], shuffled[i]]].  Both indices
    are in range whenever the loop of [shuffleArray] runs (lemma
    [floorTimes_le]); outside the range JavaScript would store [undefined]
    and grow the array, a case in which the list model leaves the array
    as it is and that [shuffleArray] never reaches. *)
Definition swap (shuffled : list A) (i j : nat) : list A :=
  match shuffled !! i, shuffled !! j with
  | Some xi, Some xj => <[j := xi]> (<[i := xj]> shuffled)
  | _, _ => shuffled
  end.

(** The loop [for (let i = shuffled.length - 1; i > 0; i--)], entered with
    loop counter [i]. *)
Fixpoint shuffle_loop (i : nat) (shuffled : list A) : Rand (list A) :=
  match i with
  | 0 => ret shuffled
  | S i' =>
      do r <- Math_random;
      let j := floorTimes r (i + 1) in
      shuffle_loop i' (swap shuffled i j)
  end.

(** [exports.shuffleArray]: copy the argument ([[...array]]), then run the
    Fisher-Yates loop on the copy. *)
Definition shuffleArray (array : list A) : Rand (list A) :=
  let shuffled := array in
  shuffle_loop (length shuffled - 1) shuffled.

(** ** The same function on array objects

    JavaScript arrays are objects on the heap and are passed by
    reference.  A heap maps the address of an array object to its
    contents; [[...array]] allocates a new object. *)
Definition alloc (h : gmap nat (list A)) (contents : list A)
  : nat * gmap nat (list A) :=
  let r := fresh (dom h) in (r, <[r := contents]> h).

Fixpoint shuffle_loop_ref (i : nat) (shuffled : nat) (h : gmap nat (list A))
  : Rand (gmap nat (list A)) :=
  match i with
  | 0 => ret h
  | S i' =>
      do r <- Math_random;
      let j := floorTimes r (i + 1) in
      shuffle_loop_ref i' shuffled (alter (fun a => swap a i j) shuffled h)
  end.

(** [None] stands for a dangling reference, which JavaScript excludes. *)
Definition shuffleArray_ref (array : nat) (h : gmap nat (list A))
  : Rand (option (nat * gmap nat (list A))) :=
  match h !! array with
  | None => ret None
  | Some contents =>
      let (shuffled, h1) := alloc h contents in
      do h2 <- shuffle_loop_ref (length contents - 1) shuffled h1;
      ret (Some (shuffled, h2))
  end.

End Shuffle.
End Helpers.

(* ===================================================================== *)
(** * Data model                                                          *)
(* ===================================================================== *)

(** A quiz question [{id, question, options, answerIndex}]. *)
Record Question : Type := mkQuestion {
  id : string;
  question : string;
  options : list string;
  answerIndex : Z
}.

(** The object [{quantitative, logical, verbal}]: a question bank, and also
    the body of a successful response. *)
Record Questions : Type := mkQuestions {
  quantitative : list Question;
  logical : list Question;
  verbal : list Question
}.

(** An element of [userAttempts]; [timestamp] is the [Date] in milliseconds
    since the epoch. *)
Record Attempt : Type := mkAttempt {
  userEmail : string;
  classLevel : option string;
  questionIds : list string;
  timestamp : Z
}.

(** The three readings of the system clock made while one quiz request is
    served, in program order: [Date.now()] of the 24-hour lookup, [new
    Date()] stored in the attempt record, [Date.now()] of the clean-up. *)
Record Clock : Type := mkClock {
  now_lookup : Z;
  now_record : Z;
  now_prune : Z
}.

(** What a handler sends: [res.status(400).json({ok: false, message})] or
    [res.json({ok: true, ...})].  The [catch] branches (status 500) are
    entered by exceptions only; the typed inputs of this model raise none. *)
Inductive Response (P : Type) : Type :=
| BadRequest (message : string)
| Ok (payload : P).
Arguments BadRequest {P} message.
Arguments Ok {P} payload.

(** [!v] for a string that may be absent: [undefined] and the empty string
    are falsy. *)
Definition falsy (v : option string) : bool :=
  match v with
  | None => true
  | Some s => String.eqb s ""
  end.

(** [array[index]]: [None] stands for [undefined]. *)
Definition at_index {A} (array : list A) (index : Z) : option A :=
  if (index <? 0)%Z then None else array !! Z.to_nat index.

(** [array.indexOf(x)] on an array of strings, [-1] when [x] is absent;
    [undefined] is equal to no string. *)
Fixpoint indexOf_from (array : list string) (x : string) (i : Z) : Z :=
  match array with
  | [] => (-1)%Z
  | y :: rest => if String.eqb y x then i else indexOf_from rest x (i + 1)%Z
  end.

Definition indexOf (array : list string) (x : option string) : Z :=
  match x with
  | None => (-1)%Z
  | Some s => indexOf_from array s 0%Z
  end.

Definition oneDayMs : Z := (24 * 60 * 60 * 1000)%Z.
Definition sevenDaysMs : Z := (7 * 24 * 60 * 60 * 1000)%Z.

(* ===================================================================== *)
(** * The aptitude controller                                             *)
(* ===================================================================== *)

Module Controller.
Section Handlers.

Variable random : nat -> UnitReal.

(** The callback of [shuffled.map] in [processSection]. *)
Definition shuffleOptions (q : Question) : Rand Question :=
  let correctAnswer := at_index (options q) (answerIndex q) in
  do shuffledOptions <- Helpers.shuffleArray random (options q);
  ret {| id := id q;
         question := question q;
         options := shuffledOptions;
         answerIndex := indexOf shuffledOptions correctAnswer |}.

(** [availableQuestions] after the fallback test of [processSection]. *)
Definition availableQuestions (sectionQuestions : list Question)
  (usedIds : list string) : list Question :=
  let available := filter (fun q => id q ∉ usedIds) sectionQuestions in
  if length available <? 10 then sectionQuestions else available.

(** [const shuffled = shuffleArray(availableQuestions).slice(0, 10)]. *)
Definition shuffleAndTake (sectionQuestions : list Question)
  (usedIds : list string) : Rand (list Question) :=
  do all <- Helpers.shuffleArray random
              (availableQuestions sectionQuestions usedIds);
  ret (take 10 all).

Definition processSection (sectionQuestions : list Question)
  (usedIds : list string) : Rand (list Question) :=
  do shuffled <- shuffleAndTake sectionQuestions usedIds;
  mapM shuffleOptions shuffled.

(** [userAttempts.filter(...)] of the last 24 hours for [email]. *)
Definition recentAttempts (userAttempts : list Attempt) (email : string)
  (now : Z) : list Attempt :=
  let oneDayAgo := (now - oneDayMs)%Z in
  filter (fun attempt =>
            userEmail attempt = email ∧ (oneDayAgo ≤ timestamp attempt)%Z)
         userAttempts.

(** The [forEach] that concatenates the question ids of the recent
    attempts (an array is always truthy, so the [if] always passes). *)
Definition usedQuestionIds (recent : list Attempt) : list string :=
  fold_left (fun used attempt => used ++ questionIds attempt) recent [].

(** [allQuestionIds]. *)
Definition allQuestionIds (questions : Questions) : list string :=
  (id <$> quantitative questions) ++ (id <$> logical questions)
    ++ (id <$> verbal questions).

(** The clean-up of attempts older than 7 days. *)
Definition pruneAttempts (userAttempts : list Attempt) (now : Z)
  : list Attempt :=
  let sevenDaysAgo := (now - sevenDaysMs)%Z in
  filter (fun attempt => (sevenDaysAgo ≤ timestamp attempt)%Z) userAttempts.

(** [exports.generateQuestions].  [allQuestions] is the awaited result of
    [geminiService.generateAptitudeQuestions(classLevel || "other")];
    [userAttempts] is the module-level array, returned in its new state. *)
Definition generateQuestions (classLevel email : option string)
  (clock : Clock) (allQuestions : Questions) (userAttempts : list Attempt)
  : Rand (Response Questions * list Attempt) :=
  if falsy email then
    ret (BadRequest "User email is required", userAttempts)
  else
    let email := default "" email in
    let recent := recentAttempts userAttempts email (now_lookup clock) in
    let usedIds := usedQuestionIds recent in
    do quant <- processSection (quantitative allQuestions) usedIds;
    do logic <- processSection (logical allQuestions) usedIds;
    do verb <- processSection (verbal allQuestions) usedIds;
    let questions :=
      {| quantitative := quant; logical := logic; verbal := verb |} in
    let pushed :=
      userAttempts ++
        [ {| userEmail := email;
             classLevel := classLevel;
             questionIds := allQuestionIds questions;
             timestamp := now_record clock |} ] in
    ret (Ok questions, pruneAttempts pushed (now_prune clock)).

(** [exports.resetQuestionPool]. *)
Definition resetQuestionPool (email : option string)
  (userAttempts : list Attempt) : Response string * list Attempt :=
  if falsy email then
    (BadRequest "User email is required", userAttempts)
  else
    let email := default "" email in
    let filtered :=
      filter (fun attempt => userEmail attempt ≠ email) userAttempts in
    (Ok "Question pool reset successfully", filtered).

(** The states of [userAttempts]: the array starts empty
    ([const userAttempts = []]) and only the two handlers change it. *)
Inductive Reachable : list Attempt -> Prop :=
| Reachable_start : Reachable []
| Reachable_generateQuestions classLevel email clock allQuestions
    userAttempts k :
    Reachable userAttempts ->
    Reachable (snd (fst (generateQuestions classLevel email clock
                           allQuestions userAttempts k)))
| Reachable_resetQuestionPool email userAttempts :
    Reachable userAttempts ->
    Reachable (snd (resetQuestionPool email userAttempts)).

End Handlers.
End Controller.

(* ===================================================================== *)
(** * The question-generation service                                     *)
(* ===================================================================== *)

Module GeminiService.

(** ** JavaScript values

    A parsed JSON document, plus [undefined] for what property access
    yields on a missing member.  Numbers are the integers, which is all the
    question format uses. *)
#[warnings="-register-all"] Inductive JsValue : Type :=
| JUndefined
| JNull
| JBool (b : bool)
| JNumber (n : Z)
| JString (s : string)
| JArray (items : list JsValue)
| JObject (fields : list (string * JsValue)).

(** Truthiness: [undefined], [null], [false], [0] and the empty string are
    falsy; arrays and objects are truthy, empty ones included. *)
Definition truthy (v : JsValue) : bool :=
  match v with
  | JUndefined | JNull => false
  | JBool b => b
  | JNumber n => negb (n =? 0)%Z
  | JString s => negb (String.eqb s "")
  | JArray _ | JObject _ => true
  end.

Fixpoint assoc (name : string) (fields : list (string * JsValue))
  : option JsValue :=
  match fields with
  | [] => None
  | (k, v) :: rest => if String.eqb k name then Some v else assoc name rest
  end.

(** [v.name] for the member names of this file, none of which is a built-in
    member of a primitive or of an array.  [None] is the [TypeError] of a
    property read on [null] or [undefined]. *)
Definition getProp (v : JsValue) (name : string) : option JsValue :=
  match v with
  | JUndefined | JNull => None
  | JObject fields => Some (default JUndefined (assoc name fields))
  | JBool _ | JNumber _ | JString _ | JArray _ => Some JUndefined
  end.

(** [v[0]]. The first character of a string is returned as the string of
    its first byte: no caller looks at it, a string has none of the members
    read next. *)
Definition getFirst (v : JsValue) : option JsValue :=
  match v with
  | JUndefined | JNull => None
  | JArray items => Some (default JUndefined (head items))
  | JObject fields => Some (default JUndefined (assoc "0" fields))
  | JString s =>
      Some (match s with
            | EmptyString => JUndefined
            | String c _ => JString (String c EmptyString)
            end)
  | JBool _ | JNumber _ => Some JUndefined
  end.

(** Optional chaining [v?.name] and [v?.[0]]: [undefined] on [null] and
    [undefined]. *)
Definition optProp (v : JsValue) (name : string) : JsValue :=
  default JUndefined (getProp v name).

Definition optFirst (v : JsValue) : JsValue :=
  default JUndefined (getFirst v).

(** [data?.candidates?.[0]?.content?.parts?.[0]?.text ||
     data?.candidates?.[0]?.output_text]. *)
Definition responseText (data : JsValue) : JsValue :=
  let candidate := optFirst (optProp data "candidates") in
  let text :=
    optProp (optFirst (optProp (optProp candidate "content") "parts")) "text" in
  if truthy text then text else optProp candidate "output_text".

(** [text.replace(/```json|```/g, "")]: scanning from the left, a match of
    the longer alternative is tried first and the matched characters are
    dropped.  [skip] counts the characters of the current match still to
    drop. *)
Fixpoint stripFences_from (skip : nat) (text : string) : string :=
  match text with
  | EmptyString => EmptyString
  | String c rest =>
      match skip with
      | S n => stripFences_from n rest
      | O =>
          if String.prefix "```json" text then stripFences_from 6 rest
          else if String.prefix "```" text then stripFences_from 2 rest
          else String c (stripFences_from 0 rest)
      end
  end.

Definition stripFences (text : string) : string := stripFences_from 0 text.

(** ** The prompt *)

(** The five values interpolated into the prompt; the rest of the prompt
    is the same text for every class level. *)
Record PromptParts : Type := mkPromptParts {
  levelText : string;
  difficultyGuide : string;
  quantTopics : string;
  logicalTopics : string;
  verbalTopics : string
}.

Definition newline : string := String (ascii_of_nat 10) EmptyString.

Definition level10th : PromptParts :=
  {| levelText :=
      "class 10 (secondary school) student in India";
     difficultyGuide :=
      String.concat newline
      [ "DIFFICULTY LEVEL: INTERMEDIATE";
        "- Mathematics: Basic algebra, linear equations, quadratic equations (simple), geometry (triangles, circles, areas), percentages, ratio & proportion, simple interest, speed-time-distance";
        "- Complexity: Moderate calculations, 2-3 step problems";
        "- Avoid: Advanced trigonometry, calculus, complex word problems" ];
     quantTopics :=
      "algebra (linear/quadratic equations), geometry (areas, volumes, Pythagoras), percentages, profit/loss, simple/compound interest, ratio/proportion, speed/time/distance, number systems";
     logicalTopics :=
      "number series, coding-decoding, blood relations, direction sense, rankings, analogies, syllogisms (basic), statement conclusions";
     verbalTopics :=
      "synonyms/antonyms (moderate difficulty), sentence correction, fill in the blanks, one-word substitution, idioms & phrases, active/passive voice, direct/indirect speech" |}.

Definition level12th : PromptParts :=
  {| levelText :=
      "class 12 (higher secondary) student in India";
     difficultyGuide :=
      String.concat newline
      [ "DIFFICULTY LEVEL: ADVANCED";
        "- Mathematics: Advanced algebra, trigonometry, calculus basics, complex geometry, data interpretation, probability, permutation & combination, logarithms";
        "- Complexity: Multi-step problems requiring analytical thinking, 3-4 step solutions";
        "- Include: Application-based problems, competitive exam level questions" ];
     quantTopics :=
      "trigonometry, calculus (differentiation/integration basics), complex numbers, probability, permutation & combination, matrices, logarithms, data interpretation, advanced algebra, coordinate geometry";
     logicalTopics :=
      "complex patterns, data sufficiency, logical deduction, statement & assumptions, critical reasoning, puzzles, seating arrangements, input-output, advanced syllogisms";
     verbalTopics :=
      "advanced vocabulary, reading comprehension, para jumbles, sentence improvement, error spotting, cloze test, idioms & phrases (advanced), inference questions" |}.

Definition levelOther : PromptParts :=
  {| levelText :=
      "Indian school student (general level)";
     difficultyGuide :=
      "DIFFICULTY LEVEL: MODERATE - Mix of basic and intermediate questions";
     quantTopics :=
      "basic arithmetic, algebra, geometry, percentages, profit/loss, time & work";
     logicalTopics :=
      "patterns, series, coding-decoding, basic reasoning";
     verbalTopics :=
      "grammar, vocabulary, sentence formation" |}.

Definition promptParts (classLevel : string) : PromptParts :=
  if String.eqb classLevel "10th" then level10th
  else if String.eqb classLevel "12th" then level12th
  else levelOther.

(** ** The built-in question set *)

Definition fallback_quantitative : list Question :=
  [
    mkQuestion "q1"
      "A shopkeeper sells an item at 20% profit. If the cost price is ₹500, what is the selling price?"
      ["₹600"; "₹550"; "₹625"; "₹580"] 0;
    mkQuestion "q2"
      "If 3x + 5 = 20, what is the value of x?"
      ["3"; "4"; "5"; "6"] 2;
    mkQuestion "q3"
      "A train 150m long passes a pole in 10 seconds. What is the speed of the train in km/h?"
      ["45 km/h"; "54 km/h"; "60 km/h"; "72 km/h"] 1;
    mkQuestion "q4"
      "If the area of a circle is 154 cm², what is its radius? (Take π = 22/7)"
      ["5 cm"; "6 cm"; "7 cm"; "8 cm"] 2;
    mkQuestion "q5"
      "A number when divided by 7 gives a quotient of 12 and remainder 5. What is the number?"
      ["84"; "89"; "91"; "96"] 1;
    mkQuestion "q6"
      "If 25% of a number is 75, what is 40% of that number?"
      ["100"; "120"; "150"; "180"] 1;
    mkQuestion "q7"
      "The sum of three consecutive even numbers is 54. What is the largest number?"
      ["16"; "18"; "20"; "22"] 2;
    mkQuestion "q8"
      "If a person walks at 6 km/h, how long will it take to cover 4.5 km?"
      ["40 minutes"; "45 minutes"; "50 minutes"; "55 minutes"] 1;
    mkQuestion "q9"
      "A rectangle has length 12 cm and width 8 cm. What is the area of a square with the same perimeter?"
      ["64 cm²"; "81 cm²"; "100 cm²"; "121 cm²"] 2;
    mkQuestion "q10"
      "If 2^5 × 3^2 = ?"
      ["144"; "192"; "288"; "324"] 2
  ].

Definition fallback_logical : list Question :=
  [
    mkQuestion "l1"
      "In a code, CAT is written as 3120. How is DOG written in that code?"
      ["4157"; "4156"; "4158"; "4159"] 0;
    mkQuestion "l2"
      "If all roses are flowers and some flowers are red, which statement must be true?"
      ["All roses are red"; "Some roses are red"; "No roses are red"; "Cannot be determined"] 3;
    mkQuestion "l3"
      "What comes next: 2, 6, 12, 20, 30, ?"
      ["40"; "42"; "44"; "46"] 1;
    mkQuestion "l4"
      "If Monday is the first day, what day will it be after 25 days?"
      ["Thursday"; "Friday"; "Saturday"; "Sunday"] 1;
    mkQuestion "l5"
      "A is taller than B, C is shorter than A. Who is the tallest?"
      ["A"; "B"; "C"; "Cannot be determined"] 0;
    mkQuestion "l6"
      "In a row, Priya is 15th from the left and 20th from the right. How many people are in the row?"
      ["33"; "34"; "35"; "36"] 1;
    mkQuestion "l7"
      "If 5 × 3 = 15, 7 × 4 = 28, then 9 × 6 = ?"
      ["45"; "54"; "63"; "72"] 1;
    mkQuestion "l8"
      "Complete the series: Z, Y, X, W, V, ?"
      ["U"; "T"; "S"; "R"] 0;
    mkQuestion "l9"
      "If all doctors are professionals and some professionals are teachers, which is true?"
      ["All doctors are teachers"; "Some doctors are teachers"; "No doctors are teachers"; "Cannot be determined"] 3;
    mkQuestion "l10"
      "Find the odd one out: 8, 27, 64, 100, 125"
      ["8"; "27"; "100"; "125"] 2
  ].

Definition fallback_verbal : list Question :=
  [
    mkQuestion "v1"
      "Choose the correct synonym for 'Benevolent':"
      ["Cruel"; "Kind"; "Strict"; "Lazy"] 1;
    mkQuestion "v2"
      "Fill in the blank: She is the _____ student in the class."
      ["good"; "better"; "best"; "well"] 2;
    mkQuestion "v3"
      "Identify the error: 'Neither of the students were present.'"
      ["No error"; "were should be was"; "students should be student"; "present should be presence"] 1;
    mkQuestion "v4"
      "Choose the correct meaning of 'Procrastinate':"
      ["To do immediately"; "To delay or postpone"; "To complete quickly"; "To organize"] 1;
    mkQuestion "v5"
      "Select the correctly spelled word:"
      ["Accomodate"; "Accommodate"; "Acommodate"; "Acomodate"] 1;
    mkQuestion "v6"
      "Choose the appropriate preposition: 'She is allergic _____ peanuts.'"
      ["to"; "for"; "with"; "at"] 0;
    mkQuestion "v7"
      "What is the antonym of 'Abundant'?"
      ["Plentiful"; "Scarce"; "Many"; "Rich"] 1;
    mkQuestion "v8"
      "Identify the figure of speech: 'The wind whispered through the trees.'"
      ["Simile"; "Metaphor"; "Personification"; "Alliteration"] 2;
    mkQuestion "v9"
      "Choose the correct form: 'I wish I _____ harder for the exam.'"
      ["study"; "studied"; "had studied"; "will study"] 2;
    mkQuestion "v10"
      "What does 'Eloquent' mean?"
      ["Unable to speak"; "Fluent and persuasive in speaking"; "Quiet and shy"; "Rude and impolite"] 1
  ].

Definition fallbackBank : Questions :=
  {| quantitative := fallback_quantitative;
     logical := fallback_logical;
     verbal := fallback_verbal |}.

(** The object literal of a question and of a question set, as values. *)
Definition questionValue (q : Question) : JsValue :=
  JObject [ ("id", JString (id q));
            ("question", JString (question q));
            ("options", JArray (JString <$> options q));
            ("answerIndex", JNumber (answerIndex q)) ].

Definition questionsValue (b : Questions) : JsValue :=
  JObject [ ("quantitative", JArray (questionValue <$> quantitative b));
            ("logical", JArray (questionValue <$> logical b));
            ("verbal", JArray (questionValue <$> verbal b)) ].

(** [const fallbackQuestions = {...}]. *)
Definition fallbackQuestions : JsValue := questionsValue fallbackBank.

(** The typed reading of a question set: the values on which the property
    reads and array methods of the controller mean what the typed model of
    the controller says. *)
Fixpoint asStrings (items : list JsValue) : option (list string) :=
  match items with
  | [] => Some []
  | JString s :: rest =>
      match asStrings rest with
      | Some l => Some (s :: l)
      | None => None
      end
  | _ :: _ => None
  end.

Definition asQuestion (v : JsValue) : option Question :=
  match v with
  | JObject fields =>
      match assoc "id" fields, assoc "question" fields,
            assoc "options" fields, assoc "answerIndex" fields with
      | Some (JString i), Some (JString text), Some (JArray opts),
        Some (JNumber n) =>
          match asStrings opts with
          | Some os => Some (mkQuestion i text os n)
          | None => None
          end
      | _, _, _, _ => None
      end
  | _ => None
  end.

Fixpoint asSection (items : list JsValue) : option (list Question) :=
  match items with
  | [] => Some []
  | v :: rest =>
      match asQuestion v, asSection rest with
      | Some q, Some l => Some (q :: l)
      | _, _ => None
      end
  end.

Definition asQuestions (v : JsValue) : option Questions :=
  match getProp v "quantitative", getProp v "logical", getProp v "verbal" with
  | Some (JArray quant), Some (JArray logic), Some (JArray verb) =>
      match asSection quant, asSection logic, asSection verb with
      | Some q, Some l, Some v' => Some (mkQuestions q l v')
      | _, _, _ => None
      end
  | _, _, _ => None
  end.

(** ** The outside world *)

(** What [await fetch(...)] and [await res.json()] give: the request
    fails, or a response arrives with its [ok] flag, its status and its
    body, [None] when the body is not JSON ([res.json()] rejects). *)
Inductive FetchResult : Type :=
| NetworkFailure
| HttpResponse (ok : bool) (status : Z) (json : option JsValue).

Section Service.

(** [process.env.GEMINI_API_KEY]. *)
Variable GEMINI_API_KEY : option string.

(** The answer of the generation API to a request made with a key and a
    prompt. *)
Variable fetch : string -> PromptParts -> FetchResult.

(** Built-ins of the language: [String.prototype.trim] and [JSON.parse],
    [None] for its [SyntaxError]. *)
Variable trim : string -> string.
Variable JSON_parse : string -> option JsValue.

(** The body of the [try] block after a response has arrived with
    [res.ok]; [None] is an exception, caught by the [catch] below. *)
Definition questionsOfResponse (json : option JsValue) : option JsValue :=
  match json with
  | None => None
  | Some data =>
      let text := responseText data in
      if negb (truthy text) then Some fallbackQuestions
      else
        match text with
        | JString t =>
            let cleaned := trim (stripFences t) in
            match JSON_parse cleaned with
            | None => None
            | Some parsed =>
                match getProp parsed "quantitative",
                      getProp parsed "logical",
                      getProp parsed "verbal" with
                | Some quant, Some logic, Some verb =>
                    if negb (truthy quant) || negb (truthy logic)
                       || negb (truthy verb)
                    then Some fallbackQuestions
                    else Some parsed
                | _, _, _ => None
                end
            end
        | _ => None
        end
  end.

(** [exports.generateAptitudeQuestions]. *)
Definition generateAptitudeQuestions (classLevel : string) : JsValue :=
  let parts := promptParts classLevel in
  if falsy GEMINI_API_KEY then fallbackQuestions
  else
    match fetch (default "" GEMINI_API_KEY) parts with
    | NetworkFailure => fallbackQuestions
    | HttpResponse ok status json =>
        if negb ok then fallbackQuestions
        else default fallbackQuestions (questionsOfResponse json)
    end.

End Service.
End GeminiService.

(* ===================================================================== *)
(** * The composite score                                                 *)
(* ===================================================================== *)

Module Scorer.

(** Modelled from the spec: the scorer of the recommendation engine
    ([python_engine/scorer.py]) is not among the sources; its README gives
    the weights and the front end reads the result as a score out of 10.
    The composite is 0.6 x similarity + 0.2 x aptitude + 0.2 x interest,
    scaled from the unit range of the sub-scores to the 0-10 display
    range. Scores are exact rationals. *)
Definition composite (similarity aptitude interest : Q) : Q :=
  (10 * ((6 # 10) * similarity + (2 # 10) * aptitude + (2 # 10) * interest))%Q.

End Scorer.

(* ===================================================================== *)
(** * Stored users and scores on the server                               *)
(* ===================================================================== *)

Module Sanitizer.
Import GeminiService.

(** [delete object.name] on an object given by its members. *)
Definition deleteKey (name : string) (fields : list (string * JsValue))
  : list (string * JsValue) :=
  filter (fun member => fst member <> name) fields.

(** The argument of [sanitizeUser]: a database document, whose [toObject]
    method returns its members as a plain object, or a plain object. *)
Inductive UserArg : Type :=
| Document (plain : list (string * JsValue))
| PlainObject (fields : list (string * JsValue)).

(** [exports.sanitizeUser] of the helpers.  A plain object of data has no
    function among its members: a truthy member [toObject] is called and
    the call throws, which is [None]. *)
Definition sanitizeUser (user : UserArg)
  : option (list (string * JsValue)) :=
  let copy :=
    match user with
    | Document plain => Some plain
    | PlainObject fields =>
        if truthy (default JUndefined (assoc "toObject" fields)) then None
        else Some fields
    end in
  match copy with
  | None => None
  | Some safeUser =>
      Some (deleteKey "password"
              (deleteKey "__v" (deleteKey "passwordHash" safeUser)))
  end.

End Sanitizer.

Module Profile.
Import GeminiService.

(** The result of the conversion of a value to a number. *)
Inductive JsNum : Type :=
| NaN
| Infinity (negative : bool)
| Finite (q : Q).

(** [x < n] and [x > n] for a finite number [n]; a comparison with [NaN]
    is false. *)
Definition lessThan (x : JsNum) (n : Q) : bool :=
  match x with
  | NaN => false
  | Infinity negative => negative
  | Finite q => negb (Qle_bool n q)
  end.

Definition greaterThan (x : JsNum) (n : Q) : bool :=
  match x with
  | NaN => false
  | Infinity negative => negb negative
  | Finite q => negb (Qle_bool q n)
  end.

(** [typeof v === 'object']. *)
Definition typeofObject (v : JsValue) : bool :=
  match v with
  | JNull | JArray _ | JObject _ => true
  | JUndefined | JBool _ | JNumber _ | JString _ => false
  end.

(** The members of [student.aptitudeScores] after the assignment of the
    object literal: the three scores as the document holds them, cast to
    the type [Number] of the schema, and [testTakenAt], the [Date] in
    milliseconds. *)
Record AptitudeScores : Type := mkAptitudeScores {
  savedQuantitative : JsValue;
  savedLogical : JsValue;
  savedVerbal : JsValue;
  testTakenAt : Z
}.

(** What [submitScores] sends: [res.status(status).json({ok: false,
    message})], or [res.json({ok: true, message: "Scores saved
    successfully", scores: student.aptitudeScores})] for the document
    [student] whose [aptitudeScores] hold [assigned]. *)
Inductive SubmitReply (Student : Type) : Type :=
| Failure (status : Z) (message : string)
| ScoresSaved (student : Student) (assigned : AptitudeScores).
Arguments Failure {Student} status message.
Arguments ScoresSaved {Student} student assigned.

(** What [getProfile] sends: [res.status(status).json({ok: false,
    message})] or [res.json({ok: true, user})]. *)
Inductive ProfileReply : Type :=
| ProfileFailure (status : Z) (message : string)
| ProfileFound (user : list (string * JsValue)).

Section Handlers.

(** The conversion of a value to a number made by [<] and [>]. *)
Variable ToNumber : JsValue -> JsNum.

(** The database: the documents, [String.prototype.toLowerCase], the query
    [findOne({email})] ([None] when it rejects, [Some None] for [null])
    and [save()] of a document whose [aptitudeScores] were assigned
    ([false] when it rejects). *)
Variable Student : Type.
Variable toLowerCase : string -> string.
Variable findOne : string -> option (option Student).
Variable save : Student -> AptitudeScores -> bool.

(** The score members of the schema are declared [{ type: Number, min: 0,
    max: 10, default: null }]: a member of the document holds what the
    cast to [Number] makes of the value assigned.  A number is kept;
    [castToNumber] is the cast of a value that is no number (the string
    ["7"] becomes 7, [true] becomes 1). *)
Variable castToNumber : JsValue -> JsValue.

Definition castScore (score : JsValue) : JsValue :=
  match score with
  | JNumber n => JNumber n
  | JUndefined | JNull | JBool _ | JString _ | JArray _ | JObject _ =>
      castToNumber score
  end.

(** [Student.findByEmail]: [this.findOne({ email: email.toLowerCase() })].
    Only a string has the method; [None] is an exception or a rejection. *)
Definition findByEmail (email : JsValue) : option (option Student) :=
  match email with
  | JString s => findOne (toLowerCase s)
  | JUndefined | JNull | JBool _ | JNumber _ | JArray _ | JObject _ => None
  end.

(** [score < 0 || score > 10]. *)
Definition outOfRange (score : JsValue) : bool :=
  lessThan (ToNumber score) 0 || greaterThan (ToNumber score) 10.

(** [exports.submitScores] on the request body, with the clock reading of
    [new Date()].  The range checks read the members of the request; the
    document holds their casts.  The second component lists the calls of
    [save()], each with the document and the scores it holds. *)
Definition submitScores (body : JsValue) (now : Z)
  : SubmitReply Student * list (Student * AptitudeScores) :=
  let caught := (Failure 500 "Failed to save scores", []) in
  match getProp body "email", getProp body "scores" with
  | Some email, Some scores =>
      if negb (truthy email) then
        (Failure 400 "User email is required", [])
      else if negb (truthy scores) || negb (typeofObject scores) then
        (Failure 400 "Scores object is required", [])
      else
        match getProp scores "quantitative", getProp scores "logical",
              getProp scores "verbal" with
        | Some quantitative, Some logical, Some verbal =>
            if outOfRange quantitative || outOfRange logical
               || outOfRange verbal
            then (Failure 400 "Scores must be between 0 and 10", [])
            else
              match findByEmail email with
              | None => caught
              | Some None => (Failure 404 "Student not found", [])
              | Some (Some student) =>
                  let assigned :=
                    {| savedQuantitative := castScore quantitative;
                       savedLogical := castScore logical;
                       savedVerbal := castScore verbal;
                       testTakenAt := now |} in
                  if save student assigned then
                    (ScoresSaved student assigned, [(student, assigned)])
                  else
                    (Failure 500 "Failed to save scores",
                     [(student, assigned)])
              end
        | _, _, _ => caught
        end
  | _, _ => caught
  end.

(** [student.toObject()], the members of the document as a plain object. *)
Variable toObject : Student -> list (string * JsValue).

(** [exports.getProfile]; [email] is the route parameter, a string. *)
Definition getProfile (email : string) : ProfileReply :=
  match findByEmail (JString email) with
  | None => ProfileFailure 500 "Internal server error."
  | Some None => ProfileFailure 404 "Profile not found."
  | Some (Some student) =>
      ProfileFound
        (Sanitizer.deleteKey "__v"
           (Sanitizer.deleteKey "passwordHash" (toObject student)))
  end.

End Handlers.
End Profile.

(* ===================================================================== *)
(** * The test in the front end                                           *)
(* ===================================================================== *)

Module App.

(** An element of [sections]. *)
Record SectionInfo : Type := mkSectionInfo {
  key : string;
  title : string;
  subtitle : string
}.

(** [const sections = [...]]. *)
Definition sections : list SectionInfo :=
  [ mkSectionInfo "quantitative" "Section 1: Quantitative Aptitude"
      "Answer all 10 questions. Each question is worth 1 mark.";
    mkSectionInfo "logical" "Section 2: Logical Reasoning"
      "Answer all 10 questions. Each question is worth 1 mark.";
    mkSectionInfo "verbal" "Section 3: Verbal & Communication"
      "Answer all 10 questions. Each question is worth 1 mark." ].

(** [currentAptitudeQuestions[key] || []] on the question set of a
    successful response: a name that is no member gives [undefined], hence
    the empty array. *)
Definition questionsOf (currentAptitudeQuestions : Questions) (key : string)
  : list Question :=
  if String.eqb key "quantitative" then quantitative currentAptitudeQuestions
  else if String.eqb key "logical" then logical currentAptitudeQuestions
  else if String.eqb key "verbal" then verbal currentAptitudeQuestions
  else [].

(** The template string [`${section.key}-${index}`]; an array index is
    written in decimal. *)
Definition answerKey (key : string) (index : nat) : string :=
  String.append key (String.append "-" (pretty index)).

(** The [change] listener of option [optIdx] of the question at [index]:
    [answers[answerKey] = optIdx]. *)
Definition recordAnswer (key : string) (index optIdx : nat)
  (answers : gmap string nat) : gmap string nat :=
  <[answerKey key index := optIdx]> answers.

(** The test [chosen !== undefined && chosen === q.answerIndex] for the
    question at [index]. *)
Definition isCorrect (key : string) (answers : gmap string nat)
  (index : nat) (q : Question) : bool :=
  match answers !! answerKey key index with
  | None => false
  | Some chosen => (Z.of_nat chosen =? answerIndex q)%Z
  end.

(** [questions.forEach((q, index) => ...)] from [index] on, with the
    counter [correct]. *)
Fixpoint countCorrect (key : string) (answers : gmap string nat)
  (index : nat) (questions : list Question) (correct : nat) : nat :=
  match questions with
  | [] => correct
  | q :: rest =>
      countCorrect key answers (S index) rest
        (if isCorrect key answers index q then correct + 1 else correct)
  end.

(** The object [scores]; its members [quantitative], [logical] and
    [verbal] carry the suffix [Score] here, the plain names being those of
    the question sets. *)
Record Scores : Type := mkScores {
  quantitativeScore : nat;
  logicalScore : nat;
  verbalScore : nat
}.

(** [scores[key] = correct] for the keys of [sections]. *)
Definition setScore (key : string) (correct : nat) (scores : Scores) : Scores :=
  if String.eqb key "quantitative" then
    mkScores correct (logicalScore scores) (verbalScore scores)
  else if String.eqb key "logical" then
    mkScores (quantitativeScore scores) correct (verbalScore scores)
  else if String.eqb key "verbal" then
    mkScores (quantitativeScore scores) (logicalScore scores) correct
  else scores.

(** The scores computed by [calculateAndShowResults]. *)
Definition calculateScores (currentAptitudeQuestions : Questions)
  (answers : gmap string nat) : Scores :=
  fold_left
    (fun scores section =>
       let questions := questionsOf currentAptitudeQuestions (key section) in
       setScore (key section)
         (countCorrect (key section) answers 0 questions 0) scores)
    sections (mkScores 0 0 0).

(** The loop of [submitCurrentSection] that looks for a question without
    a recorded answer. *)
Fixpoint allAnswered_from (key : string) (answers : gmap string nat)
  (i : nat) (remaining : nat) : bool :=
  match remaining with
  | O => true
  | S n =>
      match answers !! answerKey key i with
      | None => false
      | Some _ => allAnswered_from key answers (S i) n
      end
  end.

Definition allAnswered (key : string) (answers : gmap string nat)
  (questions : list Question) : bool :=
  allAnswered_from key answers 0 (length questions).

(** The stored scores [user.aptitudeScores]: numbers, [None] for a member
    that is [null] or missing.  The sums and comparisons made on them are
    exact on the whole numbers a test produces. *)
Record StoredScores : Type := mkStoredScores {
  storedQuantitative : option Q;
  storedLogical : option Q;
  storedVerbal : option Q;
  storedTestTakenAt : option string
}.

(** The user object kept in the local storage, as far as the test and the
    recommendations read or write it. *)
Record StoredUser : Type := mkStoredUser {
  email : option string;
  aptitudeScores : option StoredScores
}.

(** [getStoredScores], on the result of [getStoredUser()]. *)
Definition getStoredScores (user : option StoredUser) : option StoredScores :=
  match user with
  | Some u => aptitudeScores u
  | None => None
  end.

(** The request body of [saveScores]: [JSON.stringify({ email: user.email,
    scores })] as the server parses it; [None] when the guard returns
    before any request is made. *)
Definition saveScores (user : option StoredUser) (scores : Scores)
  : option GeminiService.JsValue :=
  match user with
  | None => None
  | Some u =>
      if falsy (email u) then None
      else
        Some (GeminiService.JObject
                [ ("email", GeminiService.JString (default "" (email u)));
                  ("scores",
                   GeminiService.JObject
                     [ ("quantitative",
                        GeminiService.JNumber
                          (Z.of_nat (quantitativeScore scores)));
                       ("logical",
                        GeminiService.JNumber
                          (Z.of_nat (logicalScore scores)));
                       ("verbal",
                        GeminiService.JNumber
                          (Z.of_nat (verbalScore scores))) ]) ])
  end.

(** [calculateAndShowResults] up to the call of [saveScores]: the user
    object in the local storage afterwards and the request body posted.
    [user] is the result of [getStoredUser()], [testTakenAt] the string
    [new Date().toISOString()]. *)
Definition calculateAndShowResults (user : option StoredUser)
  (currentAptitudeQuestions : Questions) (answers : gmap string nat)
  (testTakenAt : string) : option StoredUser * option GeminiService.JsValue :=
  let scores := calculateScores currentAptitudeQuestions answers in
  let stored :=
    match user with
    | Some u =>
        Some {| email := email u;
                aptitudeScores :=
                  Some {| storedQuantitative :=
                            Some (inject_Z (Z.of_nat (quantitativeScore scores)));
                          storedLogical :=
                            Some (inject_Z (Z.of_nat (logicalScore scores)));
                          storedVerbal :=
                            Some (inject_Z (Z.of_nat (verbalScore scores)));
                          storedTestTakenAt := Some testTakenAt |} |}
    | None => None
    end in
  (stored, saveScores stored scores).

(** How [fetchRecommendations] goes on after its checks. *)
Inductive Gate : Type :=
| PleaseLogIn
| CompleteTestFirst
| ScoreTooLow (average : Q)
| Fetch.

(** The checks at the start of [fetchRecommendations]; [a ?? 0] is
    [default 0 a]. *)
Definition recommendationsGate (user : option StoredUser) : Gate :=
  let scores := getStoredScores user in
  match user with
  | None => PleaseLogIn
  | Some _ =>
      match scores with
      | None => CompleteTestFirst
      | Some scores =>
          if falsy (storedTestTakenAt scores) then CompleteTestFirst
          else
            let quantScore := default 0%Q (storedQuantitative scores) in
            let logicScore := default 0%Q (storedLogical scores) in
            let verbalScore := default 0%Q (storedVerbal scores) in
            let average := ((quantScore + logicScore + verbalScore) / 3)%Q in
            if Qle_bool average 4 then ScoreTooLow average else Fetch
      end
  end.














(** [parseFloat(x.toFixed(2))]: the multiple of 0.01 nearest to [x], the
    one of larger magnitude when two are equally near. *)
Definition toFixed2 (x : Q) : Q :=
  if Qle_bool 0 x then Qfloor (x * 100 + (1 # 2)) # 100
  else (- (Qfloor (- x * 100 + (1 # 2)) # 100))%Q.

(** The flag [lowScore] of [renderResults], which puts the warning about
    the low score on the results page; [None] when the page says that no
    test was taken. *)
Definition lowScore (user : option StoredUser) : option bool :=
  match getStoredScores user with
  | None => None
  | Some scores =>
      if falsy (storedTestTakenAt scores) then None
      else
        let quantScore := default 0%Q (storedQuantitative scores) in
        let logicScore := default 0%Q (storedLogical scores) in
        let verbalScore := default 0%Q (storedVerbal scores) in
        let average :=
          toFixed2 ((quantScore + logicScore + verbalScore) / 3)%Q in
        Some (Qle_bool average 4)
  end.

(** No character of the text is a hyphen. *)
Fixpoint dashFree (s : string) : Prop :=
  match s with
  | EmptyString => True
  | String c s' => c <> "-"%char /\ dashFree s'
  end.

End App.

(* ===================================================================== *)
(** * Code fences in a text                                               *)
(* ===================================================================== *)

Module Fences.

(** The number of backticks a text starts with. *)
Fixpoint lead (s : string) : nat :=
  match s with
  | EmptyString => 0
  | String c s' => if Ascii.eqb c "`" then S (lead s') else 0
  end.

(** No position of the text starts three backticks. *)
Fixpoint noFence (s : string) : Prop :=
  match s with
  | EmptyString => True
  | String c s' => lead s < 3 /\ noFence s'
  end.

End Fences.

(* ===================================================================== *)
(** * Sample inputs                                                       *)
(* ===================================================================== *)

(** A value of [Math.random()] from a rational: the rational itself when it
    lies in the range, 0 otherwise. *)
Definition unitReal (q : Q) : UnitReal :=
  match Qle_bool 0 q && negb (Qle_bool 1 q) as b
        return (Qle_bool 0 q && negb (Qle_bool 1 q) = b -> UnitReal) with
  | true => fun H => mkUnitReal q H
  | false => fun _ => mkUnitReal 0 eq_refl
  end eq_refl.

(** A fixed sequence of draws: 0.11, 0.48, 0.85, 0.22, ... *)
Definition sampleRandom (k : nat) : UnitReal :=
  unitReal (Z.of_nat ((k * 37 + 11) mod 100) # 100).

(** A question set as the generation source may return it: the verbal
    section holds nine questions only. *)
Definition shortBank : Questions :=
  {| quantitative := GeminiService.fallback_quantitative;
     logical := GeminiService.fallback_logical;
     verbal := take 9 GeminiService.fallback_verbal |}.

Definition eightDaysMs : Z := (8 * 24 * 60 * 60 * 1000)%Z.

(** A question set whose quantitative section holds 20 candidates: the
    generation source was asked for ids q1 to q10 and used each twice. *)
Definition repeatedIdsBank : Questions :=
  {| quantitative :=
       GeminiService.fallback_quantitative
         ++ GeminiService.fallback_quantitative;
     logical := GeminiService.fallback_logical;
     verbal := GeminiService.fallback_verbal |}.

(** The quantitative questions again, under ids of their own. *)
Definition moreQuantitative : list Question :=
  (fun q => mkQuestion (String.append "x" (id q)) (question q) (options q)
              (answerIndex q)) <$> GeminiService.fallback_quantitative.

(** A question set with 20 quantitative candidates and pairwise distinct
    ids. *)
Definition twentyBank : Questions :=
  {| quantitative := GeminiService.fallback_quantitative ++ moreQuantitative;
     logical := GeminiService.fallback_logical;
     verbal := GeminiService.fallback_verbal |}.

Definition oneHourMs : Z := (60 * 60 * 1000)%Z.

(** A reply of the generation API that carries [text] the way the API
    does. *)
Definition replyWith (text : string) : GeminiService.JsValue :=
  GeminiService.JObject
    [ ("candidates",
       GeminiService.JArray
         [ GeminiService.JObject
             [ ("content",
                GeminiService.JObject
                  [ ("parts",
                     GeminiService.JArray
                       [ GeminiService.JObject
                           [ ("text", GeminiService.JString text) ] ]) ]) ] ])
    ].

(** A stand-in for [JSON.parse] that reads every text as a document with
    the quantitative and logical sections only. *)
Definition parseTwoSections (text : string) : option GeminiService.JsValue :=
  Some (GeminiService.JObject
          [ ("quantitative", GeminiService.JArray []);
            ("logical", GeminiService.JArray []) ]).

(** A stand-in for [JSON.parse] that reads every text as an array, which
    has none of the three members. *)
Definition parseArray (text : string) : option GeminiService.JsValue :=
  Some (GeminiService.JArray [ GeminiService.JObject [] ]).

(** A stand-in for [JSON.parse] that reads every text as a document whose
    verbal section is [null]. *)
Definition parseNullVerbal (text : string) : option GeminiService.JsValue :=
  Some (GeminiService.JObject
          [ ("quantitative", GeminiService.JArray []);
            ("logical", GeminiService.JArray []);
            ("verbal", GeminiService.JNull) ]).

(** A reply of the generation API whose text member is a number. *)
Definition replyWithNumber : GeminiService.JsValue :=
  GeminiService.JObject
    [ ("candidates",
       GeminiService.JArray
         [ GeminiService.JObject
             [ ("output_text", GeminiService.JNumber 7) ] ]) ].

(** A stand-in for [JSON.parse] that reads every text as the document of
    [twentyBank]. *)
Definition parseTwentyBank (text : string) : option GeminiService.JsValue :=
  Some (GeminiService.questionsValue twentyBank).

(** The draw [j / n], for which [Math.floor(r * n)] is [j] when [j < n]. *)
Definition drawFor (j n : nat) : UnitReal :=
  unitReal (Z.of_nat j # Pos.of_nat n).

(** A conversion to numbers for values that are no strings, arrays or
    objects; these are read as [NaN] here. *)
Definition numberOf (v : GeminiService.JsValue) : Profile.JsNum :=
  match v with
  | GeminiService.JNumber n => Profile.Finite (inject_Z n)
  | GeminiService.JNull => Profile.Finite 0
  | GeminiService.JBool b => Profile.Finite (if b then 1 else 0)
  | _ => Profile.NaN
  end.

(** A stand-in for the cast to [Number] of values that are no numbers:
    booleans become 1 and 0, every other value [null]. *)
Definition castBooleans (v : GeminiService.JsValue) : GeminiService.JsValue :=
  match v with
  | GeminiService.JBool b => GeminiService.JNumber (if b then 1 else 0)
  | _ => GeminiService.JNull
  end.

(** A database that holds a student, named by the email, for every
    email it is asked for, and saves whatever it is given. *)
Definition everyStudent (email : string) : option (option string) :=
  Some (Some email).

Definition alwaysSaved (student : string)
  (assigned : Profile.AptitudeScores) : bool := true.

(** A request body of [submitScores]. *)
Definition scoresRequest : GeminiService.JsValue :=
  GeminiService.JObject
    [ ("email", GeminiService.JString "asha@example.com");
      ("scores",
       GeminiService.JObject
         [ ("quantitative", GeminiService.JNumber 7);
           ("logical", GeminiService.JNumber 10);
           ("verbal", GeminiService.JNumber 0) ]) ].

(* ===================================================================== *)
(** * Properties of the Rand computations                                 *)
(* ===================================================================== *)

Lemma floorTimes_lt (r : UnitReal) (n : nat) : 0 < n -> floorTimes r n < n.
Proof.
  intros Hn. unfold floorTimes.
  destruct r as [v Hv]; cbn [unit_val].
  apply andb_true_iff in Hv as [H0 H1].
  apply Qle_bool_iff in H0.
  apply negb_true_iff in H1.
  assert (Hlt : (v < 1)%Q).
  { apply Qnot_le_lt. intros Hle. apply Qle_bool_iff in Hle. congruence. }
  set (x := (v * inject_Z (Z.of_nat n))%Q).
  assert (Hx : (x < inject_Z (Z.of_nat n))%Q).
  { unfold x. rewrite <- (Qmult_1_l (inject_Z (Z.of_nat n))) at 2.
    apply Qmult_lt_compat_r; [| exact Hlt].
    change 0%Q with (inject_Z 0). rewrite <- Zlt_Qlt. lia. }
  assert (Hf : (Qfloor x < Z.of_nat n)%Z).
  { rewrite Zlt_Qlt. eapply Qle_lt_trans; [apply Qfloor_le | exact Hx]. }
  fold x. clearbody x. generalize dependent (Qfloor x). intros z Hz.
  destruct (Z.le_gt_cases 0 z) as [Hpos | Hneg].
  - rewrite <- (Nat2Z.id n). apply Z2Nat.inj_lt; lia.
  - rewrite Z2Nat.nonpos by lia. exact Hn.
Qed.

Lemma floorTimes_le (r : UnitReal) (i : nat) : floorTimes r (i + 1) <= i.
Proof. pose proof (floorTimes_lt r (i + 1)). lia. Qed.

Lemma mapM_length {A B} (f : A -> Rand B) (l : list A) (k : nat) :
  length (fst (mapM f l k)) = length l.
Proof.
  revert k. induction l as [| x l IH]; intros k; simpl; [reflexivity |].
  unfold bind, ret. destruct (f x k) as [y k1].
  specialize (IH k1). destruct (mapM f l k1) as [ys k2]. simpl in *.
  now rewrite IH.
Qed.

(** Every element of the result of [mapM] is the result of the callback on
    the element at the same position, run at some number of calls. *)
Lemma mapM_Forall2 {A B} (f : A -> Rand B) (l : list A) (k : nat) :
  Forall2 (fun x y => exists k', y = fst (f x k')) l (fst (mapM f l k)).
Proof.
  revert k. induction l as [| x l IH]; intros k; simpl; [constructor |].
  unfold bind, ret. destruct (f x k) as [y k1] eqn:Hy.
  specialize (IH k1). destruct (mapM f l k1) as [ys k2]. simpl in *.
  constructor; [| exact IH]. exists k. now rewrite Hy.
Qed.

Module HelpersFacts.
Import Helpers.
Section Shuffle.

Variable random : nat -> UnitReal.
Context {A : Type}.
Implicit Types (l : list A) (i j k : nat).

Lemma swap_Permutation l i j : swap l i j ≡ₚ l.
Proof.
  unfold swap.
  destruct (l !! i) as [xi |] eqn:Hi; [| reflexivity].
  destruct (l !! j) as [xj |] eqn:Hj; [| reflexivity].
  now apply Permutation_insert_swap.
Qed.

Lemma swap_length l i j : length (swap l i j) = length l.
Proof. apply Permutation_length, swap_Permutation. Qed.

(** In range, [swap] stores the two old values crosswise. *)
Lemma swap_lookup l i j xi xj :
  l !! i = Some xi -> l !! j = Some xj ->
  swap l i j !! i = Some xj /\ swap l i j !! j = Some xi.
Proof.
  intros Hi Hj. unfold swap. rewrite Hi, Hj.
  pose proof (lookup_lt_Some _ _ _ Hi) as Li.
  pose proof (lookup_lt_Some _ _ _ Hj) as Lj.
  destruct (decide (i = j)) as [-> | Hne].
  - assert (xi = xj) by congruence. subst xj.
    rewrite list_lookup_insert_eq by (rewrite length_insert; lia). auto.
  - split.
    + rewrite list_lookup_insert_ne by congruence.
      now rewrite list_lookup_insert_eq.
    + rewrite list_lookup_insert_eq by (rewrite length_insert; lia).
      reflexivity.
Qed.

Lemma shuffle_loop_Permutation i l k :
  fst (shuffle_loop random i l k) ≡ₚ l.
Proof.
  revert l k. induction i as [| i IH]; intros l k; simpl; [reflexivity |].
  unfold bind, Math_random. rewrite IH. apply swap_Permutation.
Qed.

(** The loop makes one call of [Math.random] per iteration. *)
Lemma shuffle_loop_calls i l k : snd (shuffle_loop random i l k) = k + i.
Proof.
  revert l k. induction i as [| i IH]; intros l k; simpl.
  - unfold ret; simpl; lia.
  - unfold bind, Math_random. rewrite IH. lia.
Qed.

(** Every index the loop touches is inside the array: with the loop
    counter [i] inside the array, both reads of the swap succeed. *)
Lemma swap_in_range l i (r : UnitReal) :
  i < length l ->
  is_Some (l !! i) /\ is_Some (l !! floorTimes r (i + 1)).
Proof.
  intros Hi. pose proof (floorTimes_le r i).
  split; apply lookup_lt_is_Some; lia.
Qed.

Lemma shuffleArray_Permutation l k : fst (shuffleArray random l k) ≡ₚ l.
Proof. apply shuffle_loop_Permutation. Qed.

Lemma shuffleArray_length l k :
  length (fst (shuffleArray random l k)) = length l.
Proof. apply Permutation_length, shuffleArray_Permutation. Qed.

Lemma shuffleArray_elem_of l k x :
  x ∈ fst (shuffleArray random l k) <-> x ∈ l.
Proof. now rewrite shuffleArray_Permutation. Qed.

(** The loop on the array object at [r] does to its contents what the loop
    on a list does, and touches no other object. *)
Lemma shuffle_loop_ref_spec i r (h : gmap nat (list A)) l k :
  h !! r = Some l ->
  shuffle_loop_ref random i r h k =
    (<[r := fst (shuffle_loop random i l k)]> h,
     snd (shuffle_loop random i l k)).
Proof.
  revert h l k. induction i as [| i IH]; intros h l k Hr; simpl.
  - unfold ret; simpl. now rewrite insert_id.
  - unfold bind, Math_random.
    set (j := floorTimes (random k) (S i + 1)).
    rewrite (IH _ (swap l (S i) j)).
    + f_equal. apply map_eq. intros r'.
      destruct (decide (r = r')) as [<- | Hne].
      * now rewrite !lookup_insert_eq.
      * rewrite !lookup_insert_ne by done. now rewrite lookup_alter_ne.
    + rewrite lookup_alter_eq, Hr. reflexivity.
Qed.

End Shuffle.
End HelpersFacts.

(* ===================================================================== *)
(** * Properties of the controller                                        *)
(* ===================================================================== *)

Lemma at_index_Some {A} (l : list A) (i : Z) (x : A) :
  at_index l i = Some x <-> (0 <= i)%Z /\ l !! Z.to_nat i = Some x.
Proof.
  unfold at_index. destruct (Z.ltb_spec i 0); split.
  - discriminate.
  - intros [? _]. lia.
  - auto.
  - now intros [_ ?].
Qed.

Lemma at_index_valid {A} (l : list A) (i : Z) :
  (0 <= i < Z.of_nat (length l))%Z -> is_Some (at_index l i).
Proof.
  intros [H0 H1]. unfold at_index.
  destruct (Z.ltb_spec i 0); [lia |].
  apply lookup_lt_is_Some. lia.
Qed.

Lemma at_index_elem_of {A} (l : list A) (i : Z) (x : A) :
  at_index l i = Some x -> x ∈ l.
Proof.
  intros [_ H]%at_index_Some. apply list_elem_of_lookup. eauto.
Qed.

(** [indexOf] finds the first position that holds the string. *)
Lemma indexOf_from_elem (l : list string) (x : string) (i : Z) :
  x ∈ l ->
  exists n, indexOf_from l x i = (i + Z.of_nat n)%Z /\ l !! n = Some x
            /\ forall m, m < n -> l !! m <> Some x.
Proof.
  revert i. induction l as [| y l IH]; intros i Hin.
  - now apply elem_of_nil in Hin.
  - simpl. destruct (String.eqb_spec y x) as [-> | Hne].
    + exists 0. repeat split; [lia | intros m Hm; lia].
    + apply elem_of_cons in Hin as [-> | Hin]; [congruence |].
      destruct (IH (i + 1)%Z Hin) as (n & Hn & Hl & Hfirst).
      exists (S n). repeat split; [lia | exact Hl |].
      intros [| m] Hm; simpl; [congruence | apply Hfirst; lia].
Qed.

Lemma indexOf_from_absent (l : list string) (x : string) (i : Z) :
  x ∉ l -> indexOf_from l x i = (-1)%Z.
Proof.
  revert i. induction l as [| y l IH]; intros i Hin; simpl; [reflexivity |].
  apply not_elem_of_cons in Hin as [Hne Hin].
  destruct (String.eqb_spec y x); [congruence | now apply IH].
Qed.

Lemma at_index_indexOf (l : list string) (x : string) :
  x ∈ l -> at_index l (indexOf l (Some x)) = Some x.
Proof.
  intros Hin. simpl.
  destruct (indexOf_from_elem l x 0 Hin) as (n & -> & Hl & _).
  apply at_index_Some. split; [lia |].
  now replace (Z.to_nat (0 + Z.of_nat n)) with n by lia.
Qed.

Module ControllerFacts.
Import Helpers HelpersFacts Controller.
Section Handlers.

Variable random : nat -> UnitReal.
Implicit Types (q : Question) (k : nat) (usedIds : list string).

(** The map callback keeps the id and the text, permutes the options and
    makes the new index read the option the old index read. *)
Lemma shuffleOptions_spec q k :
  let q' := fst (shuffleOptions random q k) in
  id q' = id q /\ question q' = question q /\ options q' ≡ₚ options q
  /\ at_index (options q') (answerIndex q')
     = at_index (options q) (answerIndex q).
Proof.
  unfold shuffleOptions, bind, ret.
  pose proof (shuffleArray_Permutation random (options q) k) as Hperm.
  destruct (shuffleArray random (options q) k) as [shuffled k1].
  simpl in *. repeat split; [exact Hperm |].
  destruct (at_index (options q) (answerIndex q)) as [text |] eqn:Hc.
  - apply at_index_indexOf. rewrite Hperm. eapply at_index_elem_of, Hc.
  - reflexivity.
Qed.

Lemma processSection_unfold sectionQuestions usedIds k :
  processSection random sectionQuestions usedIds k =
    mapM (shuffleOptions random)
         (fst (shuffleAndTake random sectionQuestions usedIds k))
         (snd (shuffleAndTake random sectionQuestions usedIds k)).
Proof.
  unfold processSection, bind.
  now destruct (shuffleAndTake random sectionQuestions usedIds k).
Qed.

Lemma shuffleAndTake_unfold sectionQuestions usedIds k :
  fst (shuffleAndTake random sectionQuestions usedIds k) =
    take 10 (fst (shuffleArray random
                    (availableQuestions sectionQuestions usedIds) k)).
Proof.
  unfold shuffleAndTake, bind, ret.
  now destruct (shuffleArray random _ k).
Qed.

Lemma processSection_Forall2 sectionQuestions usedIds k :
  Forall2 (fun q q' => exists k', q' = fst (shuffleOptions random q k'))
          (fst (shuffleAndTake random sectionQuestions usedIds k))
          (fst (processSection random sectionQuestions usedIds k)).
Proof. rewrite processSection_unfold. apply mapM_Forall2. Qed.

Lemma processSection_length sectionQuestions usedIds k :
  length (fst (processSection random sectionQuestions usedIds k)) =
    min 10 (length (availableQuestions sectionQuestions usedIds)).
Proof.
  rewrite processSection_unfold, mapM_length, shuffleAndTake_unfold.
  now rewrite length_take, shuffleArray_length.
Qed.

Lemma processSection_ids sectionQuestions usedIds k :
  id <$> fst (processSection random sectionQuestions usedIds k) =
    id <$> fst (shuffleAndTake random sectionQuestions usedIds k).
Proof.
  pose proof (processSection_Forall2 sectionQuestions usedIds k) as H.
  induction H as [| q q' l l' [k' ->] _ IH]; [reflexivity |].
  simpl. f_equal; [| exact IH]. apply shuffleOptions_spec.
Qed.

(** The selected questions are drawn, without replacement, from the pool
    left after the fallback test. *)
Lemma shuffleAndTake_submseteq sectionQuestions usedIds k :
  fst (shuffleAndTake random sectionQuestions usedIds k)
    ⊆+ availableQuestions sectionQuestions usedIds.
Proof.
  rewrite shuffleAndTake_unfold.
  rewrite <- (shuffleArray_Permutation random
                (availableQuestions sectionQuestions usedIds) k) at 2.
  apply sublist_submseteq, sublist_take.
Qed.

Lemma filter_nothing_used (sectionQuestions : list Question) :
  filter (fun q => id q ∉ @nil string) sectionQuestions = sectionQuestions.
Proof.
  induction sectionQuestions as [| q l IH]; [reflexivity |].
  rewrite filter_cons_True by apply not_elem_of_nil. now rewrite IH.
Qed.

Lemma availableQuestions_enough sectionQuestions usedIds :
  10 <= length (filter (fun q => id q ∉ usedIds) sectionQuestions) ->
  availableQuestions sectionQuestions usedIds
    = filter (fun q => id q ∉ usedIds) sectionQuestions.
Proof.
  intros H. unfold availableQuestions.
  destruct (Nat.ltb_spec (length (filter (fun q => id q ∉ usedIds)
                                    sectionQuestions)) 10); [lia | easy].
Qed.

Lemma availableQuestions_fallback sectionQuestions usedIds :
  length (filter (fun q => id q ∉ usedIds) sectionQuestions) < 10 ->
  availableQuestions sectionQuestions usedIds = sectionQuestions.
Proof.
  intros H. unfold availableQuestions.
  destruct (Nat.ltb_spec (length (filter (fun q => id q ∉ usedIds)
                                    sectionQuestions)) 10); [easy | lia].
Qed.

Lemma availableQuestions_nothing_used sectionQuestions :
  availableQuestions sectionQuestions [] = sectionQuestions.
Proof.
  unfold availableQuestions. rewrite filter_nothing_used.
  now destruct (length sectionQuestions <? 10).
Qed.

(** [processSection] looks at its arguments through the pool only. *)
Lemma processSection_pool sectionQuestions usedIds sectionQuestions' usedIds' :
  availableQuestions sectionQuestions usedIds
    = availableQuestions sectionQuestions' usedIds' ->
  processSection random sectionQuestions usedIds
    = processSection random sectionQuestions' usedIds'.
Proof.
  intros H. unfold processSection, shuffleAndTake. now rewrite H.
Qed.

Lemma processSection_ids_submseteq sectionQuestions usedIds k :
  id <$> fst (processSection random sectionQuestions usedIds k)
    ⊆+ id <$> availableQuestions sectionQuestions usedIds.
Proof.
  rewrite processSection_ids.
  apply fmap_submseteq, shuffleAndTake_submseteq.
Qed.

Lemma falsy_false (email : option string) :
  falsy email = false <-> exists e, email = Some e /\ e <> "".
Proof.
  destruct email as [e |]; simpl.
  - destruct (String.eqb_spec e ""); split.
    + discriminate.
    + intros (e' & [= <-] & Hne). contradiction.
    + eauto.
    + reflexivity.
  - split; [discriminate | intros (e & [=] & _)].
Qed.

(** A request without a (non-empty) email is answered with status 400 and
    changes nothing. *)
Lemma generateQuestions_rejected classLevel email clock allQuestions
  userAttempts k :
  falsy email = true ->
  generateQuestions random classLevel email clock allQuestions userAttempts k
    = (BadRequest "User email is required", userAttempts, k).
Proof. intros H. unfold generateQuestions. now rewrite H. Qed.

(** The steps of a request that carries an email. *)
Lemma generateQuestions_served classLevel e clock allQuestions userAttempts k :
  e <> "" ->
  let usedIds :=
    usedQuestionIds (recentAttempts userAttempts e (now_lookup clock)) in
  let r1 := processSection random (quantitative allQuestions) usedIds k in
  let r2 := processSection random (logical allQuestions) usedIds (snd r1) in
  let r3 := processSection random (verbal allQuestions) usedIds (snd r2) in
  let questions :=
    {| quantitative := fst r1; logical := fst r2; verbal := fst r3 |} in
  generateQuestions random classLevel (Some e) clock allQuestions
    userAttempts k
    = (Ok questions,
       pruneAttempts
         (userAttempts ++
            [ {| userEmail := e;
                 classLevel := classLevel;
                 questionIds := allQuestionIds questions;
                 timestamp := now_record clock |} ])
         (now_prune clock),
       snd r3).
Proof.
  intros Hne usedIds r1 r2 r3 questions.
  unfold generateQuestions, falsy.
  destruct (String.eqb_spec e "") as [| _]; [contradiction |].
  unfold bind, ret. change (default "" (Some e)) with e. fold usedIds.
  subst questions r3 r2 r1.
  destruct (processSection random (quantitative allQuestions) usedIds k)
    as [quant k1]; simpl.
  destruct (processSection random (logical allQuestions) usedIds k1)
    as [logic k2]; simpl.
  destruct (processSection random (verbal allQuestions) usedIds k2)
    as [verb k3]; simpl.
  reflexivity.
Qed.

(** Only a request that carries an email gets questions. *)
Lemma generateQuestions_Ok_inv classLevel email clock allQuestions
  userAttempts k questions :
  fst (fst (generateQuestions random classLevel email clock allQuestions
              userAttempts k)) = Ok questions ->
  exists e, email = Some e /\ e <> "".
Proof.
  intros H. apply falsy_false.
  destruct (falsy email) eqn:Hf; [| reflexivity].
  rewrite generateQuestions_rejected in H by exact Hf. discriminate.
Qed.

Lemma availableQuestions_subseteq sectionQuestions usedIds q :
  q ∈ availableQuestions sectionQuestions usedIds -> q ∈ sectionQuestions.
Proof.
  unfold availableQuestions.
  destruct (length _ <? 10); [easy |].
  now intros [_ ?]%list_elem_of_filter.
Qed.

Lemma availableQuestions_length sectionQuestions usedIds :
  10 <= length sectionQuestions ->
  10 <= length (availableQuestions sectionQuestions usedIds).
Proof.
  intros H. unfold availableQuestions.
  destruct (Nat.ltb_spec (length (filter (fun q => id q ∉ usedIds)
                                    sectionQuestions)) 10); lia.
Qed.

(** Every returned question is the option-shuffled form of a question of
    the section. *)
Lemma processSection_origin sectionQuestions usedIds k q' :
  q' ∈ fst (processSection random sectionQuestions usedIds k) ->
  exists q, q ∈ sectionQuestions /\
    id q' = id q /\ question q' = question q /\
    options q' ≡ₚ options q /\
    at_index (options q') (answerIndex q')
      = at_index (options q) (answerIndex q).
Proof.
  intros [n Hn]%list_elem_of_lookup.
  pose proof (processSection_Forall2 sectionQuestions usedIds k) as HF.
  destruct (Forall2_lookup_r _ _ _ _ _ HF Hn) as (q & Hq & k' & ->).
  exists q. split; [| apply shuffleOptions_spec].
  eapply availableQuestions_subseteq, elem_of_submseteq;
    [| apply shuffleAndTake_submseteq].
  apply list_elem_of_lookup. eauto.
Qed.

Lemma pruneAttempts_Forall userAttempts now :
  Forall (fun a => (now - sevenDaysMs <= timestamp a)%Z)
         (pruneAttempts userAttempts now).
Proof.
  apply Forall_forall. intros a Ha.
  now apply list_elem_of_filter in Ha as [Ha _].
Qed.

(** Attempts dropped by a clean-up at time [now] are not recent at [now]. *)
Lemma recentAttempts_pruned userAttempts e now :
  recentAttempts (pruneAttempts userAttempts now) e now
    = recentAttempts userAttempts e now.
Proof.
  unfold recentAttempts, pruneAttempts. rewrite list_filter_filter.
  apply list_filter_iff. intros a. unfold oneDayMs, sevenDaysMs.
  intuition lia.
Qed.

Lemma processSection_ten sectionQuestions usedIds k :
  10 <= length sectionQuestions ->
  length (fst (processSection random sectionQuestions usedIds k)) = 10.
Proof.
  intros Hs. rewrite processSection_length.
  pose proof (availableQuestions_length sectionQuestions usedIds Hs). lia.
Qed.

(** A quiz served from a question set with at least 10 questions per
    section has 10 questions per section. *)
Lemma served_lengths classLevel email clock allQuestions userAttempts k
  questions :
  10 <= length (quantitative allQuestions) ->
  10 <= length (logical allQuestions) ->
  10 <= length (verbal allQuestions) ->
  fst (fst (generateQuestions random classLevel email clock allQuestions
              userAttempts k)) = Ok questions ->
  length (quantitative questions) = 10 /\
  length (logical questions) = 10 /\
  length (verbal questions) = 10.
Proof.
  intros Hq Hl Hv Hok.
  destruct (generateQuestions_Ok_inv _ _ _ _ _ _ _ Hok) as (e & -> & Hne).
  rewrite (generateQuestions_served classLevel e clock allQuestions
             userAttempts k Hne) in Hok.
  simpl in Hok. injection Hok as <-. simpl.
  now rewrite !processSection_ten.
Qed.

(** The ids collected by the [forEach] are the ids of the recent
    attempts. *)
Lemma elem_of_fold_questionIds (l : list Attempt) (acc : list string) x :
  x ∈ fold_left (fun used attempt => used ++ questionIds attempt) l acc
  <-> x ∈ acc \/ exists a, a ∈ l /\ x ∈ questionIds a.
Proof.
  revert acc. induction l as [| a l IH]; intros acc; simpl.
  - split; [auto | intros [? | (a & Ha & _)]; [easy |]].
    now apply elem_of_nil in Ha.
  - rewrite IH, elem_of_app. split.
    + intros [[? | ?] | (a' & Ha' & Hx)]; eauto.
      * right. exists a. split; [apply list_elem_of_here | easy].
      * right. exists a'. split; [now apply list_elem_of_further | easy].
    + intros [? | (a' & Ha' & Hx)]; [auto |].
      apply elem_of_cons in Ha' as [-> | Ha']; eauto.
Qed.

Lemma elem_of_usedQuestionIds (l : list Attempt) x :
  x ∈ usedQuestionIds l <-> exists a, a ∈ l /\ x ∈ questionIds a.
Proof.
  unfold usedQuestionIds. rewrite elem_of_fold_questionIds.
  split; [intros [H | H]; [now apply elem_of_nil in H | exact H] | auto].
Qed.

(** A weaker test lets more elements through. *)
Lemma length_filter_impl {A} (P Q : A -> Prop)
  `{forall x, Decision (P x)} `{forall x, Decision (Q x)} (l : list A) :
  (forall x, x ∈ l -> P x -> Q x) ->
  length (filter P l) <= length (filter Q l).
Proof.
  induction l as [| x l IH]; intros Himpl; [reflexivity |].
  assert (IH' : length (filter P l) <= length (filter Q l)).
  { apply IH. intros y Hy. apply Himpl. now apply list_elem_of_further. }
  destruct (decide (P x)) as [HP | HP].
  - rewrite (filter_cons_True P) by exact HP.
    rewrite (filter_cons_True Q) by (apply Himpl; [apply list_elem_of_here | exact HP]).
    simpl. lia.
  - rewrite (filter_cons_False P) by exact HP.
    destruct (decide (Q x)) as [HQ | HQ].
    + rewrite (filter_cons_True Q) by exact HQ. simpl. lia.
    + now rewrite (filter_cons_False Q) by exact HQ.
Qed.

(** Among questions with pairwise distinct ids, excluding a list of ids
    removes at most as many questions as the list is long. *)
Lemma length_filter_excluded (l : list Question) (ids : list string) :
  NoDup (id <$> l) ->
  length l <= length (filter (fun q => id q ∉ ids) l) + length ids.
Proof.
  intros Hnd.
  pose proof (filter_app_complement (fun q => id q ∉ ids) l) as Hperm.
  apply Permutation_length in Hperm. rewrite length_app in Hperm.
  assert (Hin : length (filter (fun q => ¬ (id q ∉ ids)) l) <= length ids).
  { rewrite <- (length_fmap id).
    apply submseteq_length, NoDup_submseteq.
    - apply (sublist_NoDup _ (id <$> l));
        [exact Hnd | apply fmap_sublist, sublist_filter].
    - intros x (q & -> & Hq)%list_elem_of_fmap.
      apply list_elem_of_filter in Hq as [Hq _].
      destruct (decide (id q ∈ ids)); [assumption | contradiction]. }
  lia.
Qed.

(** The core of the rotation. Let 20 questions of a section with pairwise
    distinct ids be unseen when the section is processed a first time,
    and, when it is processed a second time, let the seen ids include the
    ids returned the first time and exclude every id of the section that
    was unseen and not returned the first time. Then no id returned the
    second time was returned the first time. *)
Lemma processSection_twice sectionQuestions usedIds1 usedIds2 k1 k2 :
  NoDup (id <$> sectionQuestions) ->
  20 <= length (filter (fun q => id q ∉ usedIds1) sectionQuestions) ->
  let ids1 :=
    id <$> fst (processSection random sectionQuestions usedIds1 k1) in
  (forall x, x ∈ ids1 -> x ∈ usedIds2) ->
  (forall q, q ∈ sectionQuestions ->
     id q ∉ usedIds1 -> id q ∉ ids1 -> id q ∉ usedIds2) ->
  forall x,
    x ∈ ids1 ->
    x ∉ id <$> fst (processSection random sectionQuestions usedIds2 k2).
Proof.
  intros Hnd H20 ids1 Hseen Hunseen x Hx1 Hx2.
  set (unseen1 := filter (fun q => id q ∉ usedIds1) sectionQuestions) in *.
  assert (Hlen1 : length ids1 = 10).
  { unfold ids1. rewrite length_fmap, processSection_ten; [reflexivity |].
    pose proof (length_filter (fun q => id q ∉ usedIds1) sectionQuestions)
      as Hle.
    fold unseen1 in Hle. lia. }
  assert (Hleft :
    10 <= length (filter (fun q => id q ∉ usedIds2) sectionQuestions)).
  { assert (Hnd1 : NoDup (id <$> unseen1)).
    { apply (sublist_NoDup _ (id <$> sectionQuestions));
        [exact Hnd | apply fmap_sublist, sublist_filter]. }
    pose proof (length_filter_excluded unseen1 ids1 Hnd1) as Hex.
    assert (Hle :
      length (filter (fun q => id q ∉ ids1) unseen1)
        <= length (filter (fun q => id q ∉ usedIds2) sectionQuestions)).
    { unfold unseen1. rewrite list_filter_filter.
      apply length_filter_impl. intros q Hq [Hn1 Hu1].
      now apply Hunseen. }
    lia. }
  pose proof (processSection_ids_submseteq sectionQuestions usedIds2 k2)
    as Hsub.
  rewrite (availableQuestions_enough _ _ Hleft) in Hsub.
  eapply elem_of_submseteq in Hx2; [| exact Hsub].
  apply list_elem_of_fmap in Hx2 as (q & -> & Hq).
  apply list_elem_of_filter in Hq as [Hq _].
  apply Hq, Hseen, Hx1.
Qed.

(** The same, with the ids seen the second time split into those seen
    before, those returned for the section the first time, and ids that
    belong to no question of the section. *)
Lemma processSection_twice_others sectionQuestions usedIds1 usedIds2
  (others : list string) k1 k2 :
  NoDup (id <$> sectionQuestions) ->
  20 <= length (filter (fun q => id q ∉ usedIds1) sectionQuestions) ->
  let ids1 :=
    id <$> fst (processSection random sectionQuestions usedIds1 k1) in
  (forall x, x ∈ others -> x ∉ id <$> sectionQuestions) ->
  (forall x, x ∈ ids1 -> x ∈ usedIds2) ->
  (forall x, x ∈ usedIds2 -> x ∈ usedIds1 \/ x ∈ ids1 \/ x ∈ others) ->
  forall x,
    x ∈ ids1 ->
    x ∉ id <$> fst (processSection random sectionQuestions usedIds2 k2).
Proof.
  intros Hnd H20 ids1 Hothers Hseen Hsplit.
  apply processSection_twice; [exact Hnd | exact H20 | exact Hseen |].
  intros q Hq Hu1 Hn1 Hu2.
  destruct (Hsplit _ Hu2) as [? | [? | Ho]]; [contradiction .. |].
  apply (Hothers _ Ho). apply list_elem_of_fmap. eauto.
Qed.

(** The ids a section returns are ids of questions of that section. *)
Lemma processSection_ids_of_section sectionQuestions usedIds k x :
  x ∈ id <$> fst (processSection random sectionQuestions usedIds k) ->
  x ∈ id <$> sectionQuestions.
Proof.
  intros (q' & -> & Hq')%list_elem_of_fmap.
  destruct (processSection_origin _ _ _ _ Hq') as (q & Hq & -> & _).
  apply list_elem_of_fmap. eauto.
Qed.

(** What a later request of a student has seen, when the records of that
    student in the store are those left by an earlier request: everything
    the earlier request returned, and nothing the earlier request had
    neither seen nor returned. *)
Lemma second_request_used classLevel e clock1 clock2 userAttempts
  (questions1 : Questions) (userAttempts2 : list Attempt) :
  (now_lookup clock1 <= now_lookup clock2)%Z ->
  (now_prune clock1 - sevenDaysMs <= now_record clock1)%Z ->
  (now_lookup clock2 - oneDayMs <= now_record clock1)%Z ->
  let usedIds1 :=
    usedQuestionIds (recentAttempts userAttempts e (now_lookup clock1)) in
  let store1 :=
    pruneAttempts
      (userAttempts ++
         [ {| userEmail := e;
              classLevel := classLevel;
              questionIds := allQuestionIds questions1;
              timestamp := now_record clock1 |} ])
      (now_prune clock1) in
  (forall a, userEmail a = e -> (a ∈ userAttempts2 <-> a ∈ store1)) ->
  let usedIds2 :=
    usedQuestionIds (recentAttempts userAttempts2 e (now_lookup clock2)) in
  (forall x, x ∈ allQuestionIds questions1 -> x ∈ usedIds2) /\
  (forall x, x ∈ usedIds2 ->
     x ∈ usedIds1 \/ x ∈ allQuestionIds questions1).
Proof.
  intros Hmono Hkept Hday usedIds1 store1 Hsame usedIds2.
  set (record := {| userEmail := e; classLevel := classLevel;
                    questionIds := allQuestionIds questions1;
                    timestamp := now_record clock1 |}) in *.
  split.
  - intros x Hx. apply elem_of_usedQuestionIds. exists record.
    split; [| exact Hx].
    apply list_elem_of_filter. split; [split; [reflexivity | exact Hday] |].
    apply (Hsame record eq_refl).
    apply list_elem_of_filter. split; [exact Hkept |].
    apply elem_of_app. right. apply list_elem_of_here.
  - intros x (a & Ha & Hx)%elem_of_usedQuestionIds.
    apply list_elem_of_filter in Ha as [[Hmail Hrecent] Ha].
    apply (Hsame a Hmail) in Ha.
    apply list_elem_of_filter in Ha as [_ Ha].
    apply elem_of_app in Ha as [Ha | Ha].
    + left. apply elem_of_usedQuestionIds. exists a. split; [| exact Hx].
      apply list_elem_of_filter. split; [| exact Ha].
      split; [exact Hmail | lia].
    + apply list_elem_of_singleton in Ha as ->. now right.
Qed.

End Handlers.
End ControllerFacts.

(* ===================================================================== *)
(** * The shuffle helper                                                  *)
(* ===================================================================== *)

(** C10. For every array and every sequence of random draws, [shuffleArray]
    returns a permutation of its argument (the same elements with the same
    multiplicities), and it returns it in a newly allocated array object:
    the argument object still holds what it held, and so does every other
    object of the heap. *)
Theorem shuffleArray_permutation_fresh_copy :
  forall (random : nat -> UnitReal) (A : Type) (array : list A)
         (h : gmap nat (list A)) (r k : nat),
    h !! r = Some array ->
    let shuffled := fst (Helpers.shuffleArray random array k) in
    shuffled ≡ₚ array /\
    exists r' h',
      Helpers.shuffleArray_ref random r h k =
        (Some (r', h'), snd (Helpers.shuffleArray random array k))
      /\ h' !! r' = Some shuffled
      /\ h !! r' = None
      /\ h' !! r = Some array
      /\ forall r'', r'' <> r' -> h' !! r'' = h !! r''.
Proof.
  intros random A array h r k Hr shuffled.
  split; [apply HelpersFacts.shuffleArray_Permutation |].
  set (r' := fresh (dom h)).
  assert (Hfresh : h !! r' = None).
  { apply not_elem_of_dom. apply is_fresh. }
  assert (Hne : r <> r') by congruence.
  exists r', (<[r' := shuffled]> h).
  repeat split.
  - unfold Helpers.shuffleArray_ref, Helpers.alloc. rewrite Hr.
    fold r'. unfold bind, ret.
    rewrite (HelpersFacts.shuffle_loop_ref_spec random _ r' _ array)
      by apply lookup_insert_eq.
    rewrite insert_insert_eq. reflexivity.
  - apply lookup_insert_eq.
  - exact Hfresh.
  - rewrite lookup_insert_ne by congruence. exact Hr.
  - intros r'' Hr''. now rewrite lookup_insert_ne by congruence.
Qed.

Lemma shuffleArray_permutation_fresh_copy_witness :
  let h : gmap nat (list nat) := {[ 5 := [1; 2; 3; 4] ]} in
  let shuffled := fst (Helpers.shuffleArray sampleRandom [1; 2; 3; 4] 0) in
  shuffled ≡ₚ [1; 2; 3; 4] /\
  exists r' h',
    Helpers.shuffleArray_ref sampleRandom 5 h 0 =
      (Some (r', h'), snd (Helpers.shuffleArray sampleRandom [1; 2; 3; 4] 0))
    /\ h' !! r' = Some shuffled
    /\ h !! r' = None
    /\ h' !! 5 = Some [1; 2; 3; 4]
    /\ forall r'', r'' <> r' -> h' !! r'' = h !! r''.
Proof.
  apply (shuffleArray_permutation_fresh_copy sampleRandom nat [1; 2; 3; 4]
           {[ 5 := [1; 2; 3; 4] ]} 5 0).
  reflexivity.
Defined.

(* ===================================================================== *)
(** * Option shuffling                                                    *)
(* ===================================================================== *)

(** C1. Take the question at any position of the selection of a section,
    and the question returned at that position. If the answer index of the
    selected question is a valid index of its options, then the returned
    question has the same id and text, its options are a permutation of the
    original options, and its options at its answer index hold the option
    text that the original options hold at the original answer index. *)
Theorem shuffled_options_keep_correct_answer :
  forall (random : nat -> UnitReal) (sectionQuestions : list Question)
         (usedIds : list string) (k n : nat) (q q' : Question),
    fst (Controller.shuffleAndTake random sectionQuestions usedIds k) !! n
      = Some q ->
    fst (Controller.processSection random sectionQuestions usedIds k) !! n
      = Some q' ->
    (0 <= answerIndex q < Z.of_nat (length (options q)))%Z ->
    id q' = id q /\ question q' = question q /\
    options q' ≡ₚ options q /\
    exists text,
      at_index (options q) (answerIndex q) = Some text /\
      at_index (options q') (answerIndex q') = Some text.
Proof.
  intros random sectionQuestions usedIds k n q q' Hq Hq' Hvalid.
  pose proof (ControllerFacts.processSection_Forall2 random
                sectionQuestions usedIds k) as HF.
  destruct (Forall2_lookup_lr _ _ _ _ _ _ HF Hq Hq') as [k' ->].
  destruct (ControllerFacts.shuffleOptions_spec random q k')
    as (Hid & Htext & Hperm & Hidx).
  repeat split; try assumption.
  destruct (at_index_valid (options q) (answerIndex q) Hvalid) as [text Ht].
  exists text. split; [exact Ht |]. now rewrite Hidx.
Qed.

(** The returned list has a question at a position exactly when the
    selection has one. *)
Lemma processSection_positions (random : nat -> UnitReal)
  (sectionQuestions : list Question) (usedIds : list string) (k n : nat) :
  is_Some (fst (Controller.processSection random sectionQuestions usedIds k)
             !! n)
  <-> is_Some (fst (Controller.shuffleAndTake random sectionQuestions
                      usedIds k) !! n).
Proof.
  rewrite !lookup_lt_is_Some.
  now rewrite (Forall2_length _ _ _
    (ControllerFacts.processSection_Forall2 random sectionQuestions
       usedIds k)).
Qed.

Lemma shuffled_options_keep_correct_answer_witness :
  let q := mkQuestion "q6"
             "If 25% of a number is 75, what is 40% of that number?"
             ["100"; "120"; "150"; "180"] 1 in
  let q' := mkQuestion "q6"
              "If 25% of a number is 75, what is 40% of that number?"
              ["180"; "100"; "150"; "120"] 3 in
  id q' = id q /\ question q' = question q /\
  options q' ≡ₚ options q /\
  exists text,
    at_index (options q) (answerIndex q) = Some text /\
    at_index (options q') (answerIndex q') = Some text.
Proof.
  apply (shuffled_options_keep_correct_answer sampleRandom
           GeminiService.fallback_quantitative [] 0 0).
  - vm_compute. reflexivity.
  - vm_compute. reflexivity.
  - simpl. lia.
Defined.

(* ===================================================================== *)
(** * Exclusion of recently seen questions                                *)
(* ===================================================================== *)

(** C3. For every section and every list of recently seen ids: when at
    least 10 questions of the section have an unseen id, the returned
    questions are drawn without replacement from those unseen questions, so
    no returned id is a seen one, and there are 10 of them; when fewer than
    10 have an unseen id, the section is processed exactly as if nothing had
    been seen: the returned questions are drawn from the whole section. *)
Theorem processSection_excludes_seen_or_falls_back :
  forall (random : nat -> UnitReal) (sectionQuestions : list Question)
         (usedIds : list string) (k : nat),
    let unseen := filter (fun q => id q ∉ usedIds) sectionQuestions in
    let returned :=
      fst (Controller.processSection random sectionQuestions usedIds k) in
    (10 <= length unseen ->
       Controller.availableQuestions sectionQuestions usedIds = unseen /\
       id <$> returned ⊆+ id <$> unseen /\
       (forall x, x ∈ id <$> returned -> x ∉ usedIds) /\
       length returned = 10)
    /\
    (length unseen < 10 ->
       Controller.availableQuestions sectionQuestions usedIds
         = sectionQuestions /\
       Controller.processSection random sectionQuestions usedIds k
         = Controller.processSection random sectionQuestions [] k /\
       id <$> returned ⊆+ id <$> sectionQuestions /\
       length returned = min 10 (length sectionQuestions)).
Proof.
  intros random sectionQuestions usedIds k unseen returned. split.
  - intros Henough.
    pose proof (ControllerFacts.availableQuestions_enough _ _ Henough) as Hav.
    pose proof (ControllerFacts.processSection_ids_submseteq random
                  sectionQuestions usedIds k) as Hsub.
    rewrite Hav in Hsub. fold unseen returned in Hsub.
    repeat split; try assumption.
    + intros x Hx. eapply elem_of_submseteq in Hx; [| exact Hsub].
      apply list_elem_of_fmap in Hx as (q & -> & Hq).
      now apply list_elem_of_filter in Hq as [Hq _].
    + unfold returned. rewrite ControllerFacts.processSection_length, Hav.
      fold unseen. lia.
  - intros Hfew.
    pose proof (ControllerFacts.availableQuestions_fallback _ _ Hfew) as Hav.
    repeat split; try assumption.
    + rewrite (ControllerFacts.processSection_pool random
                 sectionQuestions usedIds sectionQuestions []);
        [reflexivity |].
      now rewrite Hav, ControllerFacts.availableQuestions_nothing_used.
    + pose proof (ControllerFacts.processSection_ids_submseteq random
                    sectionQuestions usedIds k) as Hsub.
      now rewrite Hav in Hsub.
    + unfold returned. now rewrite ControllerFacts.processSection_length, Hav.
Qed.

Lemma processSection_excludes_seen_or_falls_back_witness :
  let twelve :=
    GeminiService.fallback_quantitative
      ++ take 2 GeminiService.fallback_logical in
  let returned :=
    fst (Controller.processSection sampleRandom twelve ["q1"; "l2"] 0) in
  let returned' :=
    fst (Controller.processSection sampleRandom twelve ["q1"; "l2"; "q7"] 0) in
  (Controller.availableQuestions twelve ["q1"; "l2"]
     = filter (fun q => id q ∉ ["q1"; "l2"]) twelve /\
   id <$> returned
     ⊆+ id <$> filter (fun q => id q ∉ ["q1"; "l2"]) twelve /\
   (forall x, x ∈ id <$> returned -> x ∉ ["q1"; "l2"]) /\
   length returned = 10)
  /\
  (Controller.availableQuestions twelve ["q1"; "l2"; "q7"] = twelve /\
   Controller.processSection sampleRandom twelve ["q1"; "l2"; "q7"] 0
     = Controller.processSection sampleRandom twelve [] 0 /\
   id <$> returned' ⊆+ id <$> twelve /\
   length returned' = min 10 (length twelve)).
Proof.
  intros twelve returned returned'. split.
  - apply (proj1 (processSection_excludes_seen_or_falls_back sampleRandom
                    twelve ["q1"; "l2"] 0)).
    vm_compute. lia.
  - apply (proj2 (processSection_excludes_seen_or_falls_back sampleRandom
                    twelve ["q1"; "l2"; "q7"] 0)).
    vm_compute. lia.
Defined.

(* ===================================================================== *)
(** * The shape of a served quiz                                          *)
(* ===================================================================== *)

(** C5, as stated, fails: a request served from a question set whose verbal
    section holds nine questions succeeds with 29 questions, nine of them
    verbal. *)
Lemma short_bank_quiz_has_29_questions :
  exists questions,
    fst (fst (Controller.generateQuestions sampleRandom (Some "12th")
                (Some "student@example.com") (mkClock 0 0 0)
                shortBank [] 0)) = Ok questions
    /\ length (verbal questions) = 9
    /\ length (quantitative questions ++ logical questions
                 ++ verbal questions) = 29.
Proof.
  eexists. split; [vm_compute; reflexivity |]. vm_compute. split; reflexivity.
Qed.

(** C5, amended. When every section of the question set in use holds at
    least 10 questions (the built-in set does), a successful quiz request
    returns exactly 10 questions per section, 30 in all, and each returned
    question is a question of the same section of the set with its options
    permuted and with an answer index that reads the same option text. *)
Theorem served_quiz_has_thirty_consistent_questions :
  forall (random : nat -> UnitReal) (classLevel email : option string)
         (clock : Clock) (allQuestions : Questions)
         (userAttempts : list Attempt) (k : nat) (questions : Questions),
    10 <= length (quantitative allQuestions) ->
    10 <= length (logical allQuestions) ->
    10 <= length (verbal allQuestions) ->
    fst (fst (Controller.generateQuestions random classLevel email clock
                allQuestions userAttempts k)) = Ok questions ->
    length (quantitative questions) = 10 /\
    length (logical questions) = 10 /\
    length (verbal questions) = 10 /\
    length (quantitative questions ++ logical questions
              ++ verbal questions) = 30 /\
    forall section : Questions -> list Question,
      section = quantitative \/ section = logical \/ section = verbal ->
      forall q', q' ∈ section questions ->
        exists q, q ∈ section allQuestions /\
          id q' = id q /\ question q' = question q /\
          options q' ≡ₚ options q /\
          at_index (options q') (answerIndex q')
            = at_index (options q) (answerIndex q).
Proof.
  intros random classLevel email clock allQuestions userAttempts k questions
    Hq Hl Hv Hok.
  destruct (ControllerFacts.served_lengths random _ _ _ _ _ _ _ Hq Hl Hv Hok)
    as (Lq & Ll & Lv).
  rewrite !length_app, Lq, Ll, Lv.
  repeat split; try reflexivity.
  destruct (ControllerFacts.generateQuestions_Ok_inv random _ _ _ _ _ _ _ Hok)
    as (e & -> & Hne).
  rewrite (ControllerFacts.generateQuestions_served random classLevel e clock
             allQuestions userAttempts k Hne) in Hok.
  simpl in Hok. injection Hok as <-.
  intros section [-> | [-> | ->]] q' Hq'; simpl in Hq';
    eapply ControllerFacts.processSection_origin; exact Hq'.
Qed.

Lemma served_quiz_has_thirty_consistent_questions_witness :
  exists questions,
    fst (fst (Controller.generateQuestions sampleRandom (Some "12th")
                (Some "student@example.com") (mkClock 0 0 0)
                GeminiService.fallbackBank [] 0)) = Ok questions /\
    (length (quantitative questions) = 10 /\
     length (logical questions) = 10 /\
     length (verbal questions) = 10 /\
     length (quantitative questions ++ logical questions
               ++ verbal questions) = 30 /\
     forall section : Questions -> list Question,
       section = quantitative \/ section = logical \/ section = verbal ->
       forall q', q' ∈ section questions ->
         exists q, q ∈ section GeminiService.fallbackBank /\
           id q' = id q /\ question q' = question q /\
           options q' ≡ₚ options q /\
           at_index (options q') (answerIndex q')
             = at_index (options q) (answerIndex q)).
Proof.
  eexists. split; [vm_compute; reflexivity |].
  apply (served_quiz_has_thirty_consistent_questions sampleRandom
           (Some "12th") (Some "student@example.com") (mkClock 0 0 0)
           GeminiService.fallbackBank [] 0).
  - simpl. lia.
  - simpl. lia.
  - simpl. lia.
  - vm_compute. reflexivity.
Defined.

(* ===================================================================== *)
(** * The attempt store                                                   *)
(* ===================================================================== *)

(** C7, as stated, fails: a student is served at time 0; eight days later a
    request arrives without an email. It is answered with status 400
    before the clean-up is reached, and the store still holds the record of
    time 0, which is older than 7 days. *)
Lemma rejected_request_leaves_old_attempt :
  let served :=
    Controller.generateQuestions sampleRandom (Some "12th")
      (Some "student@example.com") (mkClock 0 0 0)
      GeminiService.fallbackBank [] 0 in
  let clock := mkClock eightDaysMs eightDaysMs eightDaysMs in
  let rejected :=
    Controller.generateQuestions sampleRandom (Some "12th") None clock
      GeminiService.fallbackBank (snd (fst served)) (snd served) in
  fst (fst rejected) = BadRequest "User email is required" /\
  exists attempt,
    attempt ∈ snd (fst rejected) /\
    userEmail attempt = "student@example.com" /\
    (timestamp attempt < now_prune clock - sevenDaysMs)%Z.
Proof.
  split; [reflexivity |].
  eexists. split; [| split].
  - vm_compute. apply list_elem_of_here.
  - reflexivity.
  - vm_compute. reflexivity.
Qed.

(** C7, amended. After every quiz request that is served (it carries an
    email and gets its questions), every record of the attempt store, of
    whatever student, has a timestamp no older than 7 days before the clock
    reading of the clean-up. And a record older than 7 days never
    contributes to the exclusion set: no such record is among the recent
    attempts, and the request gets the same response when the records
    older than 7 days are removed from the store beforehand. *)
Theorem served_request_prunes_old_attempts :
  forall (random : nat -> UnitReal) (classLevel email : option string)
         (clock : Clock) (allQuestions : Questions)
         (userAttempts : list Attempt) (k : nat) (questions : Questions),
    fst (fst (Controller.generateQuestions random classLevel email clock
                allQuestions userAttempts k)) = Ok questions ->
    Forall (fun attempt =>
              (now_prune clock - sevenDaysMs <= timestamp attempt)%Z)
           (snd (fst (Controller.generateQuestions random classLevel email
                        clock allQuestions userAttempts k)))
    /\ (forall attempt e,
          (timestamp attempt < now_lookup clock - sevenDaysMs)%Z ->
          attempt ∉ Controller.recentAttempts userAttempts e
                      (now_lookup clock))
    /\ fst (fst (Controller.generateQuestions random classLevel email clock
                   allQuestions
                   (Controller.pruneAttempts userAttempts (now_lookup clock))
                   k)) = Ok questions.
Proof.
  intros random classLevel email clock allQuestions userAttempts k questions
    Hok.
  destruct (ControllerFacts.generateQuestions_Ok_inv random _ _ _ _ _ _ _ Hok)
    as (e & -> & Hne).
  rewrite (ControllerFacts.generateQuestions_served random classLevel e clock
             allQuestions userAttempts k Hne) in Hok |- *.
  rewrite (ControllerFacts.generateQuestions_served random classLevel e clock
             allQuestions _ k Hne).
  rewrite ControllerFacts.recentAttempts_pruned.
  simpl in *. repeat split.
  - apply ControllerFacts.pruneAttempts_Forall.
  - intros attempt e' Hold Hin.
    apply list_elem_of_filter in Hin as [[_ Hrecent] _].
    unfold oneDayMs, sevenDaysMs in *. lia.
  - exact Hok.
Qed.

Lemma served_request_prunes_old_attempts_witness :
  let old := mkAttempt "student@example.com" (Some "12th") ["q1"; "l1"] 0 in
  let clock := mkClock eightDaysMs eightDaysMs eightDaysMs in
  exists questions,
    fst (fst (Controller.generateQuestions sampleRandom (Some "12th")
                (Some "student@example.com") clock
                GeminiService.fallbackBank [old] 0)) = Ok questions /\
    (Forall (fun attempt =>
               (now_prune clock - sevenDaysMs <= timestamp attempt)%Z)
            (snd (fst (Controller.generateQuestions sampleRandom
                         (Some "12th") (Some "student@example.com") clock
                         GeminiService.fallbackBank [old] 0)))
     /\ (forall attempt e,
           (timestamp attempt < now_lookup clock - sevenDaysMs)%Z ->
           attempt ∉ Controller.recentAttempts [old] e (now_lookup clock))
     /\ fst (fst (Controller.generateQuestions sampleRandom (Some "12th")
                    (Some "student@example.com") clock
                    GeminiService.fallbackBank
                    (Controller.pruneAttempts [old] (now_lookup clock))
                    0)) = Ok questions).
Proof.
  intros old clock. eexists. split; [vm_compute; reflexivity |].
  apply (served_request_prunes_old_attempts sampleRandom (Some "12th")
           (Some "student@example.com") clock GeminiService.fallbackBank
           [old] 0).
  vm_compute. reflexivity.
Defined.

(** Every record the handlers store carries a non-empty email: the store
    starts empty, [generateQuestions] appends a record only past its email
    test, and neither handler changes a record. *)
Lemma generateQuestions_keeps_emails (random : nat -> UnitReal)
  (classLevel email : option string) (clock : Clock)
  (allQuestions : Questions) (userAttempts : list Attempt) (k : nat) :
  Forall (fun attempt => userEmail attempt <> "") userAttempts ->
  Forall (fun attempt => userEmail attempt <> "")
         (snd (fst (Controller.generateQuestions random classLevel email
                      clock allQuestions userAttempts k))).
Proof.
  intros Hwf. destruct (falsy email) eqn:Hf.
  - now rewrite ControllerFacts.generateQuestions_rejected.
  - apply ControllerFacts.falsy_false in Hf as (e & -> & Hne).
    rewrite (ControllerFacts.generateQuestions_served random classLevel e
               clock allQuestions userAttempts k Hne). simpl.
    apply Forall_forall. intros a Ha.
    apply list_elem_of_filter in Ha as [_ Ha].
    apply elem_of_app in Ha as [Ha | Ha].
    + revert a Ha. now apply Forall_forall.
    + apply list_elem_of_singleton in Ha as ->. exact Hne.
Qed.

Lemma resetQuestionPool_keeps_emails (email : option string)
  (userAttempts : list Attempt) :
  Forall (fun attempt => userEmail attempt <> "") userAttempts ->
  Forall (fun attempt => userEmail attempt <> "")
         (snd (Controller.resetQuestionPool email userAttempts)).
Proof.
  intros Hwf. unfold Controller.resetQuestionPool.
  destruct (falsy email); simpl; [exact Hwf |].
  apply Forall_forall. intros a [_ Ha]%list_elem_of_filter.
  revert a Ha. now apply Forall_forall.
Qed.

(** For a non-empty email the reset is the filter, whatever the store
    holds. *)
Lemma resetQuestionPool_filter (e : string) (userAttempts : list Attempt) :
  e <> "" ->
  Controller.resetQuestionPool (Some e) userAttempts =
    (Ok "Question pool reset successfully",
     filter (fun attempt => userEmail attempt <> e) userAttempts).
Proof.
  intros Hne. unfold Controller.resetQuestionPool, falsy.
  now destruct (String.eqb_spec e "").
Qed.

Lemma Reachable_emails (random : nat -> UnitReal)
  (userAttempts : list Attempt) :
  Controller.Reachable random userAttempts ->
  Forall (fun attempt => userEmail attempt <> "") userAttempts.
Proof.
  induction 1 as [| ? ? ? ? ? ? _ IH | ? ? _ IH].
  - constructor.
  - now apply generateQuestions_keeps_emails.
  - now apply resetQuestionPool_keeps_emails.
Qed.

(** C8. For every student identifier and every state of the attempt store
    (every state the process can be in: the store starts empty and only
    the two handlers change it), after the reset the store holds exactly
    the records of the other students, in their old order: no record of
    that student is left, and every record of another student is still
    there. *)
Theorem resetQuestionPool_removes_only_that_student :
  forall (random : nat -> UnitReal) (email : string)
         (userAttempts : list Attempt),
    Controller.Reachable random userAttempts ->
    let store' :=
      snd (Controller.resetQuestionPool (Some email) userAttempts) in
    store' = filter (fun attempt => userEmail attempt <> email) userAttempts
    /\ (forall attempt, attempt ∈ store' -> userEmail attempt <> email)
    /\ (forall attempt,
          attempt ∈ userAttempts -> userEmail attempt <> email ->
          attempt ∈ store')
    /\ filter (fun attempt => userEmail attempt <> email) store'
       = filter (fun attempt => userEmail attempt <> email) userAttempts.
Proof.
  intros random email userAttempts Hreach store'.
  pose proof (Reachable_emails random userAttempts Hreach) as Hwf.
  assert (Hfilter :
    store' = filter (fun attempt => userEmail attempt <> email) userAttempts).
  { subst store'. destruct (String.eqb_spec email "") as [-> | Hne].
    - simpl. symmetry. clear Hreach.
      induction Hwf as [| a l Ha _ IH]; [reflexivity |].
      rewrite filter_cons_True by exact Ha. now rewrite IH.
    - now rewrite resetQuestionPool_filter. }
  split; [exact Hfilter |]. rewrite Hfilter. repeat split.
  - now intros a [Ha _]%list_elem_of_filter.
  - intros a Ha Hother. now apply list_elem_of_filter.
  - rewrite list_filter_filter. apply list_filter_iff. tauto.
Qed.

Lemma resetQuestionPool_removes_only_that_student_witness :
  let afterFirst :=
    Controller.generateQuestions sampleRandom (Some "12th")
      (Some "student@example.com") (mkClock 0 0 0)
      GeminiService.fallbackBank [] 0 in
  let userAttempts :=
    snd (fst (Controller.generateQuestions sampleRandom None
                (Some "other@example.com") (mkClock 10 10 10)
                GeminiService.fallbackBank (snd (fst afterFirst))
                (snd afterFirst))) in
  let store' :=
    snd (Controller.resetQuestionPool (Some "student@example.com")
           userAttempts) in
  store' = filter (fun attempt => userEmail attempt <> "student@example.com")
                  userAttempts
  /\ (forall attempt,
        attempt ∈ store' -> userEmail attempt <> "student@example.com")
  /\ (forall attempt,
        attempt ∈ userAttempts ->
        userEmail attempt <> "student@example.com" ->
        attempt ∈ store')
  /\ filter (fun attempt => userEmail attempt <> "student@example.com")
            store'
     = filter (fun attempt => userEmail attempt <> "student@example.com")
              userAttempts.
Proof.
  intros afterFirst userAttempts.
  apply (resetQuestionPool_removes_only_that_student sampleRandom
           "student@example.com" userAttempts).
  unfold userAttempts, afterFirst.
  apply Controller.Reachable_generateQuestions,
        Controller.Reachable_generateQuestions, Controller.Reachable_start.
Defined.



(* ===================================================================== *)
(** * Two quizzes within 24 hours                                         *)
(* ===================================================================== *)

(** C4, as stated, fails: the quantitative section holds 20 candidates in
    which every id occurs twice; a student with no history asks for a quiz
    at time 0 and again one hour later, against the same question set. The
    ids of the first quiz leave fewer than 10 unseen candidates, the second
    quiz is drawn from the whole section, and the id "q8" is returned by
    both. *)
Lemma repeated_ids_quizzes_overlap :
  let first :=
    Controller.generateQuestions sampleRandom (Some "12th")
      (Some "student@example.com") (mkClock 0 0 0) repeatedIdsBank [] 0 in
  let second :=
    Controller.generateQuestions sampleRandom (Some "12th")
      (Some "student@example.com") (mkClock oneHourMs oneHourMs oneHourMs)
      repeatedIdsBank (snd (fst first)) (snd first) in
  length (quantitative repeatedIdsBank) = 20 /\
  exists questions1 questions2,
    fst (fst first) = Ok questions1 /\
    fst (fst second) = Ok questions2 /\
    "q8" ∈ id <$> quantitative questions1 /\
    "q8" ∈ id <$> quantitative questions2.
Proof.
  split; [reflexivity |].
  eexists. eexists.
  split; [vm_compute; reflexivity |].
  split; [vm_compute; reflexivity |].
  split; vm_compute; apply list_elem_of_here.
Qed.

(** Why the 20 candidates must be unseen ones: against [twentyBank], whose
    ids are pairwise distinct, the first two quizzes of a student use up
    the 20 quantitative candidates, and the third quiz, one hour after the
    second, is drawn from the whole section: it shares the id "q10" with
    the second. *)
Lemma third_quiz_overlaps_second :
  let ask (t : Z) (state : list Attempt * nat) :=
    Controller.generateQuestions sampleRandom (Some "12th")
      (Some "student@example.com") (mkClock t t t) twentyBank
      (fst state) (snd state) in
  let first := ask 0%Z ([], 0) in
  let second := ask oneHourMs (snd (fst first), snd first) in
  let third := ask (2 * oneHourMs)%Z (snd (fst second), snd second) in
  exists questions2 questions3,
    fst (fst second) = Ok questions2 /\
    fst (fst third) = Ok questions3 /\
    "q10" ∈ id <$> quantitative questions2 /\
    "q10" ∈ id <$> quantitative questions3.
Proof.
  eexists. eexists.
  split; [vm_compute; reflexivity |].
  split; [vm_compute; reflexivity |].
  split; vm_compute.
  - do 8 apply list_elem_of_further. apply list_elem_of_here.
  - apply list_elem_of_further, list_elem_of_here.
Qed.

(** C4, amended. Let the ids of all questions of the question set be
    pairwise distinct, and let a student be served twice from that set, the
    second lookup at most 24 hours after the first record, with clock
    readings that do not run backwards, and with the records of that
    student in the store being, at the second request, those the first
    request left (the student neither reset the history nor took another
    quiz in between; requests of other students may have come). If at
    least 20 candidates of a section are unseen by the student at the first
    request, then both requests return 10 questions of that section and no
    id returned for the section by the first request is returned for it by
    the second. And a request of a student who has fewer than 10 unseen
    candidates left in a section is still served: the questions it returns
    for the section are drawn from the whole section. *)
Theorem consecutive_quizzes_disjoint :
  forall (random : nat -> UnitReal) (classLevel1 classLevel2 : option string)
         (e : string) (clock1 clock2 : Clock) (allQuestions : Questions)
         (userAttempts : list Attempt) (k : nat)
         (section : Questions -> list Question)
         (userAttempts2 : list Attempt) (k2 : nat),
    e <> "" ->
    section = quantitative \/ section = logical \/ section = verbal ->
    NoDup (id <$> (quantitative allQuestions ++ logical allQuestions
                     ++ verbal allQuestions)) ->
    20 <= length
            (filter (fun q =>
                       id q ∉ Controller.usedQuestionIds
                                (Controller.recentAttempts userAttempts e
                                   (now_lookup clock1)))
                    (section allQuestions)) ->
    (now_lookup clock1 <= now_record clock1 <= now_prune clock1)%Z ->
    (now_prune clock1 <= now_lookup clock2)%Z ->
    (now_lookup clock2 - oneDayMs <= now_record clock1)%Z ->
    let first :=
      Controller.generateQuestions random classLevel1 (Some e) clock1
        allQuestions userAttempts k in
    (forall attempt,
       userEmail attempt = e ->
       (attempt ∈ userAttempts2 <-> attempt ∈ snd (fst first))) ->
    let second :=
      Controller.generateQuestions random classLevel2 (Some e) clock2
        allQuestions userAttempts2 k2 in
    (exists questions1 questions2,
       fst (fst first) = Ok questions1 /\
       fst (fst second) = Ok questions2 /\
       length (section questions1) = 10 /\
       length (section questions2) = 10 /\
       forall x,
         x ∈ id <$> section questions1 -> x ∉ id <$> section questions2)
    /\
    (forall (classLevel : option string) (clock : Clock)
            (store : list Attempt) (k' : nat),
       length
         (filter (fun q =>
                    id q ∉ Controller.usedQuestionIds
                             (Controller.recentAttempts store e
                                (now_lookup clock)))
                 (section allQuestions)) < 10 ->
       exists questions,
         fst (fst (Controller.generateQuestions random classLevel (Some e)
                     clock allQuestions store k')) = Ok questions /\
         id <$> section questions ⊆+ id <$> section allQuestions /\
         length (section questions) = min 10 (length (section allQuestions))).
Proof.
  intros random classLevel1 classLevel2 e clock1 clock2 allQuestions
    userAttempts k section userAttempts2 k2 Hne Hsec Hnd H20 Hclock1
    Hclock12 Hday first Hsame second.
  split.
  - (* the two requests of the student *)
    subst second. unfold first in *. clear first.
    rewrite (ControllerFacts.generateQuestions_served random classLevel1 e
               clock1 allQuestions userAttempts k Hne) in Hsame |- *.
    cbn [fst snd] in Hsame |- *.
    set (usedIds1 := Controller.usedQuestionIds
                       (Controller.recentAttempts userAttempts e
                          (now_lookup clock1))) in *.
    set (r1 := Controller.processSection random (quantitative allQuestions)
                 usedIds1 k).
    set (r2 := Controller.processSection random (logical allQuestions)
                 usedIds1 (snd r1)).
    set (r3 := Controller.processSection random (verbal allQuestions)
                 usedIds1 (snd r2)).
    set (questions1 := {| quantitative := fst r1; logical := fst r2;
                          verbal := fst r3 |}).
    rewrite (ControllerFacts.generateQuestions_served random classLevel2 e
               clock2 allQuestions _ _ Hne).
    cbn [fst snd].
    destruct (ControllerFacts.second_request_used classLevel1 e clock1
                clock2 userAttempts questions1 userAttempts2)
      as [Hseen Hsplit];
      [unfold oneDayMs, sevenDaysMs in *; lia .. | exact Hsame |].
    clear Hclock1 Hclock12 Hday Hsame.
    fold usedIds1 in Hsplit.
    set (usedIds2 := Controller.usedQuestionIds
                       (Controller.recentAttempts _ e (now_lookup clock2)))
      in *.
    unfold Controller.allQuestionIds in Hseen, Hsplit.
    cbn [quantitative logical verbal questions1] in Hseen, Hsplit.
    setoid_rewrite elem_of_app in Hseen.
    setoid_rewrite elem_of_app in Hseen.
    setoid_rewrite elem_of_app in Hsplit.
    setoid_rewrite elem_of_app in Hsplit.
    rewrite !fmap_app in Hnd.
    apply NoDup_app in Hnd as (Hndq & Hql & Hnd).
    apply NoDup_app in Hnd as (Hndl & Hlv & Hndv).
    setoid_rewrite elem_of_app in Hql.
    assert (Hbig : forall (s : list Question) (u : list string),
               20 <= length (filter (fun q => id q ∉ u) s) ->
               10 <= length s).
    { intros s u Hs. pose proof (length_filter (fun q => id q ∉ u) s). lia. }
    pose proof (ControllerFacts.processSection_ids_of_section random
                  (quantitative allQuestions) usedIds1 k) as Oq.
    pose proof (ControllerFacts.processSection_ids_of_section random
                  (logical allQuestions) usedIds1 (snd r1)) as Ol.
    pose proof (ControllerFacts.processSection_ids_of_section random
                  (verbal allQuestions) usedIds1 (snd r2)) as Ov.
    fold r1 in Oq. fold r2 in Ol. fold r3 in Ov.
    assert (Hcross : forall x,
      (x ∈ id <$> fst r1 -> x ∈ id <$> quantitative allQuestions) /\
      (x ∈ id <$> fst r2 -> x ∈ id <$> logical allQuestions) /\
      (x ∈ id <$> fst r3 -> x ∈ id <$> verbal allQuestions) /\
      (x ∈ id <$> quantitative allQuestions ->
       ~ (x ∈ id <$> logical allQuestions
          \/ x ∈ id <$> verbal allQuestions)) /\
      (x ∈ id <$> logical allQuestions ->
       x ∉ id <$> verbal allQuestions)).
    { intros x. repeat split; auto. }
    eexists. eexists. split; [reflexivity |]. split; [reflexivity |].
    destruct Hsec as [-> | [-> | ->]]; cbn [quantitative logical verbal];
      (split; [apply ControllerFacts.processSection_ten; eauto |]);
      (split; [apply ControllerFacts.processSection_ten; eauto |]).
    + apply (ControllerFacts.processSection_twice_others random _ _ _
               ((id <$> fst r2) ++ (id <$> fst r3)));
        [exact Hndq | exact H20 | | | ].
      * intros x Hx Hq. apply elem_of_app in Hx. specialize (Hcross x). tauto.
      * intros x Hx. apply Hseen. tauto.
      * intros x Hx. rewrite elem_of_app. specialize (Hsplit x Hx). tauto.
    + apply (ControllerFacts.processSection_twice_others random _ _ _
               ((id <$> fst r1) ++ (id <$> fst r3)));
        [exact Hndl | exact H20 | | | ].
      * intros x Hx Hq. apply elem_of_app in Hx. specialize (Hcross x). tauto.
      * intros x Hx. apply Hseen. tauto.
      * intros x Hx. rewrite elem_of_app. specialize (Hsplit x Hx). tauto.
    + apply (ControllerFacts.processSection_twice_others random _ _ _
               ((id <$> fst r1) ++ (id <$> fst r2)));
        [exact Hndv | exact H20 | | | ].
      * intros x Hx Hq. apply elem_of_app in Hx. specialize (Hcross x). tauto.
      * intros x Hx. apply Hseen. tauto.
      * intros x Hx. rewrite elem_of_app. specialize (Hsplit x Hx). tauto.
  - (* a request with fewer than 10 unseen candidates *)
    intros classLevel clock store k' Hfew. eexists.
    rewrite (ControllerFacts.generateQuestions_served random classLevel e
               clock allQuestions store k' Hne).
    split; [reflexivity |].
    assert (Hfallback :
      forall (s : list Question) (u : list string) (n : nat),
        length (filter (fun q => id q ∉ u) s) < 10 ->
        id <$> fst (Controller.processSection random s u n) ⊆+ id <$> s /\
        length (fst (Controller.processSection random s u n))
          = min 10 (length s)).
    { intros s u n Hs.
      pose proof (ControllerFacts.processSection_ids_submseteq random s u n)
        as Hsub.
      rewrite ControllerFacts.processSection_length.
      now rewrite (ControllerFacts.availableQuestions_fallback s u Hs)
        in Hsub |- *. }
    destruct Hsec as [-> | [-> | ->]]; cbn [quantitative logical verbal];
      apply Hfallback, Hfew.
Qed.

Lemma consecutive_quizzes_disjoint_witness :
  let e := "student@example.com" in
  let clock1 := mkClock 0 5 6 in
  let clock2 := mkClock oneHourMs (oneHourMs + 5) (oneHourMs + 6) in
  let first :=
    Controller.generateQuestions sampleRandom (Some "12th") (Some e) clock1
      twentyBank [] 0 in
  let between :=
    Controller.generateQuestions sampleRandom None
      (Some "other@example.com") (mkClock 100 105 106) twentyBank
      (snd (fst first)) (snd first) in
  let second :=
    Controller.generateQuestions sampleRandom (Some "12th") (Some e) clock2
      twentyBank (snd (fst between)) (snd between) in
  (exists questions1 questions2,
     fst (fst first) = Ok questions1 /\
     fst (fst second) = Ok questions2 /\
     length (quantitative questions1) = 10 /\
     length (quantitative questions2) = 10 /\
     forall x,
       x ∈ id <$> quantitative questions1 ->
       x ∉ id <$> quantitative questions2)
  /\
  (forall (classLevel : option string) (clock : Clock)
          (store : list Attempt) (k' : nat),
     length
       (filter (fun q =>
                  id q ∉ Controller.usedQuestionIds
                           (Controller.recentAttempts store e
                              (now_lookup clock)))
               (quantitative twentyBank)) < 10 ->
     exists questions,
       fst (fst (Controller.generateQuestions sampleRandom classLevel
                   (Some e) clock twentyBank store k')) = Ok questions /\
       id <$> quantitative questions ⊆+ id <$> quantitative twentyBank /\
       length (quantitative questions)
         = min 10 (length (quantitative twentyBank))).
Proof.
  intros e clock1 clock2 first between second.
  apply (consecutive_quizzes_disjoint sampleRandom (Some "12th")
           (Some "12th") e clock1 clock2 twentyBank [] 0 quantitative
           (snd (fst between)) (snd between)).
  - discriminate.
  - left. reflexivity.
  - apply (bool_decide_unpack _). vm_compute. exact I.
  - vm_compute. lia.
  - vm_compute. split; discriminate.
  - vm_compute. discriminate.
  - vm_compute. discriminate.
  - assert (exists mine theirs,
              snd (fst first) = [mine] /\
              snd (fst between) = [mine; theirs] /\
              userEmail theirs = "other@example.com")
      as (mine & theirs & E1 & E2 & Htheirs).
    { eexists. eexists. split; [vm_compute; reflexivity |].
      split; vm_compute; reflexivity. }
    intros attempt Hmail.
    change (attempt ∈ snd (fst between) <-> attempt ∈ snd (fst first)).
    rewrite E1, E2, !elem_of_cons, !elem_of_nil.
    split; [intros [? | [-> | []]] | intros [? | []]]; auto.
    unfold e in Hmail. congruence.
Defined.

(* ===================================================================== *)
(** * The question source and its fallback                                *)
(* ===================================================================== *)

Module GeminiFacts.
Import GeminiService.

Lemma getProp_absent_section (fields : list (string * JsValue))
  (name : string) :
  assoc name fields = None ->
  getProp (JObject fields) name = Some JUndefined.
Proof. intros H. simpl. now rewrite H. Qed.

(** A response without usable text, with a text that is no string or does
    not parse, or with a parsed value one of whose three sections is
    falsy (missing, [null], or read off a value that is no object), gives
    the built-in set, by the tests of the code or by its [catch]. *)
Lemma questionsOfResponse_unusable (trim : string -> string)
  (JSON_parse : string -> option JsValue) (data : JsValue) :
  truthy (responseText data) = false
  \/ (forall t, responseText data <> JString t)
  \/ (exists t, responseText data = JString t /\
        (JSON_parse (trim (stripFences t)) = None
         \/ exists parsed,
              JSON_parse (trim (stripFences t)) = Some parsed /\
              (truthy (optProp parsed "quantitative") = false
               \/ truthy (optProp parsed "logical") = false
               \/ truthy (optProp parsed "verbal") = false))) ->
  default fallbackQuestions (questionsOfResponse trim JSON_parse (Some data))
    = fallbackQuestions.
Proof.
  unfold questionsOfResponse.
  intros [Hempty | [Hother | (t & Ht & Hparse)]].
  - now rewrite Hempty.
  - destruct (truthy (responseText data)); [| reflexivity].
    cbn [negb].
    destruct (responseText data) as [| | b | n | t | items | fields];
      try reflexivity.
    now contradiction (Hother t).
  - rewrite Ht. destruct (truthy (JString t)); [| reflexivity].
    cbn [negb].
    destruct Hparse as [-> | (parsed & -> & Hfalsy)]; [reflexivity |].
    unfold optProp in Hfalsy.
    destruct (getProp parsed "quantitative") as [quant |]; [| reflexivity].
    destruct (getProp parsed "logical") as [logic |]; [| reflexivity].
    destruct (getProp parsed "verbal") as [verb |]; [| reflexivity].
    cbn [default from_option Datatypes.id] in Hfalsy.
    assert (Htest : negb (truthy quant) || negb (truthy logic)
                    || negb (truthy verb) = true).
    { destruct Hfalsy as [H | [H | H]]; rewrite H; cbn [negb];
        rewrite ?orb_true_r, ?orb_true_l; reflexivity. }
    now rewrite Htest.
Qed.

(** When the API answers with a document that has its three sections, the
    document is what the service returns. *)
Lemma available_source_gives_document (key : string)
  (fetch : string -> PromptParts -> FetchResult) (trim : string -> string)
  (JSON_parse : string -> option JsValue) (classLevel : string)
  (status : Z) (data : JsValue) (t : string)
  (fields : list (string * JsValue)) (quant logic verb : JsValue) :
  key <> "" ->
  fetch key (promptParts classLevel) = HttpResponse true status (Some data) ->
  responseText data = JString t -> t <> "" ->
  JSON_parse (trim (stripFences t)) = Some (JObject fields) ->
  assoc "quantitative" fields = Some quant -> truthy quant = true ->
  assoc "logical" fields = Some logic -> truthy logic = true ->
  assoc "verbal" fields = Some verb -> truthy verb = true ->
  generateAptitudeQuestions (Some key) fetch trim JSON_parse classLevel
    = JObject fields.
Proof.
  intros Hkey Hfetch Htext Ht Hparse Hq Htq Hl Htl Hv Htv.
  unfold generateAptitudeQuestions, falsy.
  destruct (String.eqb_spec key ""); [contradiction |].
  change (default "" (Some key)) with key. rewrite Hfetch.
  cbn [negb]. unfold questionsOfResponse. rewrite Htext.
  cbn [truthy]. destruct (String.eqb_spec t ""); [contradiction |].
  cbn [negb]. rewrite Hparse. cbn [getProp]. rewrite Hq, Hl, Hv.
  cbn [default from_option Datatypes.id]. now rewrite Htq, Htl, Htv.
Qed.

(** The typed reading of the value of a question set is that set. *)
Lemma asStrings_values (l : list string) : asStrings (JString <$> l) = Some l.
Proof.
  induction l as [| x l IH]; [reflexivity |].
  cbn [fmap list_fmap asStrings] in *. now rewrite IH.
Qed.

Lemma asQuestion_value (q : Question) : asQuestion (questionValue q) = Some q.
Proof.
  destruct q as [i text os n]. unfold asQuestion, questionValue.
  cbn [assoc String.eqb Ascii.eqb Bool.eqb id question options answerIndex].
  now rewrite asStrings_values.
Qed.

Lemma asSection_values (l : list Question) :
  asSection (questionValue <$> l) = Some l.
Proof.
  induction l as [| q l IH]; [reflexivity |].
  cbn [fmap list_fmap asSection] in *. now rewrite asQuestion_value, IH.
Qed.

Lemma asQuestions_value (b : Questions) : asQuestions (questionsValue b) = Some b.
Proof.
  destruct b as [q l v]. unfold asQuestions, questionsValue.
  cbn [getProp assoc String.eqb Ascii.eqb Bool.eqb default from_option
       quantitative logical verbal].
  unfold Datatypes.id. now rewrite !asSection_values.
Qed.

(** A run of the service against an API that answers with a fenced
    document: the document is returned, and it reads as [twentyBank]. *)
Example generated_document_is_returned :
  let answer :=
    generateAptitudeQuestions (Some "key")
      (fun _ _ => HttpResponse true 200 (Some (replyWith "```json {} ```")))
      (fun text => text) parseTwentyBank "10th" in
  answer = questionsValue twentyBank /\ asQuestions answer = Some twentyBank.
Proof.
  assert (H : generateAptitudeQuestions (Some "key")
                (fun _ _ => HttpResponse true 200
                              (Some (replyWith "```json {} ```")))
                (fun text => text) parseTwentyBank "10th"
              = questionsValue twentyBank) by (vm_compute; reflexivity).
  cbv zeta. rewrite H. split; [reflexivity | apply asQuestions_value].
Qed.

End GeminiFacts.

(** C6. If the API key is absent (or empty), or the request to the
    generation API fails, or the API answers with an HTTP error status, or
    the body of its answer is not JSON, or the answer carries no text or an
    empty text, or its text is no string, or the text does not parse, or
    one of the tests [!parsed.quantitative], [!parsed.logical] and
    [!parsed.verbal] holds of the parsed value - the section is missing,
    is [null] or another falsy value, or the parsed value is an array, a
    primitive or [null] - then the service returns the built-in fallback
    question set. *)
Theorem unavailable_source_gives_fallback :
  forall (GEMINI_API_KEY : option string)
         (fetch : string -> GeminiService.PromptParts
                  -> GeminiService.FetchResult)
         (trim : string -> string)
         (JSON_parse : string -> option GeminiService.JsValue)
         (classLevel : string),
    let answer :=
      fetch (default "" GEMINI_API_KEY)
            (GeminiService.promptParts classLevel) in
    GEMINI_API_KEY = None \/ GEMINI_API_KEY = Some ""
    \/ answer = GeminiService.NetworkFailure
    \/ (exists status json,
          answer = GeminiService.HttpResponse false status json)
    \/ (exists status, answer = GeminiService.HttpResponse true status None)
    \/ (exists status data,
          answer = GeminiService.HttpResponse true status (Some data) /\
          (GeminiService.truthy (GeminiService.responseText data) = false
           \/ (forall t,
                 GeminiService.responseText data <> GeminiService.JString t)
           \/ (exists t,
                 GeminiService.responseText data = GeminiService.JString t /\
                 (JSON_parse (trim (GeminiService.stripFences t)) = None
                  \/ exists parsed,
                       JSON_parse (trim (GeminiService.stripFences t))
                         = Some parsed /\
                       (GeminiService.truthy
                          (GeminiService.optProp parsed "quantitative")
                        = false
                        \/ GeminiService.truthy
                             (GeminiService.optProp parsed "logical")
                           = false
                        \/ GeminiService.truthy
                             (GeminiService.optProp parsed "verbal")
                           = false))))) ->
    GeminiService.generateAptitudeQuestions GEMINI_API_KEY fetch trim
      JSON_parse classLevel
      = GeminiService.fallbackQuestions.
Proof.
  intros key fetch trim JSON_parse classLevel answer H.
  unfold GeminiService.generateAptitudeQuestions. fold answer.
  destruct H as [-> | [-> | H]]; [reflexivity | reflexivity |].
  destruct (falsy key); [reflexivity |].
  destruct H as [-> | [(status & json & ->) | [(status & ->) |
                   (status & data & -> & H)]]]; try reflexivity.
  cbn [negb].
  now apply GeminiFacts.questionsOfResponse_unusable.
Qed.

Lemma unavailable_source_gives_fallback_witness :
  GeminiService.generateAptitudeQuestions None
    (fun _ _ => GeminiService.NetworkFailure) (fun text => text)
    parseTwoSections "12th"
    = GeminiService.fallbackQuestions
  /\
  GeminiService.generateAptitudeQuestions (Some "key")
    (fun _ _ => GeminiService.HttpResponse false 503 None) (fun text => text)
    parseTwoSections "10th"
    = GeminiService.fallbackQuestions
  /\
  GeminiService.generateAptitudeQuestions (Some "key")
    (fun _ _ => GeminiService.HttpResponse true 200
                  (Some (replyWith "```json {} ```")))
    (fun text => text) parseTwoSections "other"
    = GeminiService.fallbackQuestions
  /\
  GeminiService.generateAptitudeQuestions (Some "key")
    (fun _ _ => GeminiService.HttpResponse true 200
                  (Some (replyWith "```json [{}] ```")))
    (fun text => text) parseArray "other"
    = GeminiService.fallbackQuestions
  /\
  GeminiService.generateAptitudeQuestions (Some "key")
    (fun _ _ => GeminiService.HttpResponse true 200
                  (Some (replyWith "```json {} ```")))
    (fun text => text) parseNullVerbal "other"
    = GeminiService.fallbackQuestions
  /\
  GeminiService.generateAptitudeQuestions (Some "key")
    (fun _ _ => GeminiService.HttpResponse true 200 (Some replyWithNumber))
    (fun text => text) parseTwentyBank "other"
    = GeminiService.fallbackQuestions.
Proof.
  split; [| split; [| split; [| split; [| split]]]].
  - apply (unavailable_source_gives_fallback None
             (fun _ _ => GeminiService.NetworkFailure) (fun text => text)
             parseTwoSections "12th").
    left. reflexivity.
  - apply (unavailable_source_gives_fallback (Some "key")
             (fun _ _ => GeminiService.HttpResponse false 503 None)
             (fun text => text) parseTwoSections "10th").
    right. right. right. left. exists 503%Z, None. reflexivity.
  - apply (unavailable_source_gives_fallback (Some "key")
             (fun _ _ => GeminiService.HttpResponse true 200
                           (Some (replyWith "```json {} ```")))
             (fun text => text) parseTwoSections "other").
    right. right. right. right. right.
    exists 200%Z, (replyWith "```json {} ```"). split; [reflexivity |].
    right. right. eexists. split; [reflexivity |].
    right. eexists. split; [reflexivity |].
    right. right. reflexivity.
  - apply (unavailable_source_gives_fallback (Some "key")
             (fun _ _ => GeminiService.HttpResponse true 200
                           (Some (replyWith "```json [{}] ```")))
             (fun text => text) parseArray "other").
    right. right. right. right. right.
    exists 200%Z, (replyWith "```json [{}] ```"). split; [reflexivity |].
    right. right. eexists. split; [reflexivity |].
    right. eexists. split; [reflexivity |].
    left. reflexivity.
  - apply (unavailable_source_gives_fallback (Some "key")
             (fun _ _ => GeminiService.HttpResponse true 200
                           (Some (replyWith "```json {} ```")))
             (fun text => text) parseNullVerbal "other").
    right. right. right. right. right.
    exists 200%Z, (replyWith "```json {} ```"). split; [reflexivity |].
    right. right. eexists. split; [reflexivity |].
    right. eexists. split; [reflexivity |].
    right. right. reflexivity.
  - apply (unavailable_source_gives_fallback (Some "key")
             (fun _ _ => GeminiService.HttpResponse true 200
                           (Some replyWithNumber))
             (fun text => text) parseTwentyBank "other").
    right. right. right. right. right.
    exists 200%Z, replyWithNumber. split; [reflexivity |].
    right. left. intros t. vm_compute. discriminate.
Defined.

(* ===================================================================== *)
(** * The composite score                                                 *)
(* ===================================================================== *)

(** C2. For all sub-scores the composite is
    0.6 x similarity + 0.2 x aptitude + 0.2 x interest scaled by 10, that
    is 6 x similarity + 2 x aptitude + 2 x interest; for sub-scores of the
    unit range it lies in the 0-10 display range; and similarity 1,
    aptitude 0, interest 0 give the composite 6. *)
Theorem composite_weighted_blend :
  forall similarity aptitude interest : Q,
    (Scorer.composite similarity aptitude interest
       == 6 * similarity + 2 * aptitude + 2 * interest)%Q
    /\ (Scorer.composite similarity aptitude interest
          == 10 * ((6 # 10) * similarity + (2 # 10) * aptitude
                     + (2 # 10) * interest))%Q
    /\ ((0 <= similarity <= 1)%Q -> (0 <= aptitude <= 1)%Q ->
        (0 <= interest <= 1)%Q ->
        (0 <= Scorer.composite similarity aptitude interest <= 10)%Q)
    /\ (Scorer.composite 1 0 0 == 6)%Q.
Proof.
  intros s a i.
  assert (Hlin : (Scorer.composite s a i == 6 * s + 2 * a + 2 * i)%Q).
  { unfold Scorer.composite. ring. }
  split; [exact Hlin |]. split; [reflexivity |]. split; [| reflexivity].
  intros [Hs0 Hs1] [Ha0 Ha1] [Hi0 Hi1]. rewrite Hlin. split; lra.
Qed.

Lemma composite_weighted_blend_witness :
  (Scorer.composite (1 # 2) 1 (1 # 4) == 6 * (1 # 2) + 2 * 1 + 2 * (1 # 4))%Q
  /\ (Scorer.composite (1 # 2) 1 (1 # 4)
        == 10 * ((6 # 10) * (1 # 2) + (2 # 10) * 1 + (2 # 10) * (1 # 4)))%Q
  /\ (0 <= Scorer.composite (1 # 2) 1 (1 # 4) <= 10)%Q
  /\ (Scorer.composite 1 0 0 == 6)%Q.
Proof.
  destruct (composite_weighted_blend (1 # 2) 1 (1 # 4))
    as (H1 & H2 & H3 & H4).
  split; [exact H1 |]. split; [exact H2 |]. split; [| exact H4].
  apply H3; split; discriminate.
Defined.

(* ===================================================================== *)
(** * Further properties of the quiz handlers                             *)
(* ===================================================================== *)

Module HistoryFacts.
Import Controller ControllerFacts.
Section Handlers.

Variable random : nat -> UnitReal.

(** The 24-hour lookup reads the records of the student only. *)
Lemma recentAttempts_own (userAttempts : list Attempt) (e : string) (now : Z) :
  recentAttempts userAttempts e now
    = filter (fun attempt => (now - oneDayMs <= timestamp attempt)%Z)
             (filter (fun attempt => userEmail attempt = e) userAttempts).
Proof.
  unfold recentAttempts. rewrite list_filter_filter.
  apply list_filter_iff. tauto.
Qed.

Lemma usedQuestionIds_nil : usedQuestionIds [] = [].
Proof. reflexivity. Qed.

(** The response and the number of draws of a request depend on the store
    through the ids in use only. *)
Lemma generateQuestions_by_usedIds classLevel e clock allQuestions
  (store1 store2 : list Attempt) k :
  usedQuestionIds (recentAttempts store1 e (now_lookup clock))
    = usedQuestionIds (recentAttempts store2 e (now_lookup clock)) ->
  fst (fst (generateQuestions random classLevel (Some e) clock allQuestions
              store1 k))
    = fst (fst (generateQuestions random classLevel (Some e) clock
                  allQuestions store2 k))
  /\ snd (generateQuestions random classLevel (Some e) clock allQuestions
            store1 k)
     = snd (generateQuestions random classLevel (Some e) clock allQuestions
              store2 k).
Proof.
  intros Hused. destruct (String.eqb_spec e "") as [-> | Hne].
  - now rewrite !generateQuestions_rejected.
  - rewrite !(generateQuestions_served random classLevel e clock allQuestions
                _ k Hne).
    cbn [fst snd]. now rewrite Hused.
Qed.

(** The clean-up and the lookup by email commute. *)
Lemma pruneAttempts_filter (P : Attempt -> Prop)
  `{forall a, Decision (P a)} (userAttempts : list Attempt) (now : Z) :
  filter P (pruneAttempts userAttempts now)
    = pruneAttempts (filter P userAttempts) now.
Proof.
  unfold pruneAttempts. rewrite !list_filter_filter.
  apply list_filter_iff. tauto.
Qed.

End Handlers.
End HistoryFacts.

(** X1. The quiz of a student depends on the attempt store through the
    records of that student only: two stores that hold the same records of
    the student, in the same order, give the same response and use the same
    random draws, whatever they hold of other students. *)
Theorem quiz_depends_on_own_history_only :
  forall (random : nat -> UnitReal) (classLevel : option string) (e : string)
         (clock : Clock) (allQuestions : Questions)
         (store1 store2 : list Attempt) (k : nat),
    filter (fun attempt => userEmail attempt = e) store1
      = filter (fun attempt => userEmail attempt = e) store2 ->
    fst (fst (Controller.generateQuestions random classLevel (Some e) clock
                allQuestions store1 k))
      = fst (fst (Controller.generateQuestions random classLevel (Some e)
                    clock allQuestions store2 k))
    /\ snd (Controller.generateQuestions random classLevel (Some e) clock
              allQuestions store1 k)
       = snd (Controller.generateQuestions random classLevel (Some e) clock
                allQuestions store2 k).
Proof.
  intros random classLevel e clock allQuestions store1 store2 k Hown.
  apply HistoryFacts.generateQuestions_by_usedIds.
  now rewrite !HistoryFacts.recentAttempts_own, Hown.
Qed.

Lemma quiz_depends_on_own_history_only_witness :
  let mine := mkAttempt "student@example.com" (Some "12th") ["q1"; "l1"] 5 in
  let theirs := mkAttempt "other@example.com" None ["q2"; "v3"] 7 in
  let clock := mkClock 10 11 12 in
  fst (fst (Controller.generateQuestions sampleRandom (Some "12th")
              (Some "student@example.com") clock twentyBank
              [theirs; mine; theirs] 0))
    = fst (fst (Controller.generateQuestions sampleRandom (Some "12th")
                  (Some "student@example.com") clock twentyBank [mine] 0))
  /\ snd (Controller.generateQuestions sampleRandom (Some "12th")
            (Some "student@example.com") clock twentyBank
            [theirs; mine; theirs] 0)
     = snd (Controller.generateQuestions sampleRandom (Some "12th")
              (Some "student@example.com") clock twentyBank [mine] 0).
Proof.
  intros mine theirs clock.
  apply (quiz_depends_on_own_history_only sampleRandom (Some "12th")
           "student@example.com" clock twentyBank [theirs; mine; theirs]
           [mine] 0).
  vm_compute. reflexivity.
Defined.

(** X2. After a student has reset the question pool, the next quiz of that
    student is the quiz of a student without history: the same response and
    the same random draws as on an empty store, whatever was seen
    before. *)
Theorem quiz_after_reset_is_fresh :
  forall (random : nat -> UnitReal) (classLevel : option string) (e : string)
         (clock : Clock) (allQuestions : Questions)
         (userAttempts : list Attempt) (k : nat),
    e <> "" ->
    let store' := snd (Controller.resetQuestionPool (Some e) userAttempts) in
    fst (fst (Controller.generateQuestions random classLevel (Some e) clock
                allQuestions store' k))
      = fst (fst (Controller.generateQuestions random classLevel (Some e)
                    clock allQuestions [] k))
    /\ snd (Controller.generateQuestions random classLevel (Some e) clock
              allQuestions store' k)
       = snd (Controller.generateQuestions random classLevel (Some e) clock
                allQuestions [] k).
Proof.
  intros random classLevel e clock allQuestions userAttempts k Hne store'.
  apply HistoryFacts.generateQuestions_by_usedIds.
  rewrite !HistoryFacts.recentAttempts_own. f_equal. f_equal.
  subst store'. rewrite resetQuestionPool_filter by exact Hne.
  cbn [snd]. rewrite list_filter_filter.
  induction userAttempts as [| a l IH]; [reflexivity |].
  rewrite filter_cons_False by tauto. exact IH.
Qed.

Lemma quiz_after_reset_is_fresh_witness :
  let e := "student@example.com" in
  let first :=
    Controller.generateQuestions sampleRandom (Some "12th") (Some e)
      (mkClock 0 5 6) twentyBank [] 0 in
  let store' := snd (Controller.resetQuestionPool (Some e) (snd (fst first))) in
  let clock := mkClock oneHourMs oneHourMs oneHourMs in
  fst (fst (Controller.generateQuestions sampleRandom (Some "12th") (Some e)
              clock twentyBank store' 0))
    = fst (fst (Controller.generateQuestions sampleRandom (Some "12th")
                  (Some e) clock twentyBank [] 0))
  /\ snd (Controller.generateQuestions sampleRandom (Some "12th") (Some e)
            clock twentyBank store' 0)
     = snd (Controller.generateQuestions sampleRandom (Some "12th") (Some e)
              clock twentyBank [] 0).
Proof.
  intros e first store' clock.
  apply (quiz_after_reset_is_fresh sampleRandom (Some "12th") e clock
           twentyBank (snd (fst first)) 0).
  discriminate.
Defined.

(** X3. Records older than 24 hours no longer exclude anything: when every
    record of the student in the store is older than 24 hours at the
    lookup, the quiz is the quiz of a student without history. *)
Theorem quiz_after_a_day_is_fresh :
  forall (random : nat -> UnitReal) (classLevel : option string) (e : string)
         (clock : Clock) (allQuestions : Questions)
         (userAttempts : list Attempt) (k : nat),
    (forall attempt,
       attempt ∈ userAttempts -> userEmail attempt = e ->
       (timestamp attempt < now_lookup clock - oneDayMs)%Z) ->
    fst (fst (Controller.generateQuestions random classLevel (Some e) clock
                allQuestions userAttempts k))
      = fst (fst (Controller.generateQuestions random classLevel (Some e)
                    clock allQuestions [] k))
    /\ snd (Controller.generateQuestions random classLevel (Some e) clock
              allQuestions userAttempts k)
       = snd (Controller.generateQuestions random classLevel (Some e) clock
                allQuestions [] k).
Proof.
  intros random classLevel e clock allQuestions userAttempts k Hold.
  apply HistoryFacts.generateQuestions_by_usedIds. f_equal.
  unfold Controller.recentAttempts.
  induction userAttempts as [| a l IH]; [reflexivity |].
  rewrite filter_cons_False.
  - apply IH. intros a' Ha'. apply Hold. now apply list_elem_of_further.
  - intros [Hmail Hrecent].
    pose proof (Hold a (list_elem_of_here _ _) Hmail). lia.
Qed.

Lemma quiz_after_a_day_is_fresh_witness :
  let e := "student@example.com" in
  let old := mkAttempt e (Some "12th") ["q1"; "q2"; "xq3"] 0 in
  let clock := mkClock (oneDayMs + 1) (oneDayMs + 2) (oneDayMs + 3) in
  fst (fst (Controller.generateQuestions sampleRandom (Some "12th") (Some e)
              clock twentyBank [old] 0))
    = fst (fst (Controller.generateQuestions sampleRandom (Some "12th")
                  (Some e) clock twentyBank [] 0))
  /\ snd (Controller.generateQuestions sampleRandom (Some "12th") (Some e)
            clock twentyBank [old] 0)
     = snd (Controller.generateQuestions sampleRandom (Some "12th") (Some e)
              clock twentyBank [] 0).
Proof.
  intros e old clock.
  apply (quiz_after_a_day_is_fresh sampleRandom (Some "12th") e clock
           twentyBank [old] 0).
  intros attempt Hin _. apply list_elem_of_singleton in Hin as ->.
  vm_compute. reflexivity.
Defined.

(** X4. A served quiz request of one student leaves the records of the
    other students as the clean-up alone would: each of them is kept
    exactly when it is no older than 7 days, in the old order; and the
    store grows by one record at most. *)
Theorem served_request_frames_other_students :
  forall (random : nat -> UnitReal) (classLevel : option string) (e : string)
         (clock : Clock) (allQuestions : Questions)
         (userAttempts : list Attempt) (k : nat),
    e <> "" ->
    let store' :=
      snd (fst (Controller.generateQuestions random classLevel (Some e)
                  clock allQuestions userAttempts k)) in
    filter (fun attempt => userEmail attempt <> e) store'
      = Controller.pruneAttempts
          (filter (fun attempt => userEmail attempt <> e) userAttempts)
          (now_prune clock)
    /\ length store' <= length userAttempts + 1.
Proof.
  intros random classLevel e clock allQuestions userAttempts k Hne store'.
  subst store'.
  rewrite (ControllerFacts.generateQuestions_served random classLevel e clock
             allQuestions userAttempts k Hne).
  cbn [fst snd]. split.
  - rewrite HistoryFacts.pruneAttempts_filter, filter_app. f_equal.
    rewrite filter_cons_False by (cbn; tauto).
    now rewrite app_nil_r.
  - unfold Controller.pruneAttempts.
    etransitivity; [apply length_filter |].
    rewrite length_app. simpl. lia.
Qed.

Lemma served_request_frames_other_students_witness :
  let e := "student@example.com" in
  let theirs := mkAttempt "other@example.com" None ["q2"; "v3"] 7 in
  let stale := mkAttempt "third@example.com" None ["q5"] (-5) in
  let clock := mkClock sevenDaysMs sevenDaysMs sevenDaysMs in
  let store' :=
    snd (fst (Controller.generateQuestions sampleRandom (Some "12th")
                (Some e) clock twentyBank [stale; theirs] 0)) in
  filter (fun attempt => userEmail attempt <> e) store'
    = Controller.pruneAttempts
        (filter (fun attempt => userEmail attempt <> e) [stale; theirs])
        (now_prune clock)
  /\ length store' <= length [stale; theirs] + 1.
Proof.
  intros e theirs stale clock.
  apply (served_request_frames_other_students sampleRandom (Some "12th") e
           clock twentyBank [stale; theirs] 0).
  discriminate.
Defined.

Module SelectionFacts.
Import Helpers HelpersFacts Controller ControllerFacts.
Section Handlers.

Variable random : nat -> UnitReal.

(** A sub-multiset of a duplicate-free list is duplicate-free. *)
Lemma submseteq_NoDup {A} (l k : list A) : l ⊆+ k -> NoDup k -> NoDup l.
Proof.
  intros [k' Hk]%submseteq_Permutation Hnd. rewrite Hk in Hnd.
  now apply NoDup_app in Hnd as [? _].
Qed.

Lemma availableQuestions_submseteq sectionQuestions usedIds :
  availableQuestions sectionQuestions usedIds ⊆+ sectionQuestions.
Proof.
  unfold availableQuestions. destruct (length _ <? 10); [reflexivity |].
  apply sublist_submseteq, sublist_filter.
Qed.

(** The ids returned for a section are drawn without replacement from the
    ids of the section. *)
Lemma processSection_ids_of_bank sectionQuestions usedIds k :
  id <$> fst (processSection random sectionQuestions usedIds k)
    ⊆+ id <$> sectionQuestions.
Proof.
  etransitivity; [apply processSection_ids_submseteq |].
  apply fmap_submseteq, availableQuestions_submseteq.
Qed.

(** The answer index recorded after shuffling: the first position of the
    correct text, or -1 when the original index reads no option. *)
Lemma shuffleOptions_answerIndex q k :
  let q' := fst (shuffleOptions random q k) in
  length (options q') = length (options q) /\
  match at_index (options q) (answerIndex q) with
  | Some text =>
      exists n, answerIndex q' = Z.of_nat n /\ options q' !! n = Some text
                /\ forall m, m < n -> options q' !! m <> Some text
  | None => answerIndex q' = (-1)%Z
  end.
Proof.
  unfold shuffleOptions, bind, ret.
  pose proof (shuffleArray_Permutation random (options q) k) as Hperm.
  destruct (shuffleArray random (options q) k) as [shuffled k1].
  cbn [fst options answerIndex] in *.
  split; [now apply Permutation_length |].
  destruct (at_index (options q) (answerIndex q)) as [text |] eqn:Hc;
    [| reflexivity].
  assert (Hin : text ∈ shuffled).
  { rewrite Hperm. eapply at_index_elem_of, Hc. }
  destruct (indexOf_from_elem shuffled text 0 Hin) as (n & Hn & Hl & Hfirst).
  exists n. cbn [indexOf]. rewrite Hn. auto.
Qed.

End Handlers.
End SelectionFacts.

(** X5. When the ids of the question set are pairwise distinct, so are the
    ids of a served quiz: no question is returned twice, neither within a
    section nor across sections. *)
Theorem served_quiz_has_distinct_ids :
  forall (random : nat -> UnitReal) (classLevel email : option string)
         (clock : Clock) (allQuestions : Questions)
         (userAttempts : list Attempt) (k : nat) (questions : Questions),
    NoDup (id <$> (quantitative allQuestions ++ logical allQuestions
                     ++ verbal allQuestions)) ->
    fst (fst (Controller.generateQuestions random classLevel email clock
                allQuestions userAttempts k)) = Ok questions ->
    NoDup (id <$> (quantitative questions ++ logical questions
                     ++ verbal questions)).
Proof.
  intros random classLevel email clock allQuestions userAttempts k questions
    Hnd Hok.
  destruct (ControllerFacts.generateQuestions_Ok_inv random _ _ _ _ _ _ _ Hok)
    as (e & -> & Hne).
  rewrite (ControllerFacts.generateQuestions_served random classLevel e clock
             allQuestions userAttempts k Hne) in Hok.
  cbn [fst] in Hok. injection Hok as <-. cbn [quantitative logical verbal].
  eapply SelectionFacts.submseteq_NoDup; [| exact Hnd].
  rewrite !fmap_app.
  repeat apply submseteq_app; apply SelectionFacts.processSection_ids_of_bank.
Qed.

Lemma served_quiz_has_distinct_ids_witness :
  exists questions,
    fst (fst (Controller.generateQuestions sampleRandom (Some "12th")
                (Some "student@example.com") (mkClock 0 0 0)
                twentyBank [] 0)) = Ok questions /\
    NoDup (id <$> (quantitative questions ++ logical questions
                     ++ verbal questions)).
Proof.
  eexists. split; [vm_compute; reflexivity |].
  apply (served_quiz_has_distinct_ids sampleRandom (Some "12th")
           (Some "student@example.com") (mkClock 0 0 0) twentyBank [] 0).
  - apply (bool_decide_unpack _). vm_compute. exact I.
  - vm_compute. reflexivity.
Defined.

(** X6. The answer index of a returned question is never out of range in
    the way the original may be: when the original index is a valid index
    of the options, the returned index is the first position of the correct
    text in the shuffled options - a valid index, the option at it is the
    correct text, and no earlier option is; when the original index is
    invalid (negative or past the end), the returned index is -1. The
    number of options is unchanged. *)
Theorem returned_answer_index_first_or_minus_one :
  forall (random : nat -> UnitReal) (sectionQuestions : list Question)
         (usedIds : list string) (k n : nat) (q q' : Question),
    fst (Controller.shuffleAndTake random sectionQuestions usedIds k) !! n
      = Some q ->
    fst (Controller.processSection random sectionQuestions usedIds k) !! n
      = Some q' ->
    length (options q') = length (options q) /\
    ((0 <= answerIndex q < Z.of_nat (length (options q)))%Z ->
     (0 <= answerIndex q' < Z.of_nat (length (options q')))%Z /\
     (exists text,
        at_index (options q) (answerIndex q) = Some text /\
        options q' !! Z.to_nat (answerIndex q') = Some text) /\
     forall m : nat,
       (Z.of_nat m < answerIndex q')%Z ->
       options q' !! m <> at_index (options q) (answerIndex q)) /\
    (~ (0 <= answerIndex q < Z.of_nat (length (options q)))%Z ->
     answerIndex q' = (-1)%Z).
Proof.
  intros random sectionQuestions usedIds k n q q' Hq Hq'.
  pose proof (ControllerFacts.processSection_Forall2 random
                sectionQuestions usedIds k) as HF.
  destruct (Forall2_lookup_lr _ _ _ _ _ _ HF Hq Hq') as [k' ->].
  destruct (SelectionFacts.shuffleOptions_answerIndex random q k')
    as [Hlen Hidx].
  split; [exact Hlen |]. split.
  - intros Hvalid.
    destruct (at_index_valid (options q) (answerIndex q) Hvalid)
      as [text Ht].
    rewrite Ht in Hidx |- *. destruct Hidx as (i & Hi & Hl & Hfirst).
    rewrite Hi. split; [| split].
    + apply lookup_lt_Some in Hl. lia.
    + exists text. split; [reflexivity |]. now rewrite Nat2Z.id.
    + intros m Hm. apply Hfirst. lia.
  - intros Hinvalid.
    destruct (at_index (options q) (answerIndex q)) as [text |] eqn:Ht;
      [| exact Hidx].
    exfalso. apply Hinvalid.
    apply at_index_Some in Ht as [H0 Hl]. apply lookup_lt_Some in Hl. lia.
Qed.

Lemma returned_answer_index_first_or_minus_one_witness :
  let q := mkQuestion "q6"
             "If 25% of a number is 75, what is 40% of that number?"
             ["100"; "120"; "150"; "180"] 1 in
  let q' := mkQuestion "q6"
              "If 25% of a number is 75, what is 40% of that number?"
              ["180"; "100"; "150"; "120"] 3 in
  length (options q') = length (options q) /\
  ((0 <= answerIndex q < Z.of_nat (length (options q)))%Z ->
   (0 <= answerIndex q' < Z.of_nat (length (options q')))%Z /\
   (exists text,
      at_index (options q) (answerIndex q) = Some text /\
      options q' !! Z.to_nat (answerIndex q') = Some text) /\
   forall m : nat,
     (Z.of_nat m < answerIndex q')%Z ->
     options q' !! m <> at_index (options q) (answerIndex q)) /\
  (~ (0 <= answerIndex q < Z.of_nat (length (options q)))%Z ->
   answerIndex q' = (-1)%Z).
Proof.
  apply (returned_answer_index_first_or_minus_one sampleRandom
           GeminiService.fallback_quantitative [] 0 0).
  - vm_compute. reflexivity.
  - vm_compute. reflexivity.
Defined.

(* ===================================================================== *)
(** * Further properties of the shuffle helper                            *)
(* ===================================================================== *)

Module ShuffleFacts.
Import Helpers HelpersFacts.

Lemma unitReal_val (q : Q) :
  Qle_bool 0 q && negb (Qle_bool 1 q) = true -> unit_val (unitReal q) = q.
Proof.
  intros H. unfold unitReal.
  generalize (@eq_refl bool (Qle_bool 0 q && negb (Qle_bool 1 q))).
  generalize (Qle_bool 0 q && negb (Qle_bool 1 q)) at 2 3.
  intros b. destruct b; intros e; [reflexivity | congruence].
Qed.

Lemma Zpos_of_nat (n : nat) : 0 < n -> Z.pos (Pos.of_nat n) = Z.of_nat n.
Proof. destruct n; [lia |]. intros _. rewrite <- Pos.of_nat_succ. lia. Qed.

Lemma floorTimes_drawFor (j n : nat) :
  j < n -> floorTimes (drawFor j n) n = j.
Proof.
  intros Hj. unfold floorTimes, drawFor.
  rewrite unitReal_val.
  - unfold Qfloor, Qmult, inject_Z. cbn [Qnum Qden].
    rewrite Pos.mul_1_r, Zpos_of_nat by lia.
    rewrite Z.div_mul by lia. lia.
  - apply andb_true_iff. split.
    + apply Qle_bool_iff. unfold Qle. cbn. lia.
    + apply negb_true_iff, not_true_iff_false. intros H.
      apply Qle_bool_iff in H. unfold Qle in H. cbn in H.
      rewrite Zpos_of_nat in H by lia. lia.
Qed.

Section Reach.
Context {A : Type}.
Implicit Types (l t : list A) (i j k : nat).

Lemma swap_drop l i j n : i < n -> j < n -> drop n (swap l i j) = drop n l.
Proof.
  intros Hi Hj. unfold swap.
  destruct (l !! i); [| reflexivity]. destruct (l !! j); [| reflexivity].
  now rewrite !drop_insert_lt by lia.
Qed.

(** The loop entered at [i] can turn the array into any permutation of it
    that leaves the positions after [i] as they are. *)
Lemma shuffle_loop_reaches i l t :
  i < length l -> t ≡ₚ l -> drop (S i) t = drop (S i) l ->
  exists draws : list UnitReal,
    length draws = i /\
    forall (random : nat -> UnitReal) k,
      (forall n d, draws !! n = Some d -> random (k + n) = d) ->
      fst (shuffle_loop random i l k) = t.
Proof.
  revert l. induction i as [| i IH]; intros l Hi Hperm Hdrop.
  - exists []. split; [reflexivity |]. intros random k _. cbn.
    destruct l as [| y l']; [cbn in Hi; lia |].
    destruct t as [| x t'];
      [apply Permutation_length in Hperm; discriminate |].
    cbn in Hdrop. rewrite !drop_0 in Hdrop. subst t'.
    now apply (inj (.:: l')) in Hperm as ->.
  - assert (Hlen : length t = length l) by now apply Permutation_length.
    destruct (lookup_lt_is_Some_2 t (S i)) as [x Hx]; [lia |].
    destruct (lookup_lt_is_Some_2 l (S i)) as [y Hy]; [lia |].
    assert (Htake : take (S (S i)) t ≡ₚ take (S (S i)) l).
    { apply (inj (.++ drop (S (S i)) l)).
      rewrite take_drop. rewrite <- Hdrop at 1. now rewrite take_drop. }
    assert (Hin : x ∈ take (S (S i)) l).
    { rewrite <- Htake. apply elem_of_take. exists (S i). split; [easy | lia]. }
    apply elem_of_take in Hin as (j & Hj & Hlt).
    destruct (swap_lookup l (S i) j y x Hy Hj) as [Hsi Hsj].
    destruct (IH (swap l (S i) j)) as (draws & Hdraws & Hrun).
    + rewrite swap_length. lia.
    + now rewrite swap_Permutation.
    + rewrite (drop_S _ x (S i)) by exact Hx.
      rewrite (drop_S _ x (S i)) by exact Hsi.
      rewrite swap_drop by lia. now rewrite Hdrop.
    + exists (drawFor j (S i + 1) :: draws).
      split; [cbn; now rewrite Hdraws |].
      intros random k Hrandom. cbn [shuffle_loop].
      unfold bind, Math_random.
      rewrite <- (Nat.add_0_r k) at 1.
      rewrite (Hrandom 0 (drawFor j (S i + 1)) eq_refl).
      rewrite floorTimes_drawFor by lia.
      apply Hrun. intros n d Hd.
      replace (S k + n) with (k + S n) by lia. now apply Hrandom.
Qed.

End Reach.
End ShuffleFacts.

(** X7. Every ordering can come out of [shuffleArray]: for every
    permutation of the array there is a sequence of draws, one draw less
    than the array has elements, under which [shuffleArray] returns that
    permutation. *)
Theorem shuffleArray_reaches_every_permutation :
  forall (A : Type) (array target : list A),
    target ≡ₚ array ->
    exists draws : list UnitReal,
      length draws = length array - 1 /\
      forall (random : nat -> UnitReal) (k : nat),
        (forall n d, draws !! n = Some d -> random (k + n) = d) ->
        fst (Helpers.shuffleArray random array k) = target.
Proof.
  intros A array target Hperm. unfold Helpers.shuffleArray.
  destruct array as [| x array'].
  - apply Permutation_nil_r in Hperm as ->.
    exists []. split; [reflexivity |]. intros random k _. reflexivity.
  - apply ShuffleFacts.shuffle_loop_reaches; [cbn; lia | exact Hperm |].
    rewrite !drop_ge; [reflexivity | cbn; lia |].
    apply Permutation_length in Hperm. cbn in *. lia.
Qed.

Lemma shuffleArray_reaches_every_permutation_witness :
  exists draws : list UnitReal,
    length draws = length [1; 2; 3; 4] - 1 /\
    forall (random : nat -> UnitReal) (k : nat),
      (forall n d, draws !! n = Some d -> random (k + n) = d) ->
      fst (Helpers.shuffleArray random [1; 2; 3; 4] k) = [3; 1; 4; 2].
Proof.
  apply (shuffleArray_reaches_every_permutation nat [1; 2; 3; 4]
           [3; 1; 4; 2]).
  apply (bool_decide_unpack _). vm_compute. exact I.
Defined.

(** X8. [shuffleArray] calls [Math.random] once per element but the first:
    it leaves the number of calls at [k + (length - 1)], keeps the length
    of the array, and returns an empty or one-element array as it is,
    without a call. *)
Theorem shuffleArray_draws_and_small_arrays :
  forall (random : nat -> UnitReal) (A : Type) (array : list A) (k : nat),
    snd (Helpers.shuffleArray random array k) = k + (length array - 1) /\
    length (fst (Helpers.shuffleArray random array k)) = length array /\
    (length array <= 1 ->
     Helpers.shuffleArray random array k = (array, k)).
Proof.
  intros random A array k. split; [| split].
  - apply HelpersFacts.shuffle_loop_calls.
  - apply HelpersFacts.shuffleArray_length.
  - intros Hsmall. unfold Helpers.shuffleArray.
    replace (length array - 1) with 0 by lia. reflexivity.
Qed.

Lemma shuffleArray_draws_and_small_arrays_witness :
  snd (Helpers.shuffleArray sampleRandom ["a"] 7) = 7 + (length ["a"] - 1) /\
  length (fst (Helpers.shuffleArray sampleRandom ["a"] 7)) = length ["a"] /\
  Helpers.shuffleArray sampleRandom ["a"] 7 = (["a"], 7).
Proof.
  destruct (shuffleArray_draws_and_small_arrays sampleRandom string ["a"] 7)
    as (H1 & H2 & H3).
  split; [exact H1 |]. split; [exact H2 |]. apply H3. cbn. lia.
Defined.

(* ===================================================================== *)
(** * Further properties of the question-generation service               *)
(* ===================================================================== *)

Module FenceFacts.
Import GeminiService Fences.

Lemma prefix_cons (a : ascii) (p : string) (c : ascii) (s : string) :
  String.prefix (String a p) (String c s) = Ascii.eqb c a && String.prefix p s.
Proof.
  cbn. destruct (ascii_dec a c) as [-> | H].
  - now rewrite Ascii.eqb_refl.
  - destruct (Ascii.eqb_spec c a); [congruence | reflexivity].
Qed.

Lemma prefix_fence_lead (s : string) :
  String.prefix "```" s = true <-> 3 <= lead s.
Proof.
  assert (Hnil : forall r, String.prefix "" r = true) by (now intros []).
  destruct s as [| c1 [| c2 [| c3 s]]];
    rewrite ?prefix_cons, ?Hnil; cbn [lead String.prefix];
    repeat match goal with
           | |- context [Ascii.eqb ?c "`"] => destruct (Ascii.eqb c "`")
           end; cbn; split; (lia || discriminate || reflexivity).
Qed.

Lemma prefix_app_l (a b s : string) :
  String.prefix (a +:+ b) s = true -> String.prefix a s = true.
Proof.
  revert s. induction a as [| c a IH]; intros s; [now destruct s |].
  destruct s as [| d s]; [discriminate |].
  change (String c a +:+ b) with (String c (a +:+ b)).
  rewrite !prefix_cons. intros [Hc H]%andb_true_iff.
  rewrite Hc. cbn. now apply IH.
Qed.

Lemma strip_invariant (text : string) :
  forall skip,
    noFence (stripFences_from skip text) /\
    (skip = 0 -> lead text < 3 -> lead (stripFences_from 0 text) = lead text).
Proof.
  induction text as [| c rest IH]; intros skip.
  - cbn. auto.
  - destruct skip as [| n].
    + cbn [stripFences_from].
      destruct (String.prefix "```json" (String c rest)) eqn:Hj.
      { split; [apply IH |]. intros _ Hlead.
        apply (prefix_app_l "```" "json") in Hj.
        apply prefix_fence_lead in Hj. lia. }
      destruct (String.prefix "```" (String c rest)) eqn:Hf.
      { split; [apply IH |]. intros _ Hlead.
        apply prefix_fence_lead in Hf. lia. }
      destruct (IH 0) as [Hno Hlead0].
      assert (Hlt : lead (String c rest) < 3).
      { destruct (le_lt_dec 3 (lead (String c rest))) as [Hge | ?]; [| assumption].
        apply prefix_fence_lead in Hge. congruence. }
      assert (Heq : lead (String c (stripFences_from 0 rest)) = lead (String c rest)).
      { cbn [lead] in *. destruct (Ascii.eqb c "`"); [| reflexivity].
        rewrite Hlead0; [reflexivity | reflexivity | lia]. }
      split.
      * cbn [noFence]. split; [now rewrite Heq | exact Hno].
      * intros _ _. exact Heq.
    + cbn [stripFences_from]. split; [apply IH | discriminate].
Qed.

Lemma noFence_no_fence (s a b : string) : noFence s -> s <> a +:+ "```" +:+ b.
Proof.
  revert s. induction a as [| c a IH]; intros s Hno Heq.
  - subst s. simpl in Hno. destruct Hno as [Hl _]. lia.
  - subst s. cbn [String.append noFence] in Hno. destruct Hno as [_ Hno].
    now apply (IH _ Hno).
Qed.

Lemma append_backtick_free c s :
  (forall a b, String c s <> a +:+ "`" +:+ b) ->
  c <> "`"%char /\ (forall a b, s <> a +:+ "`" +:+ b).
Proof.
  intros H. split.
  - intros ->. now apply (H "" s).
  - intros a b ->. now apply (H (String c a) b).
Qed.

Lemma strip_backtick_free (body tail : string) :
  (forall a b, body <> a +:+ "`" +:+ b) ->
  stripFences_from 0 (body +:+ tail) = body +:+ stripFences_from 0 tail.
Proof.
  induction body as [| c s IH]; intros Hfree; [reflexivity |].
  apply append_backtick_free in Hfree as [Hc Hs].
  change (String c s +:+ tail) with (String c (s +:+ tail)).
  cbn [stripFences_from]. rewrite !prefix_cons.
  destruct (Ascii.eqb_spec c "`"); [contradiction |].
  cbn [andb]. now rewrite IH.
Qed.

Lemma append_nil_r (s : string) : s +:+ "" = s.
Proof.
  induction s as [| c s IH]; [reflexivity |].
  change (String c s +:+ "") with (String c (s +:+ "")). now rewrite IH.
Qed.

Lemma strip_closing_fence : stripFences_from 0 "```" = "".
Proof. reflexivity. Qed.

Lemma strip_fenced (body : string) :
  (forall a b, body <> a +:+ "`" +:+ b) ->
  stripFences body = body /\
  stripFences ("```json" +:+ body +:+ "```") = body.
Proof.
  intros Hfree. unfold stripFences. split.
  - rewrite <- (append_nil_r body) at 1.
    rewrite strip_backtick_free by exact Hfree. cbn. apply append_nil_r.
  - change ("```json" +:+ (body +:+ "```")) with
      (String "`" (String "`" (String "`" (String "j" (String "s" (String "o" (String "n" (body +:+ "```")))))))).
    cbn [stripFences_from]. rewrite !prefix_cons.
    change (Ascii.eqb "`" "`") with true.
    change (Ascii.eqb "j" "j") with true. change (Ascii.eqb "s" "s") with true.
    change (Ascii.eqb "o" "o") with true. change (Ascii.eqb "n" "n") with true.
    assert (Hnil : forall r, String.prefix "" r = true) by (now intros []).
    rewrite Hnil. cbn [andb].
    rewrite strip_backtick_free by exact Hfree. cbn. apply append_nil_r.
Qed.

End FenceFacts.

(** X9. The replacement leaves no code fence behind: whatever the
    response text is, three backticks in a row occur nowhere in the result
    of [text.replace(/```json|```/g, "")], the text that is trimmed and
    parsed next. *)
Theorem stripFences_leaves_no_fence :
  forall text a b : string,
    GeminiService.stripFences text
      <> String.append a (String.append "```" b).
Proof.
  intros text a b. apply FenceFacts.noFence_no_fence.
  apply (FenceFacts.strip_invariant text 0).
Qed.

(** X10. A text without backticks goes through the replacement unchanged,
    and so does a text without backticks that the source wrapped in a
    json code fence: the fence is removed and the text is what is left. *)
Theorem stripFences_unwraps_fenced_text :
  forall body : string,
    (forall a b, body <> String.append a (String.append "`" b)) ->
    GeminiService.stripFences body = body /\
    GeminiService.stripFences
      (String.append "```json" (String.append body "```")) = body.
Proof. exact FenceFacts.strip_fenced. Qed.

Lemma stripFences_unwraps_fenced_text_witness :
  GeminiService.stripFences "{}" = "{}" /\
  GeminiService.stripFences
    (String.append "```json" (String.append "{}" "```")) = "{}".
Proof.
  apply (stripFences_unwraps_fenced_text "{}").
  intros [| c [| d [| e' a]]] b H; vm_compute in H; discriminate.
Defined.

(** X11. The service returns nothing but the built-in set or a document
    the API sent: when the result is not the built-in set, a key was
    configured, the API answered with an ok status and a non-empty text,
    and the result is the object parsed from that text, with a truthy
    member for each of the three sections. *)
Theorem service_returns_fallback_or_complete_document :
  forall (GEMINI_API_KEY : option string)
         (fetch : string -> GeminiService.PromptParts
                  -> GeminiService.FetchResult)
         (trim : string -> string)
         (JSON_parse : string -> option GeminiService.JsValue)
         (classLevel : string),
    let result :=
      GeminiService.generateAptitudeQuestions GEMINI_API_KEY fetch trim
        JSON_parse classLevel in
    result = GeminiService.fallbackQuestions \/
    exists key status data t fields quant logic verb,
      GEMINI_API_KEY = Some key /\ key <> "" /\
      fetch key (GeminiService.promptParts classLevel)
        = GeminiService.HttpResponse true status (Some data) /\
      GeminiService.responseText data = GeminiService.JString t /\
      t <> "" /\
      JSON_parse (trim (GeminiService.stripFences t)) = Some result /\
      result = GeminiService.JObject fields /\
      GeminiService.assoc "quantitative" fields = Some quant /\
      GeminiService.assoc "logical" fields = Some logic /\
      GeminiService.assoc "verbal" fields = Some verb /\
      GeminiService.truthy quant = true /\
      GeminiService.truthy logic = true /\
      GeminiService.truthy verb = true.
Proof.
  intros key fetch trim JSON_parse classLevel result. subst result.
  unfold GeminiService.generateAptitudeQuestions.
  destruct (falsy key) eqn:Hkey; [now left |].
  apply ControllerFacts.falsy_false in Hkey as (k & -> & Hk).
  change (default "" (Some k)) with k.
  destruct (fetch k (GeminiService.promptParts classLevel))
    as [| ok status json] eqn:Hfetch; [now left |].
  destruct ok; cbn [negb]; [| now left].
  destruct json as [data |]; [| now left].
  unfold GeminiService.questionsOfResponse.
  destruct (GeminiService.truthy (GeminiService.responseText data)) eqn:Htruthy;
    cbn [negb]; [| now left].
  destruct (GeminiService.responseText data) as [| | | | t | |] eqn:Htext;
    try (now left).
  destruct (JSON_parse (trim (GeminiService.stripFences t)))
    as [parsed |] eqn:Hparse; [| now left].
  destruct parsed as [| | b | n | s | items | fields];
    cbn [GeminiService.getProp GeminiService.truthy negb orb default
         from_option]; try (now left).
  destruct (GeminiService.assoc "quantitative" fields) as [quant |] eqn:Hq;
    cbn [default from_option GeminiService.truthy negb orb Datatypes.id];
    [| now left].
  destruct (GeminiService.truthy quant) eqn:Htq; cbn [negb orb]; [| now left].
  destruct (GeminiService.assoc "logical" fields) as [logic |] eqn:Hl;
    cbn [default from_option GeminiService.truthy negb orb Datatypes.id];
    [| now left].
  destruct (GeminiService.truthy logic) eqn:Htl; cbn [negb orb]; [| now left].
  destruct (GeminiService.assoc "verbal" fields) as [verb |] eqn:Hv;
    cbn [default from_option GeminiService.truthy negb orb Datatypes.id];
    [| now left].
  destruct (GeminiService.truthy verb) eqn:Htv; cbn [negb orb]; [| now left].
  right. exists k, status, data, t, fields, quant, logic, verb.
  repeat split; try assumption; try reflexivity.
  cbn in Htruthy. intros ->. discriminate.
Qed.
(* ===================================================================== *)
(** * Sections of at most ten questions                                   *)
(* ===================================================================== *)

Module SmallSectionFacts.
Section Handlers.

Variable random : nat -> UnitReal.

Lemma filter_full_length {A} (P : A -> Prop) `{!forall x, Decision (P x)}
  (l : list A) :
  length l <= length (filter P l) -> filter P l = l.
Proof.
  induction l as [| x l IH]; [reflexivity |].
  rewrite filter_cons. pose proof (length_filter P l) as Hle.
  destruct (decide (P x)); simpl; intros Hlen.
  - f_equal. apply IH. lia.
  - lia.
Qed.

Lemma availableQuestions_small sectionQuestions usedIds :
  length sectionQuestions <= 10 ->
  Controller.availableQuestions sectionQuestions usedIds = sectionQuestions.
Proof.
  intros Hlen. unfold Controller.availableQuestions.
  destruct (Nat.ltb_spec
              (length (filter (fun q => id q ∉ usedIds) sectionQuestions)) 10)
    as [| Hge]; [reflexivity |].
  apply filter_full_length. lia.
Qed.

Lemma processSection_small sectionQuestions usedIds k :
  length sectionQuestions <= 10 ->
  id <$> fst (Controller.processSection random sectionQuestions usedIds k)
    ≡ₚ id <$> sectionQuestions.
Proof.
  intros Hlen. rewrite ControllerFacts.processSection_ids.
  rewrite ControllerFacts.shuffleAndTake_unfold.
  rewrite availableQuestions_small by exact Hlen.
  rewrite take_ge
    by (rewrite HelpersFacts.shuffleArray_length; exact Hlen).
  now rewrite HelpersFacts.shuffleArray_Permutation.
Qed.

End Handlers.
End SmallSectionFacts.

(** X12. A section of the question set with 10 questions or fewer is
    served in full: whatever the student has seen before, the ids of the
    section in the quiz are the ids of the section in the question set, in
    some order.  The built-in set, with 10 questions per section, is such
    a set, so that any two quizzes served from it ask the same questions. *)
Theorem small_sections_are_served_in_full :
  forall (random : nat -> UnitReal) (classLevel email : option string)
         (clock : Clock) (allQuestions : Questions)
         (userAttempts : list Attempt) (k : nat) (quiz : Questions),
    fst (fst (Controller.generateQuestions random classLevel email clock
                allQuestions userAttempts k)) = Ok quiz ->
    (length (quantitative allQuestions) <= 10 ->
     id <$> quantitative quiz ≡ₚ id <$> quantitative allQuestions) /\
    (length (logical allQuestions) <= 10 ->
     id <$> logical quiz ≡ₚ id <$> logical allQuestions) /\
    (length (verbal allQuestions) <= 10 ->
     id <$> verbal quiz ≡ₚ id <$> verbal allQuestions).
Proof.
  intros random classLevel email clock allQuestions userAttempts k quiz Hok.
  destruct (ControllerFacts.generateQuestions_Ok_inv _ _ _ _ _ _ _ _ Hok)
    as (e & -> & Hne).
  rewrite (ControllerFacts.generateQuestions_served random classLevel e
             clock allQuestions userAttempts k Hne) in Hok.
  simpl in Hok. injection Hok as <-. simpl.
  split; [| split]; intros Hlen;
    now apply SmallSectionFacts.processSection_small.
Qed.

Lemma small_sections_are_served_in_full_witness :
  let bank := GeminiService.fallbackBank in
  exists quiz,
    fst (fst (Controller.generateQuestions sampleRandom (Some "10th")
                (Some "asha@example.com") (mkClock 0 0 0) bank [] 0))
      = Ok quiz /\
    id <$> quantitative quiz ≡ₚ id <$> quantitative bank /\
    id <$> logical quiz ≡ₚ id <$> logical bank /\
    id <$> verbal quiz ≡ₚ id <$> verbal bank.
Proof.
  intros bank.
  edestruct (small_sections_are_served_in_full sampleRandom (Some "10th")
               (Some "asha@example.com") (mkClock 0 0 0) bank [] 0)
    as (Hq & Hl & Hv); [vm_compute; reflexivity |].
  eexists. split; [vm_compute; reflexivity |].
  split; [| split].
  - apply Hq. vm_compute. lia.
  - apply Hl. vm_compute. lia.
  - apply Hv. vm_compute. lia.
Defined.

(* ===================================================================== *)
(** * The answers of a test                                               *)
(* ===================================================================== *)

Module AppFacts.
Import App.

Lemma dashFree_pretty_N_go (x : N) (s : string) :
  dashFree s -> dashFree (pretty_N_go x s).
Proof.
  revert s. induction (N.lt_wf_0 x) as [x _ IH]. intros s Hs.
  assert (x = 0 \/ 0 < x)%N as [-> | Hpos] by lia.
  - now rewrite pretty_N_go_0.
  - rewrite pretty_N_go_step by exact Hpos. apply IH.
    + now apply N.div_lt.
    + split; [| exact Hs]. unfold pretty_N_char.
      repeat case_match; discriminate.
Qed.

Lemma dashFree_pretty (index : nat) : dashFree (pretty index).
Proof.
  unfold pretty, pretty_nat, pretty, pretty_N. case_decide.
  - simpl. split; [discriminate | exact I].
  - apply dashFree_pretty_N_go. exact I.
Qed.

Lemma dashFree_no_dash (a b : string) :
  ~ dashFree (String.append a (String "-" b)).
Proof.
  induction a as [| c a IH]; simpl.
  - intros [H _]. now apply H.
  - intros [_ H]. now apply IH.
Qed.

Lemma append_nil_l (s : string) : String.append "" s = s.
Proof. reflexivity. Qed.

Lemma append_cons (c : ascii) (a s : string) :
  String.append (String c a) s = String c (String.append a s).
Proof. reflexivity. Qed.

(** The key of an answer determines the section key and the index. *)
Lemma answerKey_inj (key key' : string) (index index' : nat) :
  answerKey key index = answerKey key' index' ->
  key = key' /\ index = index'.
Proof.
  unfold answerKey. revert key'.
  induction key as [| c key IH]; intros [| c' key'] H;
    rewrite ?append_cons, ?append_nil_l in H.
  - injection H as H. split; [reflexivity | exact (pretty_nat_inj _ _ H)].
  - injection H as <- H. exfalso.
    pose proof (dashFree_pretty index) as Hd. rewrite H in Hd.
    exact (dashFree_no_dash key' (pretty index') Hd).
  - injection H as -> H. exfalso.
    pose proof (dashFree_pretty index') as Hd. rewrite <- H in Hd.
    exact (dashFree_no_dash key (pretty index) Hd).
  - injection H as -> H. apply IH in H as [-> ->]. now split.
Qed.

Lemma countCorrect_acc key answers index questions correct :
  countCorrect key answers index questions correct
  = correct + countCorrect key answers index questions 0.
Proof.
  revert index correct.
  induction questions as [| q rest IH]; intros index correct; simpl.
  - lia.
  - rewrite IH. rewrite (IH _ (if isCorrect key answers index q then _ else _)).
    destruct (isCorrect key answers index q); lia.
Qed.

Lemma countCorrect_cons key answers index q rest :
  countCorrect key answers index (q :: rest) 0
  = (if isCorrect key answers index q then 1 else 0)
    + countCorrect key answers (S index) rest 0.
Proof.
  simpl. rewrite countCorrect_acc.
  now destruct (isCorrect key answers index q).
Qed.

Lemma countCorrect_le key answers index questions :
  countCorrect key answers index questions 0 <= length questions.
Proof.
  revert index. induction questions as [| q rest IH]; intros index.
  - simpl. lia.
  - rewrite countCorrect_cons. specialize (IH (S index)). simpl.
    destruct (isCorrect key answers index q); lia.
Qed.

Lemma countCorrect_full key answers index questions :
  countCorrect key answers index questions 0 = length questions <->
  forall i q, questions !! i = Some q ->
              isCorrect key answers (index + i) q = true.
Proof.
  revert index. induction questions as [| q rest IH]; intros index.
  - simpl. split; [intros _ i q' H; discriminate | reflexivity].
  - rewrite countCorrect_cons. simpl.
    pose proof (countCorrect_le key answers (S index) rest) as Hle.
    split.
    + intros H i q' Hi.
      destruct (isCorrect key answers index q) eqn:Hq; [| lia].
      destruct i as [| i]; simpl in Hi.
      * injection Hi as <-. now rewrite Nat.add_0_r.
      * replace (index + S i) with (S index + i) by lia.
        apply (proj1 (IH (S index))); [lia | exact Hi].
    + intros H.
      pose proof (H 0 q eq_refl) as H0. rewrite Nat.add_0_r in H0.
      rewrite H0. f_equal. apply IH. intros i q' Hi.
      replace (S index + i) with (index + S i) by lia. now apply H.
Qed.

Lemma countCorrect_none key answers index questions :
  countCorrect key answers index questions 0 = 0 <->
  forall i q, questions !! i = Some q ->
              isCorrect key answers (index + i) q = false.
Proof.
  revert index. induction questions as [| q rest IH]; intros index.
  - simpl. split; [intros _ i q' H; discriminate | reflexivity].
  - rewrite countCorrect_cons. split.
    + intros H i q' Hi.
      destruct (isCorrect key answers index q) eqn:Hq; [lia |].
      destruct i as [| i]; simpl in Hi.
      * injection Hi as <-. now rewrite Nat.add_0_r.
      * replace (index + S i) with (S index + i) by lia.
        apply (proj1 (IH (S index))); [lia | exact Hi].
    + intros H.
      pose proof (H 0 q eq_refl) as H0. rewrite Nat.add_0_r in H0.
      rewrite H0. simpl. apply IH. intros i q' Hi.
      replace (S index + i) with (index + S i) by lia. now apply H.
Qed.

Lemma calculateScores_sections quiz answers :
  calculateScores quiz answers =
    mkScores (countCorrect "quantitative" answers 0 (quantitative quiz) 0)
             (countCorrect "logical" answers 0 (logical quiz) 0)
             (countCorrect "verbal" answers 0 (verbal quiz) 0).
Proof. reflexivity. Qed.

End AppFacts.

(** X13. Recorded answers are kept per question: after the listener of an
    option has run, the answer recorded for its question is that option,
    and the answer recorded for any other question, of the same section or
    of another, is what it was.  The answer keys of two questions differ
    whatever the section keys are. *)
Theorem recorded_answer_is_per_question :
  forall (key key' : string) (index index' optIdx : nat)
         (answers : gmap string nat),
    App.recordAnswer key index optIdx answers !! App.answerKey key index
      = Some optIdx /\
    ((key, index) <> (key', index') ->
     App.recordAnswer key index optIdx answers !! App.answerKey key' index'
       = answers !! App.answerKey key' index').
Proof.
  intros key key' index index' optIdx answers. unfold App.recordAnswer.
  split; [apply lookup_insert_eq |].
  intros Hne. apply lookup_insert_ne. intros H.
  apply AppFacts.answerKey_inj in H as [-> ->]. now apply Hne.
Qed.

(* ===================================================================== *)
(** * The marking of a test                                               *)
(* ===================================================================== *)

(** X14. A question of a served quiz is marked correct exactly when the
    option the student recorded for it shows the text that the question
    of the bank names as its answer, whatever the shuffle did, as long as
    the options of the question are pairwise distinct. *)
Theorem marked_correct_iff_correct_text_chosen :
  forall (random : nat -> UnitReal) (sectionQuestions : list Question)
         (usedIds : list string) (k n : nat) (q q' : Question)
         (key : string) (answers : gmap string nat),
    fst (Controller.shuffleAndTake random sectionQuestions usedIds k) !! n
      = Some q ->
    fst (Controller.processSection random sectionQuestions usedIds k) !! n
      = Some q' ->
    NoDup (options q) ->
    App.isCorrect key answers n q' = true <->
    exists (chosen : nat) (text : string),
      answers !! App.answerKey key n = Some chosen /\
      options q' !! chosen = Some text /\
      at_index (options q) (answerIndex q) = Some text.
Proof.
  intros random sectionQuestions usedIds k n q q' key answers Hq Hq' Hnd.
  pose proof (ControllerFacts.processSection_Forall2 random
                sectionQuestions usedIds k) as HF.
  destruct (Forall2_lookup_lr _ _ _ _ _ _ HF Hq Hq') as [k' ->].
  destruct (SelectionFacts.shuffleOptions_answerIndex random q k')
    as [_ Hidx].
  destruct (ControllerFacts.shuffleOptions_spec random q k')
    as (_ & _ & Hperm & _).
  set (q' := fst (Controller.shuffleOptions random q k')) in *.
  assert (Hnd' : NoDup (options q')) by now rewrite Hperm.
  unfold App.isCorrect.
  destruct (answers !! App.answerKey key n) as [chosen |].
  - destruct (at_index (options q) (answerIndex q)) as [text |].
    + destruct Hidx as (m & Hm & Hl & _). rewrite Hm. split.
      * intros H%Z.eqb_eq. exists chosen, text.
        assert (chosen = m) as -> by lia. auto.
      * intros (chosen' & text' & [= <-] & Hl' & [= <-]).
        apply Z.eqb_eq. f_equal.
        exact (NoDup_lookup _ _ _ _ Hnd' Hl' Hl).
    + rewrite Hidx. split.
      * intros H%Z.eqb_eq. lia.
      * intros (_ & _ & _ & _ & [=]).
  - split; [discriminate | intros (_ & _ & [=] & _)].
Qed.

Lemma marked_correct_iff_correct_text_chosen_witness :
  let random := sampleRandom in
  let section := GeminiService.fallback_quantitative in
  exists q q',
    fst (Controller.shuffleAndTake random section [] 0) !! 0 = Some q /\
    fst (Controller.processSection random section [] 0) !! 0 = Some q' /\
    forall answers : gmap string nat,
      App.isCorrect "quantitative" answers 0 q' = true <->
      exists (chosen : nat) (text : string),
        answers !! App.answerKey "quantitative" 0 = Some chosen /\
        options q' !! chosen = Some text /\
        at_index (options q) (answerIndex q) = Some text.
Proof.
  intros random section.
  destruct (fst (Controller.shuffleAndTake random section [] 0) !! 0)
    as [q |] eqn:Hq; [| vm_compute in Hq; discriminate].
  destruct (fst (Controller.processSection random section [] 0) !! 0)
    as [q' |] eqn:Hq'; [| vm_compute in Hq'; discriminate].
  exists q, q'. split; [reflexivity |]. split; [reflexivity |].
  intros answers.
  apply (marked_correct_iff_correct_text_chosen random section [] 0 0 q q'
           "quantitative" answers Hq Hq').
  vm_compute in Hq. injection Hq as <-.
  apply (bool_decide_unpack _). vm_compute. exact I.
Defined.

Module MarkingFacts.
Import App.

Lemma allAnswered_from_spec key answers i n :
  allAnswered_from key answers i n = true <->
  forall j, j < n -> is_Some (answers !! answerKey key (i + j)).
Proof.
  revert i. induction n as [| n IH]; intros i; simpl.
  - split; [intros _ j Hj; lia | reflexivity].
  - split.
    + intros H j Hj.
      destruct (answers !! answerKey key i) as [chosen |] eqn:Hi;
        [| discriminate].
      destruct j as [| j].
      * rewrite Nat.add_0_r, Hi. eauto.
      * replace (i + S j) with (S i + j) by lia.
        apply (proj1 (IH (S i)) H). lia.
    + intros H. destruct (H 0 ltac:(lia)) as [chosen Hc].
      rewrite Nat.add_0_r in Hc. rewrite Hc. apply IH. intros j Hj.
      replace (S i + j) with (i + S j) by lia. apply H. lia.
Qed.

Lemma isCorrect_answered key answers index q :
  isCorrect key answers index q = true ->
  is_Some (answers !! answerKey key index).
Proof.
  unfold isCorrect. destruct (answers !! answerKey key index); [eauto |].
  discriminate.
Qed.

Lemma countCorrect_marked answers key questions :
  let score := countCorrect key answers 0 questions 0 in
  score <= length questions /\
  (score = length questions <->
   forall i q, questions !! i = Some q ->
               isCorrect key answers i q = true) /\
  (score = 0 <->
   forall i q, questions !! i = Some q ->
               isCorrect key answers i q = false) /\
  (score = length questions -> allAnswered key answers questions = true).
Proof.
  intros score. subst score.
  split; [apply AppFacts.countCorrect_le |].
  split; [apply AppFacts.countCorrect_full |].
  split; [apply AppFacts.countCorrect_none |].
  intros H. apply allAnswered_from_spec. intros j Hj.
  destruct (lookup_lt_is_Some_2 questions j Hj) as [q Hq].
  apply (isCorrect_answered key answers j q).
  exact (proj1 (AppFacts.countCorrect_full key answers 0 questions) H j q Hq).
Qed.

End MarkingFacts.

(** X15. The score of a section is the number of its questions marked
    correct: it is at most the number of questions of the section, equal
    to it exactly when every question is marked correct, and 0 exactly
    when none is; a section with full marks has an answer recorded for
    every question. *)
Theorem section_scores_count_marked_questions :
  forall (quiz : Questions) (answers : gmap string nat),
    let scores := App.calculateScores quiz answers in
    let marked (key : string) (questions : list Question) (score : nat) :=
      score <= length questions /\
      (score = length questions <->
       forall i q, questions !! i = Some q ->
                   App.isCorrect key answers i q = true) /\
      (score = 0 <->
       forall i q, questions !! i = Some q ->
                   App.isCorrect key answers i q = false) /\
      (score = length questions ->
       App.allAnswered key answers questions = true) in
    marked "quantitative" (quantitative quiz) (App.quantitativeScore scores)
    /\ marked "logical" (logical quiz) (App.logicalScore scores)
    /\ marked "verbal" (verbal quiz) (App.verbalScore scores).
Proof.
  intros quiz answers scores marked. subst scores marked.
  rewrite AppFacts.calculateScores_sections.
  cbn [App.quantitativeScore App.logicalScore App.verbalScore].
  split; [| split]; apply MarkingFacts.countCorrect_marked.
Qed.

Lemma section_scores_count_marked_questions_witness :
  let quiz := GeminiService.fallbackBank in
  let answers :=
    App.recordAnswer "quantitative" 0 0
      (App.recordAnswer "logical" 3 2 ∅) in
  App.calculateScores quiz answers = App.mkScores 1 0 0 /\
  App.quantitativeScore (App.calculateScores quiz answers)
    <= length (quantitative quiz).
Proof.
  intros quiz answers. split; [vm_compute; reflexivity |].
  apply (section_scores_count_marked_questions quiz answers).
Defined.

(* ===================================================================== *)
(** * The course of a test                                                *)
(* ===================================================================== *)

Module TestFacts.
Import App.





End TestFacts.


(* ===================================================================== *)
(** * The way to the recommendations                                      *)
(* ===================================================================== *)

Module GateFacts.

Lemma average_le_4 (a b c : nat) :
  Qle_bool ((inject_Z (Z.of_nat a) + inject_Z (Z.of_nat b)
             + inject_Z (Z.of_nat c)) / 3) 4 = true
  <-> a + b + c <= 12.
Proof.
  rewrite Qle_bool_iff.
  rewrite <- !inject_Z_plus.
  unfold Qle, Qdiv, Qmult, Qinv, inject_Z. simpl. lia.
Qed.

End GateFacts.

(** X17. Right after a test, the recommendations are fetched exactly when
    the student has at least 13 answers marked correct in all; with 12 or
    fewer the front end stops at the message about the low average. *)
Theorem recommendations_need_thirteen_marks :
  forall (u : App.StoredUser) (quiz : Questions)
         (answers : gmap string nat) (testTakenAt : string),
    testTakenAt <> "" ->
    let scores := App.calculateScores quiz answers in
    let total :=
      App.quantitativeScore scores + App.logicalScore scores
        + App.verbalScore scores in
    let stored :=
      fst (App.calculateAndShowResults (Some u) quiz answers testTakenAt) in
    (13 <= total <-> App.recommendationsGate stored = App.Fetch) /\
    (total <= 12 <->
     exists average, App.recommendationsGate stored = App.ScoreTooLow average).
Proof.
  intros u quiz answers testTakenAt Hne scores total stored.
  subst stored. unfold App.calculateAndShowResults. fold scores.
  cbn [fst]. unfold App.recommendationsGate.
  cbn [App.getStoredScores App.aptitudeScores App.storedTestTakenAt
         App.storedQuantitative App.storedLogical App.storedVerbal falsy
         default from_option Datatypes.id].
  destruct (String.eqb_spec testTakenAt "") as [| _]; [contradiction |].
  pose proof (GateFacts.average_le_4 (App.quantitativeScore scores)
                (App.logicalScore scores) (App.verbalScore scores)) as Hle.
  fold total in Hle.
  destruct (Qle_bool _ 4) eqn:Hb.
  - split; split.
    + intros H. apply proj1 in Hle. specialize (Hle eq_refl). lia.
    + discriminate.
    + eauto.
    + intros _. now apply Hle.
  - split; split.
    + reflexivity.
    + intros _. destruct (le_lt_dec total 12) as [H | H]; [| lia].
      apply Hle in H. discriminate.
    + intros H. apply Hle in H. discriminate.
    + intros [average [=]].
Qed.

Lemma recommendations_need_thirteen_marks_witness :
  let u := App.mkStoredUser (Some "asha@example.com") None in
  let stored :=
    fst (App.calculateAndShowResults (Some u) GeminiService.fallbackBank ∅
           "2025-01-15T10:00:00.000Z") in
  exists average, App.recommendationsGate stored = App.ScoreTooLow average.
Proof.
  intros u stored.
  assert (Hne : "2025-01-15T10:00:00.000Z" <> "") by discriminate.
  destruct (recommendations_need_thirteen_marks u GeminiService.fallbackBank
              ∅ "2025-01-15T10:00:00.000Z" Hne) as [_ [Hlow _]].
  apply Hlow. vm_compute. lia.
Defined.


(* ===================================================================== *)
(** * The scores sent to the server                                       *)
(* ===================================================================== *)

Module ProfileFacts.
Import GeminiService Profile.

Lemma outOfRange_false (ToNumber : JsValue -> JsNum) (score : JsValue) :
  outOfRange ToNumber score = false ->
  ToNumber score = NaN \/
  exists q, ToNumber score = Finite q /\ (0 <= q <= 10)%Q.
Proof.
  unfold outOfRange, lessThan, greaterThan.
  destruct (ToNumber score) as [| negative | q].
  - now left.
  - now destruct negative.
  - intros [H0 H10]%orb_false_elim. right. exists q.
    apply negb_false_iff in H0, H10. apply Qle_bool_iff in H0, H10. auto.
Qed.

Lemma outOfRange_whole (ToNumber : JsValue -> JsNum) (n : nat) :
  (forall z, ToNumber (JNumber z) = Finite (inject_Z z)) ->
  n <= 10 -> outOfRange ToNumber (JNumber (Z.of_nat n)) = false.
Proof.
  intros Hnum Hn. unfold outOfRange. rewrite Hnum. cbn [lessThan greaterThan].
  apply orb_false_intro; apply negb_false_iff, Qle_bool_iff;
    unfold Qle; simpl; lia.
Qed.

End ProfileFacts.

(** X18. [submitScores] saves nothing but what it validated.  Every call
    of [save()] is made for the student found under the lower-cased email
    of the request, on a document that holds the casts to [Number] of the
    three score members of the request and the clock reading, and each of
    these members converts, in the range checks, to a number between 0
    and 10 or to no number at all.  Success is reported only after
    [save()] resolved, and a reply other than the status 500 of a failure
    that is no success comes with no call of [save()].  Where the cast
    and the range checks read a value as the same number, every number
    saved lies between 0 and 10. *)
Theorem submitScores_saves_only_validated_scores :
  forall (ToNumber : GeminiService.JsValue -> Profile.JsNum)
         (Student : Type) (toLowerCase : string -> string)
         (findOne : string -> option (option Student))
         (save : Student -> Profile.AptitudeScores -> bool)
         (castToNumber : GeminiService.JsValue -> GeminiService.JsValue)
         (body : GeminiService.JsValue) (now : Z),
    let result :=
      Profile.submitScores ToNumber Student toLowerCase findOne save
        castToNumber body now in
    (forall student assigned,
       (student, assigned) ∈ snd result ->
       exists e scores quant logic verb,
         GeminiService.getProp body "email"
           = Some (GeminiService.JString e) /\ e <> "" /\
         findOne (toLowerCase e) = Some (Some student) /\
         GeminiService.getProp body "scores" = Some scores /\
         GeminiService.getProp scores "quantitative" = Some quant /\
         GeminiService.getProp scores "logical" = Some logic /\
         GeminiService.getProp scores "verbal" = Some verb /\
         assigned
         = {| Profile.savedQuantitative :=
                Profile.castScore castToNumber quant;
              Profile.savedLogical := Profile.castScore castToNumber logic;
              Profile.savedVerbal := Profile.castScore castToNumber verb;
              Profile.testTakenAt := now |} /\
         forall score,
           score ∈ [quant; logic; verb] ->
           ToNumber score = Profile.NaN \/
           exists q, ToNumber score = Profile.Finite q /\ (0 <= q <= 10)%Q) /\
    (forall student assigned,
       fst result = Profile.ScoresSaved student assigned ->
       snd result = [(student, assigned)] /\ save student assigned = true) /\
    (forall status message,
       fst result = Profile.Failure status message ->
       status <> 500%Z -> snd result = []) /\
    ((forall v n,
        Profile.castScore castToNumber v = GeminiService.JNumber n ->
        ToNumber v = Profile.Finite (inject_Z n)) ->
     forall student assigned n,
       (student, assigned) ∈ snd result ->
       GeminiService.JNumber n
         ∈ [Profile.savedQuantitative assigned;
            Profile.savedLogical assigned;
            Profile.savedVerbal assigned] ->
       (0 <= n <= 10)%Z).
Proof.
  intros ToNumber Student toLowerCase findOne save castToNumber body now
    result.
  assert (Hcalls : forall student assigned,
             (student, assigned) ∈ snd result ->
             exists e scores quant logic verb,
               GeminiService.getProp body "email"
                 = Some (GeminiService.JString e) /\ e <> "" /\
               findOne (toLowerCase e) = Some (Some student) /\
               GeminiService.getProp body "scores" = Some scores /\
               GeminiService.getProp scores "quantitative" = Some quant /\
               GeminiService.getProp scores "logical" = Some logic /\
               GeminiService.getProp scores "verbal" = Some verb /\
               assigned
               = {| Profile.savedQuantitative :=
                      Profile.castScore castToNumber quant;
                    Profile.savedLogical :=
                      Profile.castScore castToNumber logic;
                    Profile.savedVerbal :=
                      Profile.castScore castToNumber verb;
                    Profile.testTakenAt := now |} /\
               forall score,
                 score ∈ [quant; logic; verb] ->
                 ToNumber score = Profile.NaN \/
                 exists q, ToNumber score = Profile.Finite q
                           /\ (0 <= q <= 10)%Q).
  { subst result. unfold Profile.submitScores.
    destruct (GeminiService.getProp body "email") as [email |];
      [| intros ? ? []%elem_of_nil].
    destruct (GeminiService.getProp body "scores") as [scores |];
      [| intros ? ? []%elem_of_nil].
    destruct (GeminiService.truthy email) eqn:Hemail; cbn [negb];
      [| intros ? ? []%elem_of_nil].
    destruct (negb (GeminiService.truthy scores)
              || negb (Profile.typeofObject scores));
      [intros ? ? []%elem_of_nil |].
    destruct (GeminiService.getProp scores "quantitative") as [quant |]
      eqn:Equant; [| intros ? ? []%elem_of_nil].
    destruct (GeminiService.getProp scores "logical") as [logic |]
      eqn:Elogic; [| intros ? ? []%elem_of_nil].
    destruct (GeminiService.getProp scores "verbal") as [verb |]
      eqn:Everb; [| intros ? ? []%elem_of_nil].
    destruct (Profile.outOfRange ToNumber quant) eqn:Hq; cbn [orb];
      [intros ? ? []%elem_of_nil |].
    destruct (Profile.outOfRange ToNumber logic) eqn:Hl; cbn [orb];
      [intros ? ? []%elem_of_nil |].
    destruct (Profile.outOfRange ToNumber verb) eqn:Hv; cbn [orb];
      [intros ? ? []%elem_of_nil |].
    destruct (Profile.findByEmail Student toLowerCase findOne email)
      as [[student |] |] eqn:Hfind;
      [| intros ? ? []%elem_of_nil | intros ? ? []%elem_of_nil].
    assert (Hin : forall student' assigned,
               (student', assigned)
               ∈ [(student,
                   {| Profile.savedQuantitative :=
                        Profile.castScore castToNumber quant;
                      Profile.savedLogical :=
                        Profile.castScore castToNumber logic;
                      Profile.savedVerbal :=
                        Profile.castScore castToNumber verb;
                      Profile.testTakenAt := now |})] ->
               exists e scores' quant' logic' verb',
                 Some email = Some (GeminiService.JString e) /\ e <> "" /\
                 findOne (toLowerCase e) = Some (Some student') /\
                 Some scores = Some scores' /\
                 GeminiService.getProp scores' "quantitative" = Some quant'
                 /\ GeminiService.getProp scores' "logical" = Some logic'
                 /\ GeminiService.getProp scores' "verbal" = Some verb' /\
                 assigned
                 = {| Profile.savedQuantitative :=
                        Profile.castScore castToNumber quant';
                      Profile.savedLogical :=
                        Profile.castScore castToNumber logic';
                      Profile.savedVerbal :=
                        Profile.castScore castToNumber verb';
                      Profile.testTakenAt := now |} /\
                 forall score,
                   score ∈ [quant'; logic'; verb'] ->
                   ToNumber score = Profile.NaN \/
                   exists q, ToNumber score = Profile.Finite q
                             /\ (0 <= q <= 10)%Q).
    { intros student' assigned Hin%list_elem_of_singleton.
      injection Hin as -> ->.
      destruct email as [| | b | n | e | items | fields];
        try discriminate Hfind.
      exists e, scores, quant, logic, verb. cbn in Hemail, Hfind.
      split; [reflexivity |]. split; [intros ->; discriminate |].
      split; [exact Hfind |]. split; [reflexivity |].
      split; [exact Equant |]. split; [exact Elogic |].
      split; [exact Everb |]. split; [reflexivity |].
      intros score Hs. repeat apply elem_of_cons in Hs as [-> | Hs];
        [now apply ProfileFacts.outOfRange_false ..
        | now apply elem_of_nil in Hs]. }
    destruct (save student _); exact Hin. }
  split; [exact Hcalls |]. split; [| split].
  - clear Hcalls. subst result. unfold Profile.submitScores.
    intros student assigned.
    repeat (match goal with
            | |- context [match ?x with _ => _ end] =>
                destruct x eqn:?; cbn [fst snd negb orb]
            end; try discriminate).
    intros [= <- <-]. now split.
  - clear Hcalls. subst result. unfold Profile.submitScores.
    intros status message.
    repeat (match goal with
            | |- context [match ?x with _ => _ end] =>
                destruct x eqn:?; cbn [fst snd negb orb]
            end; try discriminate; try reflexivity).
    intros [= <- _] Hne. now contradiction Hne.
  - intros Hagree student assigned n Hin Hn.
    destruct (Hcalls student assigned Hin)
      as (e & scores & quant & logic & verb & _ & _ & _ & _ & _ & _ & _
          & -> & Hrange).
    cbn [Profile.savedQuantitative Profile.savedLogical Profile.savedVerbal]
      in Hn.
    assert (Hscore : exists score,
               score ∈ [quant; logic; verb] /\
               Profile.castScore castToNumber score
               = GeminiService.JNumber n).
    { repeat apply elem_of_cons in Hn as [Hn | Hn];
        [exists quant | exists logic | exists verb
        | now apply elem_of_nil in Hn];
        (split; [| now symmetry]).
      - apply list_elem_of_here.
      - apply list_elem_of_further, list_elem_of_here.
      - do 2 apply list_elem_of_further. apply list_elem_of_here. }
    destruct Hscore as (score & Hs & Hcast).
    apply Hagree in Hcast.
    destruct (Hrange score Hs) as [Hnan | (q & Hq & H0 & H10)];
      [congruence |].
    rewrite Hcast in Hq. injection Hq as <-.
    change 0%Q with (inject_Z 0) in H0.
    change 10%Q with (inject_Z 10) in H10.
    rewrite <- Zle_Qle in H0, H10. lia.
Qed.

Lemma submitScores_saves_only_validated_scores_witness :
  let result :=
    Profile.submitScores numberOf string (fun s => s) everyStudent
      alwaysSaved castBooleans scoresRequest 1000 in
  let assigned :=
    Profile.mkAptitudeScores (GeminiService.JNumber 7)
      (GeminiService.JNumber 10) (GeminiService.JNumber 0) 1000 in
  snd result = [("asha@example.com", assigned)] /\
  forall n,
    GeminiService.JNumber n
      ∈ [GeminiService.JNumber 7; GeminiService.JNumber 10;
         GeminiService.JNumber 0] ->
    (0 <= n <= 10)%Z.
Proof.
  intros result assigned. split; [vm_compute; reflexivity |].
  destruct (submitScores_saves_only_validated_scores numberOf string
              (fun s => s) everyStudent alwaysSaved castBooleans
              scoresRequest 1000)
    as (_ & _ & _ & Hrange).
  intros n Hn.
  apply (Hrange
           ltac:(intros [| | [|] | m | t | items | fields] m' Hcast;
                 try discriminate Hcast;
                 injection Hcast as <-; reflexivity)
           "asha@example.com" assigned n).
  - vm_compute. apply list_elem_of_here.
  - exact Hn.
Defined.

Module ResultsFacts.

(** A served quiz holds at most 10 questions per section. *)
Lemma served_at_most_ten (random : nat -> UnitReal) classLevel email clock
  allQuestions userAttempts k questions :
  fst (fst (Controller.generateQuestions random classLevel email clock
              allQuestions userAttempts k)) = Ok questions ->
  length (quantitative questions) <= 10 /\
  length (logical questions) <= 10 /\
  length (verbal questions) <= 10.
Proof.
  intros Hok.
  destruct (ControllerFacts.generateQuestions_Ok_inv _ _ _ _ _ _ _ _ Hok)
    as (e & -> & Hne).
  rewrite (ControllerFacts.generateQuestions_served random classLevel e
             clock allQuestions userAttempts k Hne) in Hok.
  simpl in Hok. injection Hok as <-. simpl.
  rewrite !ControllerFacts.processSection_length. lia.
Qed.

Lemma scores_at_most_lengths (quiz : Questions) (answers : gmap string nat) :
  let scores := App.calculateScores quiz answers in
  App.quantitativeScore scores <= length (quantitative quiz) /\
  App.logicalScore scores <= length (logical quiz) /\
  App.verbalScore scores <= length (verbal quiz).
Proof.
  intros scores. subst scores. rewrite AppFacts.calculateScores_sections.
  cbn [App.quantitativeScore App.logicalScore App.verbalScore].
  repeat split; apply AppFacts.countCorrect_le.
Qed.

End ResultsFacts.

(** X19. The scores the front end computes for a quiz the server served
    are never turned down by the server: the request body of [saveScores]
    passes the checks of [submitScores], and when the student is found
    and [save()] resolves, the three scores computed are the ones saved
    and reported back - they are numbers, which the cast of the schema
    keeps. *)
Theorem quiz_scores_pass_validation :
  forall (random : nat -> UnitReal) (classLevel : option string)
         (e : string) (clock : Clock) (allQuestions : Questions)
         (userAttempts : list Attempt) (k : nat) (quiz : Questions)
         (answers : gmap string nat)
         (aptitudeScores : option App.StoredScores) (testTakenAt : string)
         (ToNumber : GeminiService.JsValue -> Profile.JsNum)
         (Student : Type) (toLowerCase : string -> string)
         (findOne : string -> option (option Student))
         (save : Student -> Profile.AptitudeScores -> bool)
         (castToNumber : GeminiService.JsValue -> GeminiService.JsValue)
         (now : Z) (student : Student),
    (forall n, ToNumber (GeminiService.JNumber n)
               = Profile.Finite (inject_Z n)) ->
    fst (fst (Controller.generateQuestions random classLevel (Some e) clock
                allQuestions userAttempts k)) = Ok quiz ->
    findOne (toLowerCase e) = Some (Some student) ->
    (forall assigned, save student assigned = true) ->
    let scores := App.calculateScores quiz answers in
    let assigned :=
      {| Profile.savedQuantitative :=
           GeminiService.JNumber (Z.of_nat (App.quantitativeScore scores));
         Profile.savedLogical :=
           GeminiService.JNumber (Z.of_nat (App.logicalScore scores));
         Profile.savedVerbal :=
           GeminiService.JNumber (Z.of_nat (App.verbalScore scores));
         Profile.testTakenAt := now |} in
    exists body,
      snd (App.calculateAndShowResults
             (Some (App.mkStoredUser (Some e) aptitudeScores)) quiz answers
             testTakenAt) = Some body /\
      Profile.submitScores ToNumber Student toLowerCase findOne save
        castToNumber body now
        = (Profile.ScoresSaved student assigned, [(student, assigned)]).
Proof.
  intros random classLevel e clock allQuestions userAttempts k quiz answers
    aptitudeScores testTakenAt ToNumber Student toLowerCase findOne save
    castToNumber now student Hnum Hok Hfind Hsave scores assigned.
  destruct (ControllerFacts.generateQuestions_Ok_inv _ _ _ _ _ _ _ _ Hok)
    as (e' & [= <-] & Hne).
  destruct (ResultsFacts.served_at_most_ten _ _ _ _ _ _ _ _ Hok)
    as (Hq & Hl & Hv).
  destruct (ResultsFacts.scores_at_most_lengths quiz answers)
    as (Hq' & Hl' & Hv'). fold scores in Hq', Hl', Hv'.
  unfold App.calculateAndShowResults, App.saveScores. fold scores.
  cbn [snd App.email falsy].
  destruct (String.eqb_spec e "") as [| _]; [contradiction |].
  eexists. split; [reflexivity |].
  change (default "" (Some e)) with e.
  unfold Profile.submitScores.
  cbn [GeminiService.getProp GeminiService.assoc String.eqb Ascii.eqb
         Bool.eqb default from_option Datatypes.id GeminiService.truthy
         Profile.typeofObject negb orb].
  destruct (String.eqb_spec e "") as [| _]; [contradiction |].
  cbn [negb].
  rewrite !ProfileFacts.outOfRange_whole by (assumption || lia).
  cbn [orb Profile.findByEmail Profile.castScore].
  rewrite Hfind, Hsave. reflexivity.
Qed.

Lemma quiz_scores_pass_validation_witness :
  exists quiz body,
    fst (fst (Controller.generateQuestions sampleRandom (Some "10th")
                (Some "asha@example.com") (mkClock 0 0 0)
                GeminiService.fallbackBank [] 0)) = Ok quiz /\
    snd (App.calculateAndShowResults
           (Some (App.mkStoredUser (Some "asha@example.com") None)) quiz ∅
           "2025-01-15T10:00:00.000Z") = Some body /\
    fst (Profile.submitScores numberOf string (fun s => s) everyStudent
           alwaysSaved castBooleans body 1000)
    = Profile.ScoresSaved "asha@example.com"
        (Profile.mkAptitudeScores (GeminiService.JNumber 0)
           (GeminiService.JNumber 0) (GeminiService.JNumber 0) 1000).
Proof.
  destruct (fst (fst (Controller.generateQuestions sampleRandom (Some "10th")
                        (Some "asha@example.com") (mkClock 0 0 0)
                        GeminiService.fallbackBank [] 0)))
    as [message | quiz] eqn:Hok; [vm_compute in Hok; discriminate |].
  destruct (quiz_scores_pass_validation sampleRandom (Some "10th")
              "asha@example.com" (mkClock 0 0 0) GeminiService.fallbackBank
              [] 0 quiz ∅ None "2025-01-15T10:00:00.000Z" numberOf string
              (fun s => s) everyStudent alwaysSaved castBooleans 1000
              "asha@example.com"
              (fun n => eq_refl) Hok eq_refl (fun assigned => eq_refl))
    as (body & Hbody & Hsubmit).
  exists quiz, body. split; [reflexivity |]. split; [exact Hbody |].
  rewrite Hsubmit. vm_compute in Hok. injection Hok as <-.
  vm_compute. reflexivity.
Defined.

(* ===================================================================== *)
(** * Sensitive members of a user object                                  *)
(* ===================================================================== *)

Module SanitizerFacts.
Import GeminiService Sanitizer.

Lemma assoc_deleteKey (name deleted : string)
  (fields : list (string * JsValue)) :
  assoc name (deleteKey deleted fields)
  = if String.eqb deleted name then None else assoc name fields.
Proof.
  unfold deleteKey. induction fields as [| [key v] fields IH]; simpl.
  - now destruct (String.eqb deleted name).
  - rewrite filter_cons. cbn [fst].
    destruct (decide (key <> deleted)) as [Hne | Heq].
    + simpl. rewrite IH.
      destruct (String.eqb_spec key name) as [-> | Hkn].
      * destruct (String.eqb_spec deleted name); [congruence | reflexivity].
      * reflexivity.
    + apply dec_stable in Heq. subst key. rewrite IH.
      now destruct (String.eqb_spec deleted name).
Qed.

Lemma deleteKey_absent (deleted : string) (fields : list (string * JsValue)) :
  assoc deleted fields = None -> deleteKey deleted fields = fields.
Proof.
  unfold deleteKey. induction fields as [| [key v] fields IH]; simpl.
  - reflexivity.
  - rewrite filter_cons. cbn [fst].
    destruct (String.eqb_spec key deleted) as [-> | Hne]; [discriminate |].
    intros H. rewrite decide_True by exact Hne. now rewrite IH.
Qed.

End SanitizerFacts.

(** X20. The object [sanitizeUser] returns has no member [passwordHash],
    [__v] or [password]; every other member is there with the value it
    has in the source, in the order of the source; and sanitizing the
    result again changes nothing. *)
Theorem sanitizeUser_removes_sensitive_members :
  forall (user : Sanitizer.UserArg)
         (safeUser : list (string * GeminiService.JsValue)),
    Sanitizer.sanitizeUser user = Some safeUser ->
    let source :=
      match user with
      | Sanitizer.Document plain => plain
      | Sanitizer.PlainObject fields => fields
      end in
    (forall name, name ∈ ["passwordHash"; "__v"; "password"] ->
                  GeminiService.assoc name safeUser = None) /\
    (forall name, name ∉ ["passwordHash"; "__v"; "password"] ->
                  GeminiService.assoc name safeUser
                  = GeminiService.assoc name source) /\
    safeUser `sublist_of` source /\
    (forall fields, user = Sanitizer.PlainObject fields ->
       Sanitizer.sanitizeUser (Sanitizer.PlainObject safeUser)
       = Some safeUser).
Proof.
  intros user safeUser Hsafe source.
  assert (Hdel : safeUser
                 = Sanitizer.deleteKey "password"
                     (Sanitizer.deleteKey "__v"
                        (Sanitizer.deleteKey "passwordHash" source))).
  { unfold Sanitizer.sanitizeUser in Hsafe. subst source.
    destruct user as [plain | fields].
    - now injection Hsafe as <-.
    - destruct (GeminiService.truthy _); [discriminate |].
      now injection Hsafe as <-. }
  assert (Habsent : forall name,
             name ∈ ["passwordHash"; "__v"; "password"] ->
             GeminiService.assoc name safeUser = None).
  { intros name Hin. rewrite Hdel.
    rewrite !SanitizerFacts.assoc_deleteKey.
    repeat apply elem_of_cons in Hin as [-> | Hin];
      [reflexivity .. | now apply elem_of_nil in Hin]. }
  assert (Hkept : forall name,
             name ∉ ["passwordHash"; "__v"; "password"] ->
             GeminiService.assoc name safeUser
             = GeminiService.assoc name source).
  { intros name Hnot. rewrite Hdel.
    rewrite !SanitizerFacts.assoc_deleteKey.
    destruct (String.eqb_spec "password" name) as [<- | _];
      [exfalso; apply Hnot; set_solver |].
    destruct (String.eqb_spec "__v" name) as [<- | _];
      [exfalso; apply Hnot; set_solver |].
    destruct (String.eqb_spec "passwordHash" name) as [<- | _];
      [exfalso; apply Hnot; set_solver |].
    reflexivity. }
  assert (Hagain : Sanitizer.deleteKey "password"
                     (Sanitizer.deleteKey "__v"
                        (Sanitizer.deleteKey "passwordHash" safeUser))
                   = safeUser).
  { rewrite (SanitizerFacts.deleteKey_absent "passwordHash" safeUser)
      by (apply Habsent; set_solver).
    rewrite (SanitizerFacts.deleteKey_absent "__v" safeUser)
      by (apply Habsent; set_solver).
    apply SanitizerFacts.deleteKey_absent, Habsent. set_solver. }
  split; [exact Habsent |]. split; [exact Hkept |]. split.
  - rewrite Hdel. unfold Sanitizer.deleteKey.
    etransitivity; [apply sublist_filter |].
    etransitivity; apply sublist_filter.
  - intros fields ->. unfold Sanitizer.sanitizeUser in *.
    rewrite (Hkept "toObject").
    2:{ intros Hin. repeat apply elem_of_cons in Hin as [Hin | Hin];
          [discriminate .. | now apply elem_of_nil in Hin]. }
    subst source. cbn beta iota.
    destruct (GeminiService.truthy
                (default GeminiService.JUndefined
                   (GeminiService.assoc "toObject" fields)));
      [discriminate |].
    now rewrite Hagain.
Qed.

Lemma sanitizeUser_removes_sensitive_members_witness :
  let user :=
    Sanitizer.PlainObject
      [ ("email", GeminiService.JString "asha@example.com");
        ("passwordHash", GeminiService.JString "$2b$10$abcdefghijklmnopqrstuv");
        ("loginCount", GeminiService.JNumber 3);
        ("__v", GeminiService.JNumber 0) ] in
  let safeUser :=
    [ ("email", GeminiService.JString "asha@example.com");
      ("loginCount", GeminiService.JNumber 3) ] in
  Sanitizer.sanitizeUser user = Some safeUser /\
  GeminiService.assoc "passwordHash" safeUser = None.
Proof.
  intros user safeUser.
  assert (H : Sanitizer.sanitizeUser user = Some safeUser)
    by (vm_compute; reflexivity).
  split; [exact H |].
  apply (sanitizeUser_removes_sensitive_members user safeUser H).
  apply list_elem_of_here.
Defined.

(* ===================================================================== *)
(** * The warning of the results page                                     *)
(* ===================================================================== *)

Module WarningFacts.

Lemma average_fraction (a b c : nat) :
  ((inject_Z (Z.of_nat a) + inject_Z (Z.of_nat b) + inject_Z (Z.of_nat c))
   / 3 == Z.of_nat (a + b + c) # 3)%Q.
Proof.
  rewrite <- !inject_Z_plus, <- !Nat2Z.inj_add.
  unfold Qeq, Qdiv, Qmult, Qinv, inject_Z. simpl. lia.
Qed.

Lemma toFixed2_le_4 (a b c : nat) :
  Qle_bool
    (App.toFixed2 ((inject_Z (Z.of_nat a) + inject_Z (Z.of_nat b)
                + inject_Z (Z.of_nat c)) / 3)) 4 = true
  <-> a + b + c <= 12.
Proof.
  set (n := a + b + c).
  unfold App.toFixed2.
  assert (H0 : Qle_bool 0 ((inject_Z (Z.of_nat a) + inject_Z (Z.of_nat b)
                            + inject_Z (Z.of_nat c)) / 3) = true).
  { apply Qle_bool_iff. rewrite average_fraction.
    unfold Qle. simpl. lia. }
  rewrite H0. rewrite Qle_bool_iff.
  assert (Hfloor : Qfloor ((inject_Z (Z.of_nat a) + inject_Z (Z.of_nat b)
                            + inject_Z (Z.of_nat c)) / 3 * 100 + (1 # 2))
                   = ((200 * Z.of_nat n + 3) / 6)%Z).
  { transitivity (Qfloor ((200 * Z.of_nat n + 3) # 6)).
    - apply Qfloor_comp. rewrite average_fraction. fold n.
      unfold Qeq, Qplus, Qmult. simpl. lia.
    - reflexivity. }
  rewrite Hfloor. unfold Qle. simpl.
  split; intros H.
  - assert (((200 * Z.of_nat n + 3) / 6 <= 400)%Z) by lia.
    assert ((200 * Z.of_nat n + 3 < 6 * 401)%Z).
    { apply Z.nle_gt. intros Hge.
      apply (Z.div_le_mono _ _ 6) in Hge; [| lia].
      change (6 * 401)%Z with (401 * 6)%Z in Hge.
      rewrite Z.div_mul in Hge by lia. lia. }
    lia.
  - assert (((200 * Z.of_nat n + 3) / 6 < 401)%Z); [| lia].
    apply Z.div_lt_upper_bound; lia.
Qed.

End WarningFacts.

(** X21. For scores that are whole numbers, as a test produces them, the
    results page and the recommendations agree: the warning about the low
    score is on the page exactly when the recommendations are refused for
    the low average, and it is absent exactly when they are fetched. *)
Theorem low_score_warning_agrees_with_gate :
  forall (email : option string) (a b c : option nat) (testTakenAt : string),
    testTakenAt <> "" ->
    let whole (n : option nat) : option Q :=
      (fun m => inject_Z (Z.of_nat m)) <$> n in
    let user :=
      Some (App.mkStoredUser email
              (Some (App.mkStoredScores (whole a) (whole b) (whole c)
                       (Some testTakenAt)))) in
    (App.lowScore user = Some true <->
     exists average, App.recommendationsGate user = App.ScoreTooLow average)
    /\ (App.lowScore user = Some false <->
        App.recommendationsGate user = App.Fetch).
Proof.
  intros email a b c testTakenAt Hne whole user. subst user.
  unfold App.lowScore, App.recommendationsGate.
  cbn [App.getStoredScores App.aptitudeScores App.storedTestTakenAt
         App.storedQuantitative App.storedLogical App.storedVerbal falsy].
  destruct (String.eqb_spec testTakenAt "") as [| _]; [contradiction |].
  assert (Hwhole : forall n, default 0%Q (whole n)
                             = inject_Z (Z.of_nat (default 0 n))).
  { now intros [m |]. }
  rewrite !Hwhole.
  pose proof (WarningFacts.toFixed2_le_4 (default 0 a) (default 0 b)
                (default 0 c)) as Hfixed.
  pose proof (GateFacts.average_le_4 (default 0 a) (default 0 b)
                (default 0 c)) as Hgate.
  destruct (Qle_bool (App.toFixed2 _) 4) eqn:Hf;
    destruct (Qle_bool (_ / 3) 4) eqn:Hg.
  - split; split; eauto; discriminate.
  - exfalso. apply proj1 in Hfixed. apply proj2 in Hgate.
    specialize (Hgate (Hfixed eq_refl)). discriminate.
  - exfalso. apply proj2 in Hfixed. apply proj1 in Hgate.
    specialize (Hfixed (Hgate eq_refl)). discriminate.
  - split; split; try discriminate; try reflexivity.
    + intros [average [=]].
Qed.

Lemma low_score_warning_agrees_with_gate_witness :
  let user :=
    Some (App.mkStoredUser (Some "asha@example.com")
            (Some (App.mkStoredScores (Some (inject_Z 4)) (Some (inject_Z 4))
                     (Some (inject_Z 5))
                     (Some "2025-01-15T10:00:00.000Z")))) in
  App.lowScore user = Some false /\ App.recommendationsGate user = App.Fetch.
Proof.
  intros user. assert (H : App.lowScore user = Some false)
    by (vm_compute; reflexivity).
  split; [exact H |].
  assert (Hne : "2025-01-15T10:00:00.000Z" <> "") by discriminate.
  destruct (low_score_warning_agrees_with_gate (Some "asha@example.com")
              (Some 4) (Some 4) (Some 5) "2025-01-15T10:00:00.000Z" Hne)
    as [_ [Hfetch _]].
  apply Hfetch. exact H.
Defined.

(* ===================================================================== *)
(** * The profile of a student                                            *)
(* ===================================================================== *)

(** X22. [getProfile] answers with the user exactly when the lookup under
    the lower-cased email finds a student, with status 404 when it finds
    none and with status 500 when it fails.  The user of the answer has no
    member [passwordHash] or [__v] and agrees with the document on every
    other member, and two emails with the same lower-case form get the
    same answer. *)
Theorem getProfile_hides_the_password_hash :
  forall (Student : Type) (toLowerCase : string -> string)
         (findOne : string -> option (option Student))
         (toObject : Student -> list (string * GeminiService.JsValue))
         (email : string),
    let reply := Profile.getProfile Student toLowerCase findOne toObject email in
    match reply with
    | Profile.ProfileFound user =>
        exists student,
          findOne (toLowerCase email) = Some (Some student) /\
          GeminiService.assoc "passwordHash" user = None /\
          GeminiService.assoc "__v" user = None /\
          forall name, name <> "passwordHash" -> name <> "__v" ->
            GeminiService.assoc name user
            = GeminiService.assoc name (toObject student)
    | Profile.ProfileFailure status message =>
        (status = 404%Z /\ findOne (toLowerCase email) = Some None) \/
        (status = 500%Z /\ findOne (toLowerCase email) = None)
    end /\
    forall email',
      toLowerCase email' = toLowerCase email ->
      Profile.getProfile Student toLowerCase findOne toObject email' = reply.
Proof.
  intros Student toLowerCase findOne toObject email reply. subst reply.
  unfold Profile.getProfile. cbn [Profile.findByEmail]. split.
  - destruct (findOne (toLowerCase email)) as [[student |] |];
      [| now left | now right].
    exists student. split; [reflexivity |].
    rewrite !SanitizerFacts.assoc_deleteKey. cbn.
    split; [reflexivity |]. split; [reflexivity |].
    intros name Hp Hv. rewrite !SanitizerFacts.assoc_deleteKey.
    destruct (String.eqb_spec "__v" name) as [<- | _]; [contradiction |].
    destruct (String.eqb_spec "passwordHash" name) as [<- | _];
      [contradiction | reflexivity].
  - intros email' ->. reflexivity.
Qed.

Lemma getProfile_hides_the_password_hash_witness :
  let toObject (student : string) :=
    [ ("email", GeminiService.JString student);
      ("passwordHash", GeminiService.JString "$2b$10$abcdefghijklmnopqrstuv");
      ("__v", GeminiService.JNumber 0) ] in
  Profile.getProfile string (fun s => s) everyStudent toObject "asha@example.com"
  = Profile.ProfileFound [ ("email", GeminiService.JString "asha@example.com") ] /\
  forall email',
    email' = "asha@example.com" ->
    Profile.getProfile string (fun s => s) everyStudent toObject email'
    = Profile.getProfile string (fun s => s) everyStudent toObject "asha@example.com".
Proof.
  intros toObject. split; [vm_compute; reflexivity |].
  apply (getProfile_hides_the_password_hash string (fun s => s) everyStudent
           toObject "asha@example.com").
Defined.

(* ===================================================================== *)
(** * The quiz served from the built-in set                               *)
(* ===================================================================== *)

Module FallbackFacts.

(** Every question of the built-in set has four pairwise distinct options
    and an answer index among them. *)
Lemma fallbackBank_options :
  Forall (fun q => length (options q) = 4 /\ NoDup (options q)
                   /\ (0 <= answerIndex q < 4)%Z)
         (quantitative GeminiService.fallbackBank
            ++ logical GeminiService.fallbackBank
            ++ verbal GeminiService.fallbackBank).
Proof. apply (bool_decide_unpack _). vm_compute. exact I. Qed.

Lemma fallbackBank_ids :
  NoDup (id <$> (quantitative GeminiService.fallbackBank
                   ++ logical GeminiService.fallbackBank
                   ++ verbal GeminiService.fallbackBank)).
Proof. apply (bool_decide_unpack _). vm_compute. exact I. Qed.

Lemma shuffled_question_options (random : nat -> UnitReal)
  (sectionQuestions : list Question) (usedIds : list string) (k : nat)
  (n : nat) :
  Forall (fun q => length (options q) = n /\ NoDup (options q)
                   /\ (0 <= answerIndex q < Z.of_nat n)%Z) sectionQuestions ->
  Forall (fun q => length (options q) = n /\ NoDup (options q)
                   /\ (0 <= answerIndex q < Z.of_nat n)%Z)
         (fst (Controller.processSection random sectionQuestions usedIds k)).
Proof.
  intros Hbank. apply Forall_forall. intros q' Hq'.
  destruct (ControllerFacts.processSection_origin random _ _ _ _ Hq')
    as (q & Hq & _ & _ & Hperm & Hat).
  rewrite Forall_forall in Hbank. destruct (Hbank q Hq) as (Hlen & Hnd & Hidx).
  split; [now rewrite Hperm |]. split; [now rewrite Hperm |].
  destruct (at_index_valid (options q) (answerIndex q)) as [text Ht];
    [lia |].
  rewrite Ht in Hat. apply at_index_Some in Hat as [H0 Hl].
  apply lookup_lt_Some in Hl. rewrite Hperm, Hlen in Hl. lia.
Qed.

End FallbackFacts.

(** X23. A quiz served from the built-in set is well formed whatever the
    request, the history and the draws are: it has 30 questions with
    pairwise distinct ids, and each of them has four pairwise distinct
    options and an answer index that is one of the four positions. *)
Theorem fallback_quiz_is_well_formed :
  forall (random : nat -> UnitReal) (classLevel email : option string)
         (clock : Clock) (userAttempts : list Attempt) (k : nat)
         (quiz : Questions),
    fst (fst (Controller.generateQuestions random classLevel email clock
                GeminiService.fallbackBank userAttempts k)) = Ok quiz ->
    let all := quantitative quiz ++ logical quiz ++ verbal quiz in
    length all = 30 /\
    NoDup (id <$> all) /\
    Forall (fun q => length (options q) = 4 /\ NoDup (options q)
                     /\ (0 <= answerIndex q < 4)%Z) all.
Proof.
  intros random classLevel email clock userAttempts k quiz Hok all.
  subst all.
  destruct (ControllerFacts.served_lengths random classLevel email clock
              GeminiService.fallbackBank userAttempts k quiz)
    as (Hq & Hl & Hv); [simpl; lia .. | exact Hok |].
  split; [rewrite !length_app; lia |].
  destruct (ControllerFacts.generateQuestions_Ok_inv random _ _ _ _ _ _ _ Hok)
    as (e & -> & Hne).
  rewrite (ControllerFacts.generateQuestions_served random classLevel e clock
             GeminiService.fallbackBank userAttempts k Hne) in Hok.
  cbn [fst] in Hok. injection Hok as <-. cbn [quantitative logical verbal].
  pose proof FallbackFacts.fallbackBank_options as Hbank.
  rewrite !Forall_app in Hbank. destruct Hbank as (Hbq & Hbl & Hbv).
  split.
  - eapply SelectionFacts.submseteq_NoDup;
      [| exact FallbackFacts.fallbackBank_ids].
    rewrite !fmap_app.
    repeat apply submseteq_app;
      apply SelectionFacts.processSection_ids_of_bank.
  - rewrite !Forall_app.
    split; [| split];
      now apply (FallbackFacts.shuffled_question_options random _ _ _ 4).
Qed.

Lemma fallback_quiz_is_well_formed_witness :
  exists quiz,
    fst (fst (Controller.generateQuestions sampleRandom (Some "10th")
                (Some "asha@example.com") (mkClock 0 0 0)
                GeminiService.fallbackBank [] 0)) = Ok quiz /\
    length (quantitative quiz ++ logical quiz ++ verbal quiz) = 30.
Proof.
  eexists. split; [vm_compute; reflexivity |].
  apply (fallback_quiz_is_well_formed sampleRandom (Some "10th")
           (Some "asha@example.com") (mkClock 0 0 0) [] 0).
  vm_compute. reflexivity.
Defined.

(* ===================================================================== *)
(** * Resets of the question pool in a row                                *)
(* ===================================================================== *)

Module ResetFacts.

Lemma resetQuestionPool_store (email : option string)
  (userAttempts : list Attempt) :
  snd (Controller.resetQuestionPool email userAttempts)
  = if falsy email then userAttempts
    else filter (fun attempt => userEmail attempt <> default "" email)
           userAttempts.
Proof.
  unfold Controller.resetQuestionPool. now destruct (falsy email).
Qed.

Lemma filter_comm {A} (P Q : A -> Prop) `{!forall x, Decision (P x)}
  `{!forall x, Decision (Q x)} (l : list A) :
  filter P (filter Q l) = filter Q (filter P l).
Proof.
  rewrite !list_filter_filter. apply list_filter_iff. intros x. tauto.
Qed.

Lemma filter_idemp {A} (P : A -> Prop) `{!forall x, Decision (P x)}
  (l : list A) :
  filter P (filter P l) = filter P l.
Proof.
  rewrite list_filter_filter. apply list_filter_iff. intros x. tauto.
Qed.

End ResetFacts.

(** X24. Resets of the question pool compose: a second reset for the same
    student changes nothing, and resets for two students leave the same
    store in either order.  A request without an email or with an empty
    one is rejected with status 400 and changes nothing, and it takes part
    in the two laws as the reset that changes nothing. *)
Theorem resets_are_idempotent_and_commute :
  forall (email1 email2 : option string) (userAttempts : list Attempt),
    let reset email store := snd (Controller.resetQuestionPool email store) in
    reset email1 (reset email1 userAttempts) = reset email1 userAttempts /\
    reset email1 (reset email2 userAttempts)
    = reset email2 (reset email1 userAttempts) /\
    Controller.resetQuestionPool None userAttempts
    = (BadRequest "User email is required", userAttempts) /\
    Controller.resetQuestionPool (Some "") userAttempts
    = (BadRequest "User email is required", userAttempts) /\
    (forall e, e <> "" ->
       Controller.resetQuestionPool (Some e) userAttempts
       = (Ok "Question pool reset successfully",
          filter (fun attempt => userEmail attempt <> e) userAttempts)).
Proof.
  intros email1 email2 userAttempts reset. subst reset. cbv beta.
  rewrite !ResetFacts.resetQuestionPool_store.
  split; [| split; [| split; [| split]]].
  - destruct (falsy email1); auto using ResetFacts.filter_idemp.
  - destruct (falsy email1), (falsy email2);
      auto using ResetFacts.filter_comm.
  - reflexivity.
  - reflexivity.
  - intros e Hne. unfold Controller.resetQuestionPool, falsy.
    now destruct (String.eqb_spec e "").
Qed.

Lemma resets_are_idempotent_and_commute_witness :
  let store :=
    [ mkAttempt "asha@example.com" (Some "10th") ["q1"; "q2"] 1000;
      mkAttempt "ravi@example.com" (Some "12th") ["q3"] 2000;
      mkAttempt "asha@example.com" None ["q4"] 3000 ] in
  Controller.resetQuestionPool (Some "asha@example.com") store
  = (Ok "Question pool reset successfully",
     [ mkAttempt "ravi@example.com" (Some "12th") ["q3"] 2000 ]) /\
  Controller.resetQuestionPool None store
  = (BadRequest "User email is required", store).
Proof.
  intros store.
  destruct (resets_are_idempotent_and_commute (Some "asha@example.com")
              None store) as (_ & _ & Hnone & _ & Hsome).
  split; [| exact Hnone].
  rewrite (Hsome "asha@example.com") by discriminate.
  vm_compute. reflexivity.
Defined.
